(** * fixedincomelib.product.linear_products

    A shallow embedding of the product layer of fixedincomelib
    (src/fixedincomelib/product/linear_products.py): the cashflow products,
    the schedule-driven [InterestRateStream] and the two-legged
    [ProductRFRSwap], together with the properties stated for them.

    Python floats are IEEE-754 binary64 numbers and are modelled by Rocq's
    primitive floats; raised exceptions by the [Py.exception] monad;
    dictionaries by stdpp's [gmap]; the list-appending loop of the stream by a
    recursion over the schedule rows that threads the two lists.

    The file also embeds the option strategies of
    src/OptionStrategyRegistry/data/strategies.py, whose dictionary is keyed
    by tuples that hold a float and is modelled by the list of its items in
    insertion order. *)

From Stdlib Require Import ZArith Floats Bool Ascii Lia.
From Stdlib Require Uint63.
From stdpp Require Import base strings gmap list sorting.

(** * Part I: the embedding *)

(** ** Python values, exceptions and dictionaries *)

Module Py.

(** The values a serialized product holds. *)
Inductive value : Type :=
| Int (z : Z)
| Str (s : string)
| Float (f : float).

(** The error taxonomy of the library. [ConfigurationError] is the bare
    [Exception] raised by [InterestRateStream.__init__];
    [LookupError] an index name the registry does not know, and
    [LookupErrorOfValue] a key handed to the registry that is not text, which
    it does not know either; [BoundsError] an index outside a portfolio (or a
    failed bounds assertion); [ParsingError] a missing key or a malformed
    value met while deserializing. *)
Inductive error : Type :=
| ConfigurationError (message : string)
| LookupError (name : string)
| LookupErrorOfValue (key : value)
| BoundsError (i : Z)
| ParsingError (what : string).

(** A computation that returns or raises. *)
Inductive exception (A : Type) : Type :=
| OK (a : A)
| Raise (e : error).

Arguments OK {A} a.
Arguments Raise {A} e.

#[global] Instance exception_ret : MRet exception := @OK.

#[global] Instance exception_bind : MBind exception :=
  fun A B f m => match m with OK a => f a | Raise e => Raise e end.

(** [x if x is not None else raise e]. *)
Definition from_option {A : Type} (e : error) (o : option A) : exception A :=
  match o with Some a => OK a | None => Raise e end.

Abbreviation dict := (gmap string value).

(** [d[k]]. *)
Definition getitem (d : dict) (k : string) : exception value :=
  from_option (ParsingError k) (d !! k).

(** [content[k] = v], one assignment after the other. *)
Definition setitems (content : dict) (items : list (string * value)) : dict :=
  fold_left (fun content kv => <[kv.1 := kv.2]> content) items content.

(** [str.upper] on ASCII text. *)
Definition upper_ascii (c : ascii) : ascii :=
  let n := nat_of_ascii c in
  if (97 <=? n)%nat && (n <=? 122)%nat then ascii_of_nat (n - 32) else c.

Fixpoint upper (s : string) : string :=
  match s with
  | EmptyString => EmptyString
  | String c s => String (upper_ascii c) (upper s)
  end.

(** [float(z)] for an int: the nearest binary64 number, ties to even;
    an int beyond the range raises. *)
Definition float_of_int (z : Z) : exception float :=
  let f := SF2Prim (binary_normalize prec emax z 0 false) in
  if is_infinity f then Raise (ParsingError "int too large to convert to float")
  else OK f.

End Py.

Import Py.

(** ** fixedincomelib.product.utilities *)

Inductive LongOrShort : Type := LONG | SHORT.

Inductive PayOrReceive : Type := PAY | RECEIVE.

Definition PayOrReceive_eqb (a b : PayOrReceive) : bool :=
  match a, b with
  | PAY, PAY | RECEIVE, RECEIVE => true
  | _, _ => false
  end.

(** ** fixedincomelib.market and fixedincomelib.date: the named conventions

    Each of these classes wraps the name it is built from
    ([Period("0D")], [BusinessDayConvention("F")], [HolidayConvention("USGS")],
    [Currency(code)]). *)

Record Period : Type := mkPeriod { Period_str : string }.

Record Currency : Type := mkCurrency { Currency_code : string }.

Record AccrualBasis : Type := mkAccrualBasis { AccrualBasis_str : string }.

Record BusinessDayConvention : Type :=
  mkBusinessDayConvention { BusinessDayConvention_str : string }.

Record HolidayConvention : Type :=
  mkHolidayConvention { HolidayConvention_str : string }.

(** One row of the schedule frame, read by its column names. *)
Record ScheduleRow (Date : Type) : Type := mkScheduleRow {
  StartDate : Date;
  EndDate : Date;
  PaymentDate : Date
}.

Arguments mkScheduleRow {Date} _ _ _.
Arguments StartDate {Date} _.
Arguments EndDate {Date} _.
Arguments PaymentDate {Date} _.

(** Modelled from the spec: [TermOrTerminationDate] of fixedincomelib.date,
    which is not part of the sources. It is "either an explicit date or a
    tenor"; [get_date] and [get_term] answer [None] on the other variant. *)
Module TermOrTerminationDate.

Inductive t (Date : Type) : Type :=
| of_date (d : Date)
| of_term (p : Period).

Arguments of_date {Date} d.
Arguments of_term {Date} p.

Definition is_term {Date : Type} (x : t Date) : bool :=
  match x with of_term _ => true | of_date _ => false end.

Definition get_date {Date : Type} (x : t Date) : option Date :=
  match x with of_date d => Some d | of_term _ => None end.

Definition get_term {Date : Type} (x : t Date) : option Period :=
  match x with of_term p => Some p | of_date _ => None end.

End TermOrTerminationDate.

(** ** The external collaborators

    What linear_products.py imports and calls but does not define: dates and
    their ISO text, the compounding-method enumeration, the index registry and
    the QuantLib index and calendar objects it hands out, the schedule builder,
    the accrual function, and Python's [float] on text. They are taken as
    parameters. *)
Class Collaborators : Type := {
  (** fixedincomelib.date.Date: [Date(text)], [d.ISO()] and the serial number
      that orders dates. *)
  Date : Type;
  Date_of_str : string -> option Date;
  ISO : Date -> string;
  serialNumber : Date -> Z;
  (** [TermOrTerminationDate(text)] *)
  TermOrTerminationDate_of_str : string -> option (TermOrTerminationDate.t Date);
  (** fixedincomelib.market.data_conventions.CompoundingMethod *)
  CompoundingMethod : Type;
  COMPOUND : CompoundingMethod;
  CompoundingMethod_to_string : CompoundingMethod -> string;
  CompoundingMethod_from_string : string -> option CompoundingMethod;
  (** QuantLib's overnight index, calendar and business-day convention *)
  OvernightIndex : Type;
  Calendar : Type;
  QlBusinessDayConvention : Type;
  fixingCalendar : OvernightIndex -> Calendar;
  businessDayConvention : OvernightIndex -> QlBusinessDayConvention;
  currency_code : OvernightIndex -> string;
  Calendar_advance : Calendar -> Date -> Period -> QlBusinessDayConvention -> Date;
  (** [IndexRegistry().get(name)]; [None] when the name is unknown. *)
  IndexRegistry_get : string -> option OvernightIndex;
  (** [make_schedule(start_date, end_date, accrual_period, holiday_convention,
      business_day_convention, accrual_basis, rule, end_of_month,
      fix_in_arrear, fixing_offset, payment_offset,
      payment_business_day_convention, payment_holiday_convention)]:
      the rows of the frame, in frame order. *)
  make_schedule :
    Date -> Date -> Period -> HolidayConvention -> BusinessDayConvention ->
    AccrualBasis -> string -> bool -> bool -> Period -> Period ->
    BusinessDayConvention -> HolidayConvention -> list (ScheduleRow Date);
  (** [accrued(start, end, basis, business_day_convention, holiday_convention)] *)
  accrued :
    Date -> Date -> AccrualBasis -> BusinessDayConvention -> HolidayConvention ->
    float;
  (** Python's [float(text)] *)
  float_of_str : string -> option float
}.

(** [Date(v)] and [float(v)] on a dictionary value. *)
Definition Date_of_value `{Collaborators} (key : string) (v : value) : exception Date :=
  match v with
  | Str s => from_option (ParsingError key) (Date_of_str s)
  | _ => Raise (ParsingError key)
  end.

Definition TermOrTerminationDate_of_value `{Collaborators} (key : string) (v : value)
  : exception (TermOrTerminationDate.t Date) :=
  match v with
  | Str s => from_option (ParsingError key) (TermOrTerminationDate_of_str s)
  | _ => Raise (ParsingError key)
  end.

Definition float_of_value `{Collaborators} (key : string) (v : value) : exception float :=
  match v with
  | Float f => OK f
  | Int z => float_of_int z
  | Str s => from_option (ParsingError key) (float_of_str s)
  end.

Definition str_of_value (key : string) (v : value) : exception string :=
  match v with
  | Str s => OK s
  | _ => Raise (ParsingError key)
  end.

(** The defaults of the optional constructor arguments. *)
Definition default_business_day_convention : BusinessDayConvention :=
  mkBusinessDayConvention "F".

Definition default_holiday_convention : HolidayConvention :=
  mkHolidayConvention "USGS".

Definition default_payment_offset : Period := mkPeriod "0D".

Definition default_rule : string := "BACKWARD".

Definition default_end_of_month : bool := false.

Definition default_fixing_in_arrear : bool := true.

Definition default_ois_spread : float := 0%float.

(** ** The products *)

Module ProductBulletCashflow.
Section WithCollaborators.
Context `{Collaborators}.

Definition _version : Z := 1.

Definition _product_type : string := "PRODUCT_BULLET_CASHFLOW".

Record t : Type := {
  first_date_ : Date;
  last_date_ : Date;
  long_or_short_ : LongOrShort;
  notional_ : float;
  currency_ : Currency;
  paymnet_date_ : Date
}.

Definition __init__
    (termination_date : Date) (currency : Currency) (notional : float)
    (long_or_short : LongOrShort) (payment_date : option Date) : t :=
  let last_date_ := termination_date in
  {| first_date_ := termination_date;
     last_date_ := last_date_;
     long_or_short_ := long_or_short;
     notional_ := notional;
     currency_ := currency;
     paymnet_date_ :=
       match payment_date with None => last_date_ | Some payment_date => payment_date end |}.

Definition termination_date (self : t) : Date := last_date_ self.

Definition payment_date (self : t) : Date := paymnet_date_ self.

End WithCollaborators.
End ProductBulletCashflow.

Module ProductFixedAccrued.
Section WithCollaborators.
Context `{Collaborators}.

Definition _version : Z := 1.

Definition _product_type : string := "PRODUCT_FIXED_ACCRUED".

Record t : Type := {
  effective_date_ : Date;
  first_date_ : Date;
  termination_date_ : Date;
  last_date_ : Date;
  long_or_short_ : LongOrShort;
  notional_ : float;
  currency_ : Currency;
  accrual_basis_ : AccrualBasis;
  business_day_convention_ : BusinessDayConvention;
  holiday_convention_ : HolidayConvention;
  paymnet_date_ : Date;
  accrued_ : float
}.

Definition __init__
    (effective_date termination_date : Date) (currency : Currency)
    (notional : float) (accrual_basis : AccrualBasis)
    (payment_date : option Date)
    (business_day_convention : BusinessDayConvention)
    (holiday_convention : HolidayConvention) : t :=
  let paymnet_date_ := termination_date in
  let paymnet_date_ :=
    match payment_date with
    | Some payment_date => payment_date
    | None => paymnet_date_
    end in
  {| effective_date_ := effective_date;
     first_date_ := effective_date;
     termination_date_ := termination_date;
     last_date_ := termination_date;
     long_or_short_ := if (0 <=? notional)%float then LONG else SHORT;
     notional_ := notional;
     currency_ := currency;
     accrual_basis_ := accrual_basis;
     business_day_convention_ := business_day_convention;
     holiday_convention_ := holiday_convention;
     paymnet_date_ := paymnet_date_;
     accrued_ :=
       accrued effective_date termination_date accrual_basis
         business_day_convention holiday_convention |}.

Definition effective_date (self : t) : Date := effective_date_ self.

Definition termination_date (self : t) : Date := termination_date_ self.

Definition payment_date (self : t) : Date := paymnet_date_ self.

End WithCollaborators.
End ProductFixedAccrued.

Module ProductOvernightIndexCashflow.
Section WithCollaborators.
Context `{Collaborators}.

Definition _version : Z := 1.

Definition _product_type : string := "PRODUCT_OVERNIGHT_INDEX_CASHFLOW".

Record t : Type := {
  on_index_str_ : string;
  on_index_ : OvernightIndex;
  first_date_ : Date;
  effective_date_ : Date;
  termination_date_ : Date;
  last_date_ : Date;
  paymentDate_ : Date;
  notional_ : float;
  long_or_short_ : LongOrShort;
  compounding_method_ : CompoundingMethod;
  spread_ : float;
  currency_ : Currency
}.

(** The termination date is [term_or_termination_date.get_date()], replaced,
    when [is_term()], by the effective date advanced by [get_term()] on the
    index's fixing calendar under the index's business-day convention: the
    two statements of the source are one case analysis on the variant. *)
Definition __init__
    (effective_date : Date)
    (term_or_termination_date : TermOrTerminationDate.t Date)
    (on_index : string) (compounding_method : CompoundingMethod)
    (spread notional : float) (payment_date : option Date) : exception t :=
  on_index_ ← from_option (LookupError on_index) (IndexRegistry_get on_index);
  let termination_date_ :=
    match term_or_termination_date with
    | TermOrTerminationDate.of_date d => d
    | TermOrTerminationDate.of_term term =>
        let calendar := fixingCalendar on_index_ in
        Calendar_advance calendar effective_date term
          (businessDayConvention on_index_)
    end in
  OK {| on_index_str_ := on_index;
        on_index_ := on_index_;
        first_date_ := effective_date;
        effective_date_ := effective_date;
        termination_date_ := termination_date_;
        last_date_ := termination_date_;
        paymentDate_ :=
          match payment_date with
          | None => termination_date_
          | Some payment_date => payment_date
          end;
        notional_ := notional;
        long_or_short_ := if (0 <=? notional)%float then LONG else SHORT;
        compounding_method_ := compounding_method;
        spread_ := spread;
        currency_ := mkCurrency (currency_code on_index_) |}.

Definition effective_date (self : t) : Date := effective_date_ self.

Definition termination_date (self : t) : Date := termination_date_ self.

Definition payment_date (self : t) : Date := paymentDate_ self.

Definition spread (self : t) : float := spread_ self.

Definition compounding_method (self : t) : CompoundingMethod :=
  compounding_method_ self.

(** [Product.notional], the base-class property. *)
Definition notional (self : t) : float := notional_ self.

Definition serialize (self : t) : dict :=
  setitems ∅
    [ ("VERSION", Int _version);
      ("TYPE", Str _product_type);
      ("EFFECTIVE_DATE", Str (ISO (effective_date self)));
      ("TERMINATION_DATE", Str (ISO (termination_date self)));
      ("PAYMENT_DATE", Str (ISO (payment_date self)));
      ("ON_INDEX", Str (on_index_str_ self));
      ("SPREAD", Float (spread self));
      ("COMPOUNDING_METHOD",
        Str (upper (CompoundingMethod_to_string (compounding_method self))));
      ("NOTIONAL", Float (notional self)) ].

(** Each subscript raises on a missing key and each conversion on a value it
    cannot read, in the order of the source. [ON_INDEX] is read and handed to
    the constructor as it is, with no conversion: the registry lookup, the
    first thing the constructor does, is what meets it, after the spread, the
    method and the notional were read. The registry is keyed by text, so a
    value that is not text is a key it does not know. *)
Definition deserialize (input_dict : dict) : exception t :=
  v ← getitem input_dict "EFFECTIVE_DATE";
  effective_date ← Date_of_value "EFFECTIVE_DATE" v;
  v ← getitem input_dict "TERMINATION_DATE";
  termination_date ← TermOrTerminationDate_of_value "TERMINATION_DATE" v;
  v ← getitem input_dict "PAYMENT_DATE";
  payment_date ← Date_of_value "PAYMENT_DATE" v;
  on_index ← getitem input_dict "ON_INDEX";
  v ← getitem input_dict "SPREAD";
  spread ← float_of_value "SPREAD" v;
  v ← getitem input_dict "COMPOUNDING_METHOD";
  text ← str_of_value "COMPOUNDING_METHOD" v;
  compounding_method ←
    from_option (ParsingError "COMPOUNDING_METHOD")
      (CompoundingMethod_from_string text);
  v ← getitem input_dict "NOTIONAL";
  notional ← float_of_value "NOTIONAL" v;
  match on_index with
  | Str on_index =>
      __init__ effective_date termination_date on_index compounding_method
        spread notional (Some payment_date)
  | _ => Raise (LookupErrorOfValue on_index)
  end.

End WithCollaborators.
End ProductOvernightIndexCashflow.

(** The constructor body is [super().__init__()] alone: no field of its own. *)
Module ProductRFRFuture.

Definition _version : Z := 1.

Definition _product_type : string := "PRODUCT_RFR_FUTURE".

Inductive t : Type := mk.

Definition __init__ {Date : Type}
    (effective_date : Date)
    (term_or_termination_date : TermOrTerminationDate.t Date)
    (future_conv : string) (long_or_short : LongOrShort)
    (amount strike : float) : t := mk.

End ProductRFRFuture.

(** ** ProductPortfolio

    Modelled from the spec: [ProductPortfolio] of
    fixedincomelib.product.product_portfolio, which is not part of the sources.
    It is "an ordered sequence of (Product, weight) pairs" that "exposes
    element-by-index access with bounds checking": [element(i)] "returns the
    i-th (Product, weight) pair or fails with an out-of-range error for [i]
    outside [0, num_elements)". *)
Module ProductPortfolio.

Record t (P : Type) : Type := {
  products_ : list P;
  weights_ : list Z;
  num_elements_ : Z
}.

Arguments products_ {P} _.
Arguments weights_ {P} _.
Arguments num_elements_ {P} _.

Definition __init__ {P : Type} (products : list P) (weights : list Z) : t P :=
  {| products_ := products;
     weights_ := weights;
     num_elements_ := Z.of_nat (length products) |}.

Definition element {P : Type} (self : t P) (i : Z) : exception (P * Z) :=
  if (0 <=? i)%Z && (i <? num_elements_ self)%Z then
    match products_ self !! Z.to_nat i, weights_ self !! Z.to_nat i with
    | Some product, Some weight => OK (product, weight)
    | _, _ => Raise (BoundsError i)
    end
  else Raise (BoundsError i).

End ProductPortfolio.

(** The state of a [ProductRFRSwap], over the type of the products its two
    legs hold (the swap is itself a product, and its legs hold products). *)
Module ProductRFRSwapState.
Section WithCollaborators.
Context `{Collaborators}.

Record t (P : Type) : Type := {
  on_index_str_ : string;
  on_index_ : OvernightIndex;
  pay_business_day_convention_ : BusinessDayConvention;
  pay_holiday_convention_ : HolidayConvention;
  first_date_ : Date;
  effective_date_ : Date;
  term_or_termination_date_ : TermOrTerminationDate.t Date;
  termination_date_ : Date;
  last_date_ : Date;
  currency_ : Currency;
  fixed_rate_ : float;
  notional_ : float;
  spread_ : float;
  pay_or_rec_ : PayOrReceive;
  long_or_short_ : LongOrShort;
  pay_offset_ : Period;
  accrual_basis_ : AccrualBasis;
  accrual_period_ : Period;
  floating_leg_accrual_period_ : Period;
  compounding_method_ : CompoundingMethod;
  floating_leg_ : ProductPortfolio.t P;
  fixed_leg_ : ProductPortfolio.t P
}.

End WithCollaborators.

Arguments on_index_str_ {_ P} _.
Arguments on_index_ {_ P} _.
Arguments pay_business_day_convention_ {_ P} _.
Arguments pay_holiday_convention_ {_ P} _.
Arguments first_date_ {_ P} _.
Arguments effective_date_ {_ P} _.
Arguments term_or_termination_date_ {_ P} _.
Arguments termination_date_ {_ P} _.
Arguments last_date_ {_ P} _.
Arguments currency_ {_ P} _.
Arguments fixed_rate_ {_ P} _.
Arguments notional_ {_ P} _.
Arguments spread_ {_ P} _.
Arguments pay_or_rec_ {_ P} _.
Arguments long_or_short_ {_ P} _.
Arguments pay_offset_ {_ P} _.
Arguments accrual_basis_ {_ P} _.
Arguments accrual_period_ {_ P} _.
Arguments floating_leg_accrual_period_ {_ P} _.
Arguments compounding_method_ {_ P} _.
Arguments floating_leg_ {_ P} _.
Arguments fixed_leg_ {_ P} _.

End ProductRFRSwapState.

(** [Product]: the closed set of product classes of the module. *)
#[warnings="-register-all"]
Inductive Product `{Collaborators} : Type :=
| BulletCashflow (x : ProductBulletCashflow.t)
| FixedAccrued (x : ProductFixedAccrued.t)
| OvernightIndexCashflow (x : ProductOvernightIndexCashflow.t)
| RFRFuture (x : ProductRFRFuture.t)
| RFRSwap (x : ProductRFRSwapState.t Product).

(** ** InterestRateStream *)

Module InterestRateStream.
Section WithCollaborators.
Context `{Collaborators}.

Definition t : Type := ProductPortfolio.t Product.

Section Loop.

Variables
  (notional : float) (currency : Currency) (accrual_basis : AccrualBasis)
  (buseinss_day_convention : BusinessDayConvention)
  (holiday_convention : HolidayConvention)
  (float_index : option string) (fixed_rate : option float)
  (ois_compounding : CompoundingMethod) (ois_spread : float).

(** The body of the loop over the schedule: what one row appends to
    [products] and [weights]. *)
Definition for_row (row : ScheduleRow Date) (products : list Product)
    (weights : list Z) : exception (list Product * list Z) :=
  let start_date := StartDate row in
  let end_date := EndDate row in
  let payment_date := PaymentDate row in
  '(products, weights) ←
    match fixed_rate with
    | Some fixed_rate =>
        let fixed_product :=
          ProductFixedAccrued.__init__ start_date end_date currency
            (notional * fixed_rate)%float accrual_basis (Some payment_date)
            buseinss_day_convention holiday_convention in
        let weights := weights ++ [1%Z] in
        let products := products ++ [FixedAccrued fixed_product] in
        OK (products, weights)
    | None => OK (products, weights)
    end;
  match float_index with
  | Some float_index =>
      float_prod ←
        ProductOvernightIndexCashflow.__init__ start_date
          (TermOrTerminationDate.of_date end_date) float_index
          ois_compounding ois_spread notional (Some payment_date);
      let weights := weights ++ [1%Z] in
      let products := products ++ [OvernightIndexCashflow float_prod] in
      OK (products, weights)
  | None => OK (products, weights)
  end.

(** [for index, row in schedule.iterrows(): ...] *)
Fixpoint iterrows (schedule : list (ScheduleRow Date)) (products : list Product)
    (weights : list Z) : exception (list Product * list Z) :=
  match schedule with
  | [] => OK (products, weights)
  | row :: schedule =>
      '(products, weights) ← for_row row products weights;
      iterrows schedule products weights
  end.

End Loop.

Definition __init__
    (effective_date termination_date : Date) (accrual_period : Period)
    (notional : float) (currency : Currency) (accrual_basis : AccrualBasis)
    (buseinss_day_convention : BusinessDayConvention)
    (holiday_convention : HolidayConvention)
    (float_index : option string) (fixed_rate : option float)
    (is_on_index : bool)
    (ois_compounding : CompoundingMethod) (ois_spread : float)
    (fixing_in_arrear : bool) (payment_offset : Period)
    (payment_business_day_convention : BusinessDayConvention)
    (payment_holiday_convention : HolidayConvention)
    (rule : string) (end_of_month : bool) : exception t :=
  match float_index, fixed_rate with
  | None, None =>
      Raise (ConfigurationError
               "Cannot have both floating index and fixed rate invalid.")
  | _, _ =>
      let schedule :=
        make_schedule effective_date termination_date accrual_period
          holiday_convention buseinss_day_convention accrual_basis rule
          end_of_month fixing_in_arrear (mkPeriod "0D") payment_offset
          payment_business_day_convention payment_holiday_convention in
      '(products, weights) ←
        iterrows notional currency accrual_basis buseinss_day_convention
          holiday_convention float_index fixed_rate ois_compounding ois_spread
          schedule [] [];
      OK (ProductPortfolio.__init__ products weights)
  end.

Definition cashflow (self : t) (i : Z) : exception (Product * Z) :=
  ProductPortfolio.element self i.

Definition num_cashflows (self : t) : Z := ProductPortfolio.num_elements_ self.

End WithCollaborators.
End InterestRateStream.

(** ** ProductRFRSwap *)

Module ProductRFRSwap.
Section WithCollaborators.
Context `{Collaborators}.

Import ProductRFRSwapState.

Definition _version : Z := 1.

Definition _product_type : string := "PRODUCT_RFR_SWAP".

Definition t : Type := ProductRFRSwapState.t Product.

(** [1.0 if self.pay_or_rec_ == PayOrReceive.PAY else -1.0] *)
Definition fixed_leg_sign (pay_or_rec : PayOrReceive) : float :=
  if PayOrReceive_eqb pay_or_rec PAY then 1%float else (- 1)%float.

(** The two legs are built with the keyword arguments of the source; the
    arguments a call leaves out take the defaults of
    [InterestRateStream.__init__]. *)
Definition __init__
    (effective_date : Date)
    (term_or_termination_date : TermOrTerminationDate.t Date)
    (payment_off_set : Period) (on_index : string) (fixed_rate : float)
    (pay_or_rec : PayOrReceive) (notional : float) (accrual_period : Period)
    (accrual_basis : AccrualBasis) (floating_leg_accrual_period : option Period)
    (pay_business_day_convention : BusinessDayConvention)
    (pay_holiday_convention : HolidayConvention)
    (spread : float) (compounding_method : CompoundingMethod) : exception t :=
  on_index_ ← from_option (LookupError on_index) (IndexRegistry_get on_index);
  let termination_date_ :=
    match term_or_termination_date with
    | TermOrTerminationDate.of_date d => d
    | TermOrTerminationDate.of_term term =>
        let calendar := fixingCalendar on_index_ in
        Calendar_advance calendar effective_date term
          (businessDayConvention on_index_)
    end in
  let currency_ := mkCurrency (currency_code on_index_) in
  let floating_leg_accrual_period_ :=
    match floating_leg_accrual_period with
    | None => accrual_period
    | Some floating_leg_accrual_period => floating_leg_accrual_period
    end in
  let fixed_leg_sign := fixed_leg_sign pay_or_rec in
  floating_leg_ ←
    InterestRateStream.__init__ effective_date termination_date_
      floating_leg_accrual_period_ (notional * - fixed_leg_sign)%float
      currency_ accrual_basis pay_business_day_convention
      pay_holiday_convention (Some on_index) None true compounding_method
      spread default_fixing_in_arrear payment_off_set
      pay_business_day_convention pay_holiday_convention default_rule
      default_end_of_month;
  fixed_leg_ ←
    InterestRateStream.__init__ effective_date termination_date_
      accrual_period (notional * fixed_leg_sign)%float
      currency_ accrual_basis pay_business_day_convention
      pay_holiday_convention None (Some fixed_rate) false COMPOUND
      default_ois_spread default_fixing_in_arrear payment_off_set
      pay_business_day_convention pay_holiday_convention default_rule
      default_end_of_month;
  OK {| on_index_str_ := on_index;
        on_index_ := on_index_;
        pay_business_day_convention_ := pay_business_day_convention;
        pay_holiday_convention_ := pay_holiday_convention;
        first_date_ := effective_date;
        effective_date_ := effective_date;
        term_or_termination_date_ := term_or_termination_date;
        termination_date_ := termination_date_;
        last_date_ := termination_date_;
        currency_ := currency_;
        fixed_rate_ := fixed_rate;
        notional_ := notional;
        spread_ := spread;
        pay_or_rec_ := pay_or_rec;
        long_or_short_ := if (0 <? notional)%float then LONG else SHORT;
        pay_offset_ := payment_off_set;
        accrual_basis_ := accrual_basis;
        accrual_period_ := accrual_period;
        floating_leg_accrual_period_ := floating_leg_accrual_period_;
        compounding_method_ := compounding_method;
        floating_leg_ := floating_leg_;
        fixed_leg_ := fixed_leg_ |}.

(** [assert 0 <= i < self.floating_leg_.num_cashflows()] *)
Definition floating_leg_cash_flow (self : t) (i : Z) : exception (Product * Z) :=
  if (0 <=? i)%Z && (i <? InterestRateStream.num_cashflows (floating_leg_ self))%Z
  then ProductPortfolio.element (floating_leg_ self) i
  else Raise (BoundsError i).

Definition fixed_leg_cash_flow (self : t) (i : Z) : exception (Product * Z) :=
  if (0 <=? i)%Z && (i <? InterestRateStream.num_cashflows (fixed_leg_ self))%Z
  then ProductPortfolio.element (fixed_leg_ self) i
  else Raise (BoundsError i).

Definition effective_date (self : t) : Date := effective_date_ self.

Definition termination_date (self : t) : Date := termination_date_ self.

End WithCollaborators.
End ProductRFRSwap.

(** ** The fields every product shares: [Product.notional],
    [Product.long_or_short] and the [_product_type] tag *)

Definition product_type `{Collaborators} (p : Product) : string :=
  match p with
  | BulletCashflow _ => ProductBulletCashflow._product_type
  | FixedAccrued _ => ProductFixedAccrued._product_type
  | OvernightIndexCashflow _ => ProductOvernightIndexCashflow._product_type
  | RFRFuture _ => ProductRFRFuture._product_type
  | RFRSwap _ => ProductRFRSwap._product_type
  end.

(** The future sets neither field: both stay unset. *)
Definition Product_notional `{Collaborators} (p : Product) : option float :=
  match p with
  | BulletCashflow x => Some (ProductBulletCashflow.notional_ x)
  | FixedAccrued x => Some (ProductFixedAccrued.notional_ x)
  | OvernightIndexCashflow x => Some (ProductOvernightIndexCashflow.notional_ x)
  | RFRFuture _ => None
  | RFRSwap x => Some (ProductRFRSwapState.notional_ x)
  end.

Definition Product_long_or_short `{Collaborators} (p : Product) : option LongOrShort :=
  match p with
  | BulletCashflow x => Some (ProductBulletCashflow.long_or_short_ x)
  | FixedAccrued x => Some (ProductFixedAccrued.long_or_short_ x)
  | OvernightIndexCashflow x => Some (ProductOvernightIndexCashflow.long_or_short_ x)
  | RFRFuture _ => None
  | RFRSwap x => Some (ProductRFRSwapState.long_or_short_ x)
  end.

(** ** ProductVisitor and [accept]

    Modelled from the spec: [ProductVisitor] of
    fixedincomelib.product.product_interfaces, which is not part of the
    sources. It is "a capability contract: one handler per concrete Product
    variant"; [visit] runs the handler of the product's class. The value of a
    call carries, before the handler's result, the log of the handlers that
    ran, each named by the [_product_type] it handles. *)
Module ProductVisitor.
Section WithCollaborators.
Context `{Collaborators}.

Record t (R : Type) : Type := {
  visit_ProductBulletCashflow : ProductBulletCashflow.t -> R;
  visit_ProductFixedAccrued : ProductFixedAccrued.t -> R;
  visit_ProductOvernightIndexCashflow : ProductOvernightIndexCashflow.t -> R;
  visit_ProductRFRFuture : ProductRFRFuture.t -> R;
  visit_ProductRFRSwap : ProductRFRSwap.t -> R
}.

Definition calls (R : Type) : Type := (list string * R)%type.

(** Running one handler: its name is logged and its result returned. *)
Definition invoke {A R : Type} (name : string) (handler : A -> R) (x : A) : calls R :=
  ([name], handler x).

(** The handler a visitor holds for a product, applied to it. *)
Definition handler_result {R : Type} (visitor : t R) (product : Product) : R :=
  match product with
  | BulletCashflow x => visit_ProductBulletCashflow R visitor x
  | FixedAccrued x => visit_ProductFixedAccrued R visitor x
  | OvernightIndexCashflow x => visit_ProductOvernightIndexCashflow R visitor x
  | RFRFuture x => visit_ProductRFRFuture R visitor x
  | RFRSwap x => visit_ProductRFRSwap R visitor x
  end.

Definition visit {R : Type} (visitor : t R) (product : Product) : calls R :=
  match product with
  | BulletCashflow x =>
      invoke ProductBulletCashflow._product_type
        (visit_ProductBulletCashflow R visitor) x
  | FixedAccrued x =>
      invoke ProductFixedAccrued._product_type
        (visit_ProductFixedAccrued R visitor) x
  | OvernightIndexCashflow x =>
      invoke ProductOvernightIndexCashflow._product_type
        (visit_ProductOvernightIndexCashflow R visitor) x
  | RFRFuture x =>
      invoke ProductRFRFuture._product_type
        (visit_ProductRFRFuture R visitor) x
  | RFRSwap x =>
      invoke ProductRFRSwap._product_type (visit_ProductRFRSwap R visitor) x
  end.

End WithCollaborators.
End ProductVisitor.

(** [ProductOvernightIndexCashflow.accept]: [return visitor.visit(self)]. *)
Definition ProductOvernightIndexCashflow_accept `{Collaborators} {R : Type}
    (self : ProductOvernightIndexCashflow.t) (visitor : ProductVisitor.t R)
  : ProductVisitor.calls R :=
  ProductVisitor.visit visitor (OvernightIndexCashflow self).

(** Modelled from the spec: [accept] of the classes that do not define it in
    linear_products.py and take it from [Product], which is not part of the
    sources: "the product calls exactly one type-specific handler on the
    visitor and returns its result unchanged". *)
Definition Product_accept `{Collaborators} {R : Type}
    (self : Product) (visitor : ProductVisitor.t R) : ProductVisitor.calls R :=
  match self with
  | OvernightIndexCashflow x => ProductOvernightIndexCashflow_accept x visitor
  | _ => ProductVisitor.visit visitor self
  end.

(** ** A sample set of collaborators

    A small, computable instance of [Collaborators]: calendar dates printed
    and read as YYYY-MM-DD, tenors counted in months, a schedule that rolls
    forward from the start date, a 30/360 accrual and a registry of two
    indices. The theorems hold for every instance; this one is used to run the
    embedding on concrete inputs. *)
Module Sample.

Record date : Type := mkdate { year : Z; month : Z; day : Z }.

Definition digit (n : Z) : ascii := ascii_of_N (Z.to_N (48 + n mod 10)).

Definition two_digits (n : Z) : string :=
  String (digit (n / 10)) (String (digit n) EmptyString).

Definition iso (d : date) : string :=
  two_digits (year d / 100) +:+ two_digits (year d) +:+ "-"
    +:+ two_digits (month d) +:+ "-" +:+ two_digits (day d).

Definition digit_value (c : ascii) : option Z :=
  match c with
  | "0"%char => Some 0%Z
  | "1"%char => Some 1%Z
  | "2"%char => Some 2%Z
  | "3"%char => Some 3%Z
  | "4"%char => Some 4%Z
  | "5"%char => Some 5%Z
  | "6"%char => Some 6%Z
  | "7"%char => Some 7%Z
  | "8"%char => Some 8%Z
  | "9"%char => Some 9%Z
  | _ => None
  end.

Fixpoint number (s : string) (acc : Z) : option Z :=
  match s with
  | EmptyString => Some acc
  | String c s => d ← digit_value c; number s (10 * acc + d)%Z
  end.

Definition date_of_str (s : string) : option date :=
  if (String.length s =? 10)%nat
     && String.eqb (String.substring 4 1 s) "-"
     && String.eqb (String.substring 7 1 s) "-"
  then
    y ← number (String.substring 0 4 s) 0%Z;
    m ← number (String.substring 5 2 s) 0%Z;
    d ← number (String.substring 8 2 s) 0%Z;
    Some (mkdate y m d)
  else None.

(** Days since year 0 on a 30/360 calendar. *)
Definition serial (d : date) : Z :=
  (year d * 360 + (month d - 1) * 30 + (day d - 1))%Z.

(** A tenor in months: "3M" is 3, "1Y" is 12; anything else is 0. *)
Definition months (p : Period) : Z :=
  let s := Period_str p in
  let n := String.length s in
  match number (String.substring 0 (n - 1) s) 0%Z with
  | Some k =>
      if String.eqb (String.substring (n - 1) 1 s) "M" then k
      else if String.eqb (String.substring (n - 1) 1 s) "Y" then (12 * k)%Z
      else 0%Z
  | None => 0%Z
  end.

Definition add_months (d : date) (n : Z) : date :=
  let total := (year d * 12 + (month d - 1) + n)%Z in
  mkdate (total / 12) (total mod 12 + 1) (day d).

Fixpoint roll (fuel : nat) (step : Z) (start stop : date)
  : list (ScheduleRow date) :=
  match fuel with
  | O => []
  | S fuel =>
      if (serial start <? serial stop)%Z then
        let next := add_months start step in
        let next := if (serial next <=? serial stop)%Z then next else stop in
        mkScheduleRow start next next :: roll fuel step next stop
      else []
  end.

(** The rows from [start] to [stop], one per tenor; a period has at least
    a month, so there are no more rows than days. *)
Definition schedule (start stop : date) (p : Period) : list (ScheduleRow date) :=
  if (0 <? months p)%Z
  then roll (Z.to_nat (serial stop - serial start)) (months p) start stop
  else [].

Record index : Type := mkindex { index_name : string; index_currency : string }.

Definition registry (name : string) : option index :=
  if String.eqb name "SOFR-1B" then Some (mkindex "SOFR-1B" "USD")
  else if String.eqb name "ESTR-1B" then Some (mkindex "ESTR-1B" "EUR")
  else None.

Inductive compounding : Type := Compound | Average.

Definition compounding_to_string (c : compounding) : string :=
  match c with Compound => "Compound" | Average => "Average" end.

Definition compounding_from_string (s : string) : option compounding :=
  if String.eqb s "COMPOUND" then Some Compound
  else if String.eqb s "AVERAGE" then Some Average
  else None.

(** The days between two dates over 360. *)
Definition year_fraction (start stop : date) : float :=
  (of_uint63 (Uint63.of_Z (serial stop - serial start)) / 360)%float.

Definition collaborators : Collaborators :=
  {| Date := date;
     Date_of_str := date_of_str;
     ISO := iso;
     serialNumber := serial;
     TermOrTerminationDate_of_str := fun s =>
       match date_of_str s with
       | Some d => Some (TermOrTerminationDate.of_date d)
       | None => Some (TermOrTerminationDate.of_term (mkPeriod s))
       end;
     CompoundingMethod := compounding;
     COMPOUND := Compound;
     CompoundingMethod_to_string := compounding_to_string;
     CompoundingMethod_from_string := compounding_from_string;
     OvernightIndex := index;
     Calendar := unit;
     QlBusinessDayConvention := unit;
     fixingCalendar := fun _ => tt;
     businessDayConvention := fun _ => tt;
     currency_code := index_currency;
     Calendar_advance := fun _ d p _ => add_months d (months p);
     IndexRegistry_get := registry;
     make_schedule := fun start stop p _ _ _ _ _ _ _ _ _ _ => schedule start stop p;
     accrued := fun start stop _ _ _ => year_fraction start stop;
     float_of_str := fun _ => None |}.

Definition jan1 : date := mkdate 2024 1 1.

Definition apr1 : date := mkdate 2024 4 1.

Definition jul1 : date := mkdate 2024 7 1.

Definition usd : Currency := mkCurrency "USD".

Definition act360 : AccrualBasis := mkAccrualBasis "ACT/360".

Definition rate : float := Eval cbv in (5 / 100)%float.

(** The stream of the concrete scenario: 2024-01-01 to 2024-07-01, quarterly,
    notional 1,000,000, with the given fixed rate and floating index. *)
Definition stream (float_index : option string) (fixed_rate : option float)
  : exception (@InterestRateStream.t collaborators) :=
  @InterestRateStream.__init__ collaborators jan1 jul1 (mkPeriod "3M")
    1000000%float usd act360 default_business_day_convention
    default_holiday_convention float_index fixed_rate true Compound
    default_ois_spread default_fixing_in_arrear default_payment_offset
    default_business_day_convention default_holiday_convention default_rule
    default_end_of_month.

(** A two-year swap from 2024-01-01 on SOFR, quarterly on both legs. *)
Definition swap (pay_or_rec : PayOrReceive) (notional : float)
  : exception (@ProductRFRSwap.t collaborators) :=
  @ProductRFRSwap.__init__ collaborators jan1
    (TermOrTerminationDate.of_term (mkPeriod "2Y")) (mkPeriod "2D") "SOFR-1B"
    rate pay_or_rec notional (mkPeriod "3M") act360 None
    default_business_day_convention default_holiday_convention 0%float Compound.

(** A quarterly overnight-index cashflow on SOFR, given by its tenor. *)
Definition cashflow : exception (@ProductOvernightIndexCashflow.t collaborators) :=
  @ProductOvernightIndexCashflow.__init__ collaborators jan1
    (TermOrTerminationDate.of_term (mkPeriod "3M")) "SOFR-1B" Compound
    0%float 1000000%float None.

End Sample.

(** ** OptionStrategyRegistry.data.strategies

    The option strategies of src/OptionStrategyRegistry/data/strategies.py:
    a named dictionary from [(opt_type, delta_strike)] to a weight, with the
    arithmetic [OptionStrategy] overloads. *)

(** [OptionPayoff] of [.definitions]: the members strategies.py names. *)
Inductive OptionPayoff : Type := FORWARD | CALL | PUT.

Definition OptionPayoff_eqb (a b : OptionPayoff) : bool :=
  match a, b with
  | FORWARD, FORWARD | CALL, CALL | PUT, PUT => true
  | _, _ => false
  end.

Module OptionStrategy.

(** A key of the content: the tuple [(opt_type, delta_strike)]. *)
Definition key : Type := OptionPayoff * float.

(** [k == k'] on tuples: the same payoff and deltas that compare equal, so
    [0.0] and [-0.0] are one key. A NaN delta equals no delta, itself
    included: a dict finds such a key by identity only, which a value does
    not carry, and the properties are stated for contents without one. *)
Definition key_eqb (k k' : key) : bool :=
  OptionPayoff_eqb k.1 k'.1 && (k.2 =? k'.2)%float.

(** What the methods raise: a failed [assert], the [KeyError] of a dict, and
    the [Exception] of [__getitem__], whose message names the key. *)
Inductive error : Type :=
| AssertionError
| KeyError (k : key)
| NotPartOfStrategy (k : key).

Inductive result (A : Type) : Type :=
| Returned (a : A)
| Raised (e : error).

Arguments Returned {A} a.
Arguments Raised {A} e.

#[global] Instance result_ret : MRet result := @Returned.

#[global] Instance result_bind : MBind result :=
  fun A B f m => match m with Returned a => f a | Raised e => Raised e end.

(** A dict from keys to weights, as the list of its items in insertion
    order. *)
Definition dict : Type := list (key * float).

(** [d.get(k)]. *)
Fixpoint dict_get (d : dict) (k : key) : option float :=
  match d with
  | [] => None
  | (k0, v) :: d => if key_eqb k0 k then Some v else dict_get d k
  end.

(** [k in d]. *)
Definition dict_contains (d : dict) (k : key) : bool :=
  match dict_get d k with Some _ => true | None => false end.

(** [d[k]]. *)
Definition dict_getitem (d : dict) (k : key) : result float :=
  match dict_get d k with Some v => Returned v | None => Raised (KeyError k) end.

(** [d[k] = v]: the item of an equal key takes the value where it stands and
    keeps its key; a new key goes to the end. *)
Fixpoint dict_setitem (d : dict) (k : key) (v : float) : dict :=
  match d with
  | [] => [(k, v)]
  | (k0, v0) :: d =>
      if key_eqb k0 k then (k0, v) :: d else (k0, v0) :: dict_setitem d k v
  end.

(** [d] without the item of [k]. *)
Fixpoint dict_remove (d : dict) (k : key) : dict :=
  match d with
  | [] => []
  | (k0, v0) :: d =>
      if key_eqb k0 k then dict_remove d k else (k0, v0) :: dict_remove d k
  end.

(** [d.pop(k)], for the dict it leaves. *)
Definition dict_pop (d : dict) (k : key) : result dict :=
  if dict_contains d k then Returned (dict_remove d k) else Raised (KeyError k).

(** A strategy: its name and its content; deltas and weights are floats. *)
Record t : Type := {
  name_ : string;
  content_ : dict
}.

Definition __init__ (name : string) (content : dict) : t :=
  {| name_ := name; content_ := content |}.

Definition name (self : t) : string := name_ self.

Definition content (self : t) : dict := content_ self.

(** The payoff a list entry names: [FORWARD] unless it reads [C] or [P] in
    upper case. *)
Definition opt_type_of (opt_type : string) : OptionPayoff :=
  if String.eqb (upper opt_type) "C" then CALL
  else if String.eqb (upper opt_type) "P" then PUT
  else FORWARD.

(** The loop of [createFromList]: [result[(t, delta_strikes[i])] = weights[i]]
    for every [i]. *)
Fixpoint createFromList_loop (opt_types : list string)
    (delta_strikes weights : list float) (result : dict) : dict :=
  match opt_types, delta_strikes, weights with
  | o :: opt_types, d :: delta_strikes, w :: weights =>
      createFromList_loop opt_types delta_strikes weights
        (dict_setitem result (opt_type_of o, d) w)
  | _, _, _ => result
  end.

Definition createFromList (name : string) (opt_types : list string)
    (delta_strikes weights : list float) : result t :=
  if (length opt_types =? length delta_strikes)%nat
     && (length delta_strikes =? length weights)%nat
  then Returned (__init__ name
                   (createFromList_loop opt_types delta_strikes weights []))
  else Raised AssertionError.

Definition __contains__ (self : t) (key : key) : bool :=
  dict_contains (content self) (key.1, key.2).

Definition __getitem__ (self : t) (key : key) : result float :=
  if negb (dict_contains (content self) key)
  then Raised (NotPartOfStrategy key)
  else dict_getitem (content self) (key.1, key.2).

Definition __len__ (self : t) : Z := Z.of_nat (length (content self)).

(** One round of the first loop of [__add__], on [content] and
    [traversed_keys]. *)
Definition add_own_item (in_strategy : t) (k : key) (v : float)
    (state : dict * list key) : result (dict * list key) :=
  let content := dict_setitem state.1 k v in
  state ←
    (if dict_contains (OptionStrategy.content in_strategy) k
     then
       c ← dict_getitem content k;
       w ← __getitem__ in_strategy k;
       Returned (dict_setitem content k (c + w)%float, state.2 ++ [k])
     else Returned (content, state.2));
  c ← dict_getitem state.1 k;
  if (c =? 0)%float
  then content ← dict_pop state.1 k; Returned (content, state.2)
  else Returned state.

Fixpoint add_own_items (in_strategy : t) (items : dict)
    (state : dict * list key) : result (dict * list key) :=
  match items with
  | [] => Returned state
  | (k, v) :: items =>
      state ← add_own_item in_strategy k v state;
      add_own_items in_strategy items state
  end.

(** [k in traversed_keys]. *)
Definition traversed (traversed_keys : list key) (k : key) : bool :=
  existsb (fun k0 => key_eqb k0 k) traversed_keys.

(** The second loop of [__add__]. *)
Fixpoint add_other_items (traversed_keys : list key) (items : dict)
    (content : dict) : dict :=
  match items with
  | [] => content
  | (k, v) :: items =>
      add_other_items traversed_keys items
        (if negb (traversed traversed_keys k) then dict_setitem content k v
         else content)
  end.

Definition __add__ (self in_strategy : t) : result t :=
  state ← add_own_items in_strategy (content self) ([], []);
  Returned (__init__ (name self ++ "_ADD_" ++ name in_strategy)
              (add_other_items state.2 (content in_strategy) state.1)).

(** The loop of [__mul__]. *)
Fixpoint mul_items (scaler : float) (items : dict) (content : dict) : dict :=
  match items with
  | [] => content
  | (k, v) :: items =>
      mul_items scaler items
        (if negb (scaler =? 0)%float then dict_setitem content k (v * scaler)%float
         else content)
  end.

(** [__mul__]; [str_of_float] is the text an f-string prints for a float. *)
Definition __mul__ (str_of_float : float -> string) (self : t) (scaler : float)
  : t :=
  __init__ (name self ++ "_SCALED_BY_" ++ str_of_float scaler)
    (mul_items scaler (content self) []).

End OptionStrategy.

(** ** Sample strategies *)

Module SampleStrategies.

(** Long a 25-delta call, short a 25-delta put. *)
Definition risk_reversal : OptionStrategy.t :=
  OptionStrategy.__init__ "RISK_REVERSAL"
    [ ((CALL, 0.25%float), 1%float); ((PUT, (-0.25)%float), (-1)%float) ].

(** Long a 50-delta call, short a 25-delta call. *)
Definition call_spread : OptionStrategy.t :=
  OptionStrategy.__init__ "CALL_SPREAD"
    [ ((CALL, 0.5%float), 1%float); ((CALL, 0.25%float), (-1)%float) ].

(** Long a 50-delta call and a 50-delta put. *)
Definition straddle : OptionStrategy.t :=
  OptionStrategy.__init__ "STRADDLE"
    [ ((CALL, 0.5%float), 1%float); ((PUT, (-0.5)%float), 1%float) ].

(** The text of the scalers the samples use. *)
Definition str_of_float (x : float) : string :=
  if (x =? 1)%float then "1.0"
  else if (x =? 2)%float then "2.0"
  else if (x =? -1)%float then "-1.0"
  else "0.0".

End SampleStrategies.

(** ** The vocabulary of the statements *)

(** [Product.first_date], the base-class property. *)
Definition Product_first_date `{Collaborators} (p : Product) : option Date :=
  match p with
  | BulletCashflow x => Some (ProductBulletCashflow.first_date_ x)
  | FixedAccrued x => Some (ProductFixedAccrued.first_date_ x)
  | OvernightIndexCashflow x => Some (ProductOvernightIndexCashflow.first_date_ x)
  | RFRFuture _ => None
  | RFRSwap x => Some (ProductRFRSwapState.first_date_ x)
  end.

Definition is_FixedAccrued `{Collaborators} (p : Product) : bool :=
  match p with FixedAccrued _ => true | _ => false end.

Definition is_OvernightIndexCashflow `{Collaborators} (p : Product) : bool :=
  match p with OvernightIndexCashflow _ => true | _ => false end.

Section Units.
Context `{Collaborators}.

Variables
  (notional : float) (currency : Currency) (accrual_basis : AccrualBasis)
  (buseinss_day_convention : BusinessDayConvention)
  (holiday_convention : HolidayConvention)
  (ois_compounding : CompoundingMethod) (ois_spread : float).

(** The fixed unit a stream builds for a schedule row. *)
Definition fixed_unit (fixed_rate : float) (row : ScheduleRow Date)
  : ProductFixedAccrued.t :=
  ProductFixedAccrued.__init__ (StartDate row) (EndDate row) currency
    (notional * fixed_rate)%float accrual_basis (Some (PaymentDate row))
    buseinss_day_convention holiday_convention.

(** The floating unit a stream builds for a schedule row, given the index
    object [on_index_] that the registry holds for [float_index]. *)
Definition float_unit (float_index : string) (on_index_ : OvernightIndex)
    (row : ScheduleRow Date) : ProductOvernightIndexCashflow.t :=
  {| ProductOvernightIndexCashflow.on_index_str_ := float_index;
     ProductOvernightIndexCashflow.on_index_ := on_index_;
     ProductOvernightIndexCashflow.first_date_ := StartDate row;
     ProductOvernightIndexCashflow.effective_date_ := StartDate row;
     ProductOvernightIndexCashflow.termination_date_ := EndDate row;
     ProductOvernightIndexCashflow.last_date_ := EndDate row;
     ProductOvernightIndexCashflow.paymentDate_ := PaymentDate row;
     ProductOvernightIndexCashflow.notional_ := notional;
     ProductOvernightIndexCashflow.long_or_short_ :=
       if (0 <=? notional)%float then LONG else SHORT;
     ProductOvernightIndexCashflow.compounding_method_ := ois_compounding;
     ProductOvernightIndexCashflow.spread_ := ois_spread;
     ProductOvernightIndexCashflow.currency_ :=
       mkCurrency (currency_code on_index_) |}.

(** The floating side of a stream once its index name is looked up: absent,
    or the name with the index object found for it. *)
Definition resolves (float_index : option string)
    (floating : option (string * OvernightIndex)) : Prop :=
  match float_index, floating with
  | None, None => True
  | Some name, Some (name', on_index_) =>
      name = name' /\ IndexRegistry_get name = Some on_index_
  | _, _ => False
  end.

(** The products one schedule row contributes, fixed unit first. *)
Definition row_units (fixed_rate : option float)
    (floating : option (string * OvernightIndex)) (row : ScheduleRow Date)
  : list Product :=
  match fixed_rate with
  | Some fixed_rate => [FixedAccrued (fixed_unit fixed_rate row)]
  | None => []
  end
  ++ match floating with
     | Some (float_index, on_index_) =>
         [OvernightIndexCashflow (float_unit float_index on_index_ row)]
     | None => []
     end.

End Units.

(** A cashflow that came out of its constructor. *)
Definition constructed `{Collaborators} (x : ProductOvernightIndexCashflow.t) : Prop :=
  exists effective_date term_or_termination_date on_index compounding_method
         spread notional payment_date,
    ProductOvernightIndexCashflow.__init__ effective_date
      term_or_termination_date on_index compounding_method spread notional
      payment_date = OK x.

(** The collaborators read back the text that serializing [x] prints: each
    date's ISO text is read as a date with the same ISO text (the termination
    date as a date, not as a tenor), and the upper-cased name of the
    compounding method as a method with the same upper-cased name. *)
Definition reads_back `{Collaborators} (x : ProductOvernightIndexCashflow.t) : Prop :=
  (exists d, Date_of_str (ISO (ProductOvernightIndexCashflow.effective_date x)) = Some d
             /\ ISO d = ISO (ProductOvernightIndexCashflow.effective_date x))
  /\ (exists d, TermOrTerminationDate_of_str
                  (ISO (ProductOvernightIndexCashflow.termination_date x))
                = Some (TermOrTerminationDate.of_date d)
                /\ ISO d = ISO (ProductOvernightIndexCashflow.termination_date x))
  /\ (exists d, Date_of_str (ISO (ProductOvernightIndexCashflow.payment_date x)) = Some d
                /\ ISO d = ISO (ProductOvernightIndexCashflow.payment_date x))
  /\ (exists c,
        CompoundingMethod_from_string
          (upper (CompoundingMethod_to_string
                    (ProductOvernightIndexCashflow.compounding_method x)))
        = Some c
        /\ upper (CompoundingMethod_to_string c)
           = upper (CompoundingMethod_to_string
                      (ProductOvernightIndexCashflow.compounding_method x))).

(** The leg of a swap is the stream its constructor builds from the swap's
    own fields with [n] as the notional argument. *)
Definition fixed_leg_built_with `{Collaborators} (s : ProductRFRSwap.t) (n : float)
  : Prop :=
  InterestRateStream.__init__ (ProductRFRSwapState.effective_date_ s)
    (ProductRFRSwapState.termination_date_ s)
    (ProductRFRSwapState.accrual_period_ s) n
    (ProductRFRSwapState.currency_ s) (ProductRFRSwapState.accrual_basis_ s)
    (ProductRFRSwapState.pay_business_day_convention_ s)
    (ProductRFRSwapState.pay_holiday_convention_ s)
    None (Some (ProductRFRSwapState.fixed_rate_ s)) false COMPOUND
    default_ois_spread default_fixing_in_arrear
    (ProductRFRSwapState.pay_offset_ s)
    (ProductRFRSwapState.pay_business_day_convention_ s)
    (ProductRFRSwapState.pay_holiday_convention_ s)
    default_rule default_end_of_month
  = OK (ProductRFRSwapState.fixed_leg_ s).

Definition floating_leg_built_with `{Collaborators} (s : ProductRFRSwap.t)
    (n : float) : Prop :=
  InterestRateStream.__init__ (ProductRFRSwapState.effective_date_ s)
    (ProductRFRSwapState.termination_date_ s)
    (ProductRFRSwapState.floating_leg_accrual_period_ s) n
    (ProductRFRSwapState.currency_ s) (ProductRFRSwapState.accrual_basis_ s)
    (ProductRFRSwapState.pay_business_day_convention_ s)
    (ProductRFRSwapState.pay_holiday_convention_ s)
    (Some (ProductRFRSwapState.on_index_str_ s)) None true
    (ProductRFRSwapState.compounding_method_ s)
    (ProductRFRSwapState.spread_ s) default_fixing_in_arrear
    (ProductRFRSwapState.pay_offset_ s)
    (ProductRFRSwapState.pay_business_day_convention_ s)
    (ProductRFRSwapState.pay_holiday_convention_ s)
    default_rule default_end_of_month
  = OK (ProductRFRSwapState.floating_leg_ s).

(** The legs of a swap, unit by unit: what the two calls of
    [InterestRateStream.__init__] in [ProductRFRSwap.__init__] build from the
    arguments of the swap, once the registry has given the index object
    [on_index_] for the index name. *)
Section Legs.
Context `{Collaborators}.

Variables
  (effective_date : Date)
  (term_or_termination_date : TermOrTerminationDate.t Date)
  (payment_off_set : Period) (on_index : string) (on_index_ : OvernightIndex)
  (fixed_rate : float) (accrual_basis : AccrualBasis)
  (pay_business_day_convention : BusinessDayConvention)
  (pay_holiday_convention : HolidayConvention)
  (spread : float) (compounding_method : CompoundingMethod).

(** The schedule rows of a leg with the accrual period [period]: the swap's
    dates, conventions and payment offset, and the defaults for the rest. *)
Definition leg_rows (period : Period) : list (ScheduleRow Date) :=
  make_schedule effective_date
    match term_or_termination_date with
    | TermOrTerminationDate.of_date d => d
    | TermOrTerminationDate.of_term term =>
        Calendar_advance (fixingCalendar on_index_) effective_date term
          (businessDayConvention on_index_)
    end
    period pay_holiday_convention pay_business_day_convention accrual_basis
    default_rule default_end_of_month default_fixing_in_arrear (mkPeriod "0D")
    payment_off_set pay_business_day_convention pay_holiday_convention.

(** One fixed-accrued unit per row, built on the notional [n]: the unit
    stores [n * fixed_rate]. *)
Definition fixed_leg_units (period : Period) (n : float) : list Product :=
  map (fun row =>
         FixedAccrued
           (fixed_unit n (mkCurrency (currency_code on_index_)) accrual_basis
              pay_business_day_convention pay_holiday_convention fixed_rate row))
    (leg_rows period).

(** One overnight-index unit per row, built on the notional [n]: the unit
    stores [n]. *)
Definition floating_leg_units (period : Period) (n : float) : list Product :=
  map (fun row =>
         OvernightIndexCashflow
           (float_unit n compounding_method spread on_index on_index_ row))
    (leg_rows period).

End Legs.

(** The stream of the given products, each with weight 1. *)
Definition leg_of `{Collaborators} (products : list Product)
  : ProductPortfolio.t Product :=
  ProductPortfolio.__init__ products (replicate (length products) 1%Z).

(** [Product.last_date] and [Product.currency], the base-class properties,
    and the payment date of the classes that have one. *)
Definition Product_last_date `{Collaborators} (p : Product) : option Date :=
  match p with
  | BulletCashflow x => Some (ProductBulletCashflow.last_date_ x)
  | FixedAccrued x => Some (ProductFixedAccrued.last_date_ x)
  | OvernightIndexCashflow x => Some (ProductOvernightIndexCashflow.last_date_ x)
  | RFRFuture _ => None
  | RFRSwap x => Some (ProductRFRSwapState.last_date_ x)
  end.

Definition Product_currency `{Collaborators} (p : Product) : option Currency :=
  match p with
  | BulletCashflow x => Some (ProductBulletCashflow.currency_ x)
  | FixedAccrued x => Some (ProductFixedAccrued.currency_ x)
  | OvernightIndexCashflow x => Some (ProductOvernightIndexCashflow.currency_ x)
  | RFRFuture _ => None
  | RFRSwap x => Some (ProductRFRSwapState.currency_ x)
  end.

Definition Product_payment_date `{Collaborators} (p : Product) : option Date :=
  match p with
  | BulletCashflow x => Some (ProductBulletCashflow.payment_date x)
  | FixedAccrued x => Some (ProductFixedAccrued.payment_date x)
  | OvernightIndexCashflow x => Some (ProductOvernightIndexCashflow.payment_date x)
  | RFRFuture _ => None
  | RFRSwap _ => None
  end.

(** How many units a stream builds per schedule row. *)
Definition units_per_row (float_index : option string) (fixed_rate : option float)
  : nat :=
  match fixed_rate with Some _ => 1%nat | None => 0%nat end
  + match float_index with Some _ => 1%nat | None => 0%nat end.

(** The keys [deserialize] reads. *)
Definition deserialized_keys : list string :=
  [ "EFFECTIVE_DATE"; "TERMINATION_DATE"; "PAYMENT_DATE"; "ON_INDEX";
    "SPREAD"; "COMPOUNDING_METHOD"; "NOTIONAL" ].

(** The collaborators read the text that serializing [x] prints back as the
    very dates and method of [x]. *)
Definition reads_back_exactly `{Collaborators} (x : ProductOvernightIndexCashflow.t)
  : Prop :=
  Date_of_str (ISO (ProductOvernightIndexCashflow.effective_date x))
  = Some (ProductOvernightIndexCashflow.effective_date x)
  /\ TermOrTerminationDate_of_str
       (ISO (ProductOvernightIndexCashflow.termination_date x))
     = Some (TermOrTerminationDate.of_date
               (ProductOvernightIndexCashflow.termination_date x))
  /\ Date_of_str (ISO (ProductOvernightIndexCashflow.payment_date x))
     = Some (ProductOvernightIndexCashflow.payment_date x)
  /\ CompoundingMethod_from_string
       (upper (CompoundingMethod_to_string
                 (ProductOvernightIndexCashflow.compounding_method x)))
     = Some (ProductOvernightIndexCashflow.compounding_method x).

(** Dates in ascending order of their serial numbers. *)
Definition ascending `{Collaborators} (dates : list Date) : Prop :=
  StronglySorted (fun a b => (serialNumber a <= serialNumber b)%Z) dates.

(** *** The vocabulary of the strategies *)

(** Two binary64 numbers that compare equal: both zero, or the same
    number. *)
Definition same_number (f1 f2 : spec_float) : Prop :=
  match f1, f2 with
  | S754_zero _, S754_zero _ => True
  | S754_infinity s1, S754_infinity s2 => s1 = s2
  | S754_finite s1 m1 e1, S754_finite s2 m2 e2 => s1 = s2 /\ m1 = m2 /\ e1 = e2
  | _, _ => False
  end.

(** The invariant of a dict without a NaN delta: every key equals itself and
    no later key. *)
Fixpoint distinct_keys (d : OptionStrategy.dict) : Prop :=
  match d with
  | [] => True
  | (k, _) :: d =>
      OptionStrategy.key_eqb k k = true
      /\ OptionStrategy.dict_get d k = None
      /\ distinct_keys d
  end.

(** The weight of a key in a sum, from its weights in the two terms. *)
Definition added_weight (own other : option float) : option float :=
  match own, other with
  | Some v, Some w => if (v + w =? 0)%float then None else Some (v + w)%float
  | Some v, None => if (v =? 0)%float then None else Some v
  | None, Some w => Some w
  | None, None => None
  end.

(** The items the three lists of [createFromList] spell, position by
    position. *)
Fixpoint listed_items (opt_types : list string) (delta_strikes weights : list float)
  : OptionStrategy.dict :=
  match opt_types, delta_strikes, weights with
  | o :: opt_types, d :: delta_strikes, w :: weights =>
      ((OptionStrategy.opt_type_of o, d), w)
      :: listed_items opt_types delta_strikes weights
  | _, _, _ => []
  end.

(** Every weight is a finite number. *)
Definition finite_weights (d : OptionStrategy.dict) : Prop :=
  Forall (fun kv => is_finite kv.2 = true) d.

(** No weight compares equal to zero. *)
Definition nonzero_weights (d : OptionStrategy.dict) : Prop :=
  Forall (fun kv => (kv.2 =? 0)%float = false) d.

(** [d[k] = v] for every item [(k, v)] of a list, in order. *)
Definition dict_setitems (d items : OptionStrategy.dict) : OptionStrategy.dict :=
  fold_left (fun d kv => OptionStrategy.dict_setitem d kv.1 kv.2) items d.

(** The items of a dict with every weight multiplied by [scaler]. *)
Definition scaled_items (scaler : float) (d : OptionStrategy.dict)
  : OptionStrategy.dict :=
  map (fun kv => (kv.1, (kv.2 * scaler)%float)) d.

(** What [s[k]] gives when the dict of [s] holds [weight] for [k]. *)
Definition item_of (k : OptionStrategy.key) (weight : option float)
  : OptionStrategy.result float :=
  match weight with
  | Some v => OptionStrategy.Returned v
  | None => OptionStrategy.Raised (OptionStrategy.NotPartOfStrategy k)
  end.

(** * Part II: the properties *)

(** ** Binary64 arithmetic: multiplying by one and by minus one *)

Module Float64.

Lemma iter_shr_1_even (n : nat) (m : positive) :
  Nat.iter n shr_1
    {| shr_m := Z.pos (Nat.iter n xO m); shr_r := false; shr_s := false |}
  = {| shr_m := Z.pos m; shr_r := false; shr_s := false |}.
Proof.
  induction n as [|n IH]; [reflexivity|].
  rewrite Nat.iter_succ_r. cbn [Nat.iter]. exact IH.
Qed.

Lemma digits_iter_xO (n : nat) (m : positive) :
  Z.pos (digits2_pos (Nat.iter n xO m)) = (Z.pos (digits2_pos m) + Z.of_nat n)%Z.
Proof.
  induction n as [|n IH]; [cbn [Nat.iter nat_rect]; lia|].
  change (Nat.iter (S n) xO m) with (xO (Nat.iter n xO m)).
  cbn [digits2_pos]. rewrite Pos2Z.inj_succ, IH. lia.
Qed.

(** Rounding [m * 2^52 * 2^(e - 52)] gives back the number [m * 2^e]. *)
Lemma round_unit (s : bool) (m : positive) (e : Z) :
  bounded prec emax m e = true ->
  binary_round_aux prec emax s (Z.pos (m * 4503599627370496)) (e + -52) loc_Exact
  = S754_finite s m e.
Proof.
  intros Hb. unfold bounded, canonical_mantissa in Hb.
  apply andb_true_iff in Hb as [Hc He]. apply Z.eqb_eq in Hc.
  rewrite Pos.mul_comm.
  change (4503599627370496 * m)%positive with (Nat.iter 52 xO m).
  unfold binary_round_aux, shr_fexp.
  assert (Hd : (Zdigits2 (Z.pos (Nat.iter 52 xO m)) + (e + -52)
                = Z.pos (digits2_pos m) + e)%Z).
  { cbn [Zdigits2]. rewrite digits_iter_xO. lia. }
  rewrite Hd, Hc.
  replace (e - (e + -52))%Z with 52%Z by lia.
  unfold shr at 1. cbn [shr_record_of_loc].
  change (SpecFloat.iter_pos shr_1 52) with (Nat.iter 52 shr_1).
  rewrite iter_shr_1_even.
  cbn [shr_m loc_of_shr_record round_nearest_even].
  replace (e + -52 + 52)%Z with e by lia.
  cbn [Zdigits2]. rewrite Hc, Z.sub_diag. cbn [shr shr_record_of_loc shr_m].
  rewrite He. reflexivity.
Qed.

Lemma mul_1_r (x : float) : (x * 1)%float = x.
Proof.
  apply Prim2SF_inj. rewrite mul_spec.
  change (Prim2SF 1) with (S754_finite false 4503599627370496 (-52)).
  pose proof (Prim2SF_valid x) as Hv.
  destruct (Prim2SF x) as [s|s| |s m e]; cbn [SF64mul SFmul];
    try (destruct s; reflexivity); try reflexivity.
  rewrite xorb_false_r. apply round_unit. exact Hv.
Qed.

Lemma mul_m1_r (x : float) : (x * - 1)%float = (- x)%float.
Proof.
  apply Prim2SF_inj. rewrite mul_spec, opp_spec.
  change (Prim2SF (- 1)) with (S754_finite true 4503599627370496 (-52)).
  pose proof (Prim2SF_valid x) as Hv.
  destruct (Prim2SF x) as [s|s| |s m e]; cbn [SF64mul SFmul SFopp];
    try (destruct s; reflexivity); try reflexivity.
  rewrite xorb_true_r. apply round_unit. exact Hv.
Qed.

Lemma leb_ltb_eqb (x y : float) :
  (x <=? y)%float = ((x <? y)%float || (x =? y)%float).
Proof.
  rewrite leb_spec, ltb_spec, FloatAxioms.eqb_spec.
  unfold SFleb, SFltb, SFeqb. destruct (SFcompare _ _) as [[]|]; reflexivity.
Qed.

Lemma opp_negative (x : float) :
  (0 <? x)%float = true -> (- x <? 0)%float = true.
Proof.
  rewrite !ltb_spec, opp_spec. change (Prim2SF 0) with (S754_zero false).
  destruct (Prim2SF x) as [s|s| |s m e]; cbn; try discriminate;
    destruct s; try discriminate; reflexivity.
Qed.

End Float64.

(** ** The constructor of the overnight-index cashflow *)

Section OvernightIndexCashflowFacts.
Context `{Collaborators}.

Lemma overnight_init_unresolved effective_date term on_index method spread
    notional payment_date :
  IndexRegistry_get on_index = None ->
  ProductOvernightIndexCashflow.__init__ effective_date term on_index method
    spread notional payment_date = Raise (LookupError on_index).
Proof.
  intros Hget. unfold ProductOvernightIndexCashflow.__init__.
  rewrite Hget. reflexivity.
Qed.

Lemma overnight_init_raises effective_date term on_index method spread
    notional payment_date e :
  ProductOvernightIndexCashflow.__init__ effective_date term on_index method
    spread notional payment_date = Raise e ->
  e = LookupError on_index /\ IndexRegistry_get on_index = None.
Proof.
  unfold ProductOvernightIndexCashflow.__init__.
  destruct (IndexRegistry_get on_index); cbn; [discriminate|].
  intros [= <-]. split; reflexivity.
Qed.

(** A row's floating unit is what the constructor returns once the index is
    found. *)
Lemma overnight_init_row notional method spread float_index on_index_ row :
  IndexRegistry_get float_index = Some on_index_ ->
  ProductOvernightIndexCashflow.__init__ (StartDate row)
    (TermOrTerminationDate.of_date (EndDate row)) float_index method spread
    notional (Some (PaymentDate row))
  = OK (float_unit notional method spread float_index on_index_ row).
Proof.
  intros Hget. unfold ProductOvernightIndexCashflow.__init__.
  rewrite Hget. reflexivity.
Qed.

(** A constructed cashflow holds the index object of its index name. *)
Lemma constructed_resolved (x : ProductOvernightIndexCashflow.t) :
  constructed x ->
  IndexRegistry_get (ProductOvernightIndexCashflow.on_index_str_ x)
  = Some (ProductOvernightIndexCashflow.on_index_ x).
Proof.
  intros (eff & term & name & method & spread & notional & pay & Hx).
  unfold ProductOvernightIndexCashflow.__init__ in Hx.
  destruct (IndexRegistry_get name) as [idx|] eqn:Hget; cbn in Hx;
    [|discriminate].
  injection Hx as <-. exact Hget.
Qed.

End OvernightIndexCashflowFacts.

(** ** The loop of the stream *)

Section StreamFacts.
Context `{Collaborators}.

Variables
  (notional : float) (currency : Currency) (accrual_basis : AccrualBasis)
  (buseinss_day_convention : BusinessDayConvention)
  (holiday_convention : HolidayConvention)
  (ois_compounding : CompoundingMethod) (ois_spread : float).

Local Abbreviation units :=
  (row_units notional currency accrual_basis buseinss_day_convention
     holiday_convention ois_compounding ois_spread).

Local Abbreviation loop :=
  (InterestRateStream.iterrows notional currency accrual_basis
     buseinss_day_convention holiday_convention).

Local Abbreviation ones l := (replicate (length l) 1%Z).

Lemma for_row_resolved float_index fixed_rate floating row products weights :
  resolves float_index floating ->
  InterestRateStream.for_row notional currency accrual_basis
    buseinss_day_convention holiday_convention float_index fixed_rate
    ois_compounding ois_spread row products weights
  = OK (products ++ units fixed_rate floating row,
        weights ++ ones (units fixed_rate floating row)).
Proof.
  intros Hres. unfold InterestRateStream.for_row, row_units, fixed_unit.
  destruct float_index as [name|], floating as [[name' idx]|];
    cbn in Hres; try contradiction.
  - destruct Hres as [<- Hget].
    destruct fixed_rate as [rate|]; cbn;
      rewrite (overnight_init_row _ _ _ _ _ _ Hget); cbn;
      rewrite <- ?app_assoc; reflexivity.
  - destruct fixed_rate as [rate|]; cbn; rewrite ?app_nil_r; reflexivity.
Qed.

Lemma iterrows_resolved float_index fixed_rate floating schedule :
  resolves float_index floating ->
  forall products weights,
    loop float_index fixed_rate ois_compounding ois_spread schedule products
      weights
    = OK (products ++ flat_map (units fixed_rate floating) schedule,
          weights ++ ones (flat_map (units fixed_rate floating) schedule)).
Proof.
  intros Hres. induction schedule as [|row schedule IH]; intros products weights.
  - cbn. rewrite !app_nil_r. reflexivity.
  - cbn [InterestRateStream.iterrows flat_map].
    rewrite (for_row_resolved _ _ _ _ _ _ Hres). cbn.
    rewrite IH, length_app, replicate_add, !app_assoc. reflexivity.
Qed.

(** With an index name the registry does not know, the first row raises. *)
Lemma iterrows_unresolved name fixed_rate row schedule products weights :
  IndexRegistry_get name = None ->
  loop (Some name) fixed_rate ois_compounding ois_spread (row :: schedule)
    products weights
  = Raise (LookupError name).
Proof.
  intros Hget. cbn [InterestRateStream.iterrows].
  unfold InterestRateStream.for_row.
  destruct fixed_rate as [rate|]; cbn;
    rewrite (overnight_init_unresolved _ _ _ _ _ _ _ Hget); reflexivity.
Qed.

(** The loop raises nothing but the registry's lookup error. *)
Lemma iterrows_raises float_index fixed_rate schedule e :
  forall products weights,
    loop float_index fixed_rate ois_compounding ois_spread schedule products
      weights = Raise e ->
    exists name, e = LookupError name.
Proof.
  induction schedule as [|row schedule IH]; intros products weights;
    cbn [InterestRateStream.iterrows]; [discriminate|].
  destruct (InterestRateStream.for_row _ _ _ _ _ _ _ _ _ row products weights)
    as [[products' weights']|e'] eqn:Hrow; cbn.
  - apply IH.
  - intros [= <-]. unfold InterestRateStream.for_row in Hrow.
    destruct fixed_rate as [rate|], float_index as [name|]; cbn in Hrow;
      try discriminate;
      match type of Hrow with
      | context [ProductOvernightIndexCashflow.__init__ ?a ?b ?c ?d ?f ?g ?h] =>
          destruct (ProductOvernightIndexCashflow.__init__ a b c d f g h)
            as [y|e''] eqn:Hinit; cbn in Hrow; [discriminate|];
          injection Hrow as <-;
          apply overnight_init_raises in Hinit as [-> _]; eauto
      end.
Qed.

End StreamFacts.

(** ** Lists of row units and the elements of a portfolio *)

Section PortfolioFacts.

Lemma element_lookup {P : Type} (products : list P) (k : nat) (product : P) :
  products !! k = Some product ->
  ProductPortfolio.element
    (ProductPortfolio.__init__ products (replicate (length products) 1%Z))
    (Z.of_nat k)
  = OK (product, 1%Z).
Proof.
  intros Hk. pose proof (lookup_lt_Some _ _ _ Hk) as Hlt.
  unfold ProductPortfolio.element, ProductPortfolio.__init__. cbn.
  rewrite Nat2Z.id, Hk, lookup_replicate_2 by exact Hlt.
  destruct (0 <=? Z.of_nat k)%Z eqn:H0; [|lia].
  destruct (Z.of_nat k <? Z.of_nat (length products))%Z eqn:H1; [|lia].
  reflexivity.
Qed.

Lemma pairs_length {A B : Type} (f g : A -> B) (l : list A) :
  length (flat_map (fun a => [f a; g a]) l) = (2 * length l)%nat.
Proof. induction l as [|a l IH]; cbn; [reflexivity|]. rewrite IH. lia. Qed.

Lemma pairs_lookup {A B : Type} (f g : A -> B) (l : list A) (k : nat) (a : A) :
  l !! k = Some a ->
  flat_map (fun a => [f a; g a]) l !! (2 * k)%nat = Some (f a)
  /\ flat_map (fun a => [f a; g a]) l !! (2 * k + 1)%nat = Some (g a).
Proof.
  revert k. induction l as [|b l IH]; intros k Hk; [discriminate|].
  destruct k as [|k]; cbn in Hk.
  - injection Hk as ->. split; reflexivity.
  - replace (2 * S k)%nat with (S (S (2 * k))) by lia.
    replace (S (S (2 * k)) + 1)%nat with (S (S (2 * k + 1))) by lia.
    cbn. apply IH, Hk.
Qed.

Lemma singles_eq_map {A B : Type} (f : A -> B) (l : list A) :
  flat_map (fun a => [f a]) l = map f l.
Proof. induction l as [|a l IH]; cbn; [reflexivity|]. rewrite IH. reflexivity. Qed.

End PortfolioFacts.

(** ** InterestRateStream: what the constructor returns *)

Section StreamInit.
Context `{Collaborators}.

Variables
  (effective_date termination_date : Date) (accrual_period : Period)
  (notional : float) (currency : Currency) (accrual_basis : AccrualBasis)
  (buseinss_day_convention : BusinessDayConvention)
  (holiday_convention : HolidayConvention)
  (is_on_index : bool)
  (ois_compounding : CompoundingMethod) (ois_spread : float)
  (fixing_in_arrear : bool) (payment_offset : Period)
  (payment_business_day_convention : BusinessDayConvention)
  (payment_holiday_convention : HolidayConvention)
  (rule : string) (end_of_month : bool).

Local Abbreviation schedule :=
  (make_schedule effective_date termination_date accrual_period
     holiday_convention buseinss_day_convention accrual_basis rule
     end_of_month fixing_in_arrear (mkPeriod "0D") payment_offset
     payment_business_day_convention payment_holiday_convention).

Local Abbreviation build float_index fixed_rate :=
  (InterestRateStream.__init__ effective_date termination_date accrual_period
     notional currency accrual_basis buseinss_day_convention
     holiday_convention float_index fixed_rate is_on_index ois_compounding
     ois_spread fixing_in_arrear payment_offset
     payment_business_day_convention payment_holiday_convention rule
     end_of_month).

Local Abbreviation units :=
  (row_units notional currency accrual_basis buseinss_day_convention
     holiday_convention ois_compounding ois_spread).

Local Abbreviation portfolio products :=
  (ProductPortfolio.__init__ products (replicate (length products) 1%Z)).

Lemma stream_init_resolved float_index fixed_rate floating :
  is_Some float_index \/ is_Some fixed_rate ->
  resolves float_index floating ->
  build float_index fixed_rate
  = OK (portfolio (flat_map (units fixed_rate floating) schedule)).
Proof.
  intros Hsome Hres. unfold InterestRateStream.__init__.
  rewrite (iterrows_resolved _ _ _ _ _ _ _ _ _ _ _ Hres). cbn.
  destruct float_index, fixed_rate; try reflexivity.
  destruct Hsome as [[? [=]]|[? [=]]].
Qed.

Lemma stream_init_inv float_index fixed_rate stream :
  build float_index fixed_rate = OK stream ->
  (schedule = [] /\ stream = portfolio (@nil Product))
  \/ exists floating,
       resolves float_index floating
       /\ stream = portfolio (flat_map (units fixed_rate floating) schedule).
Proof.
  intros Hbuild.
  destruct float_index as [name|].
  - destruct (IndexRegistry_get name) as [idx|] eqn:Hget.
    + right. exists (Some (name, idx)).
      assert (Hres : resolves (Some name) (Some (name, idx))) by (split; auto).
      split; [exact Hres|].
      rewrite (stream_init_resolved _ fixed_rate _ (or_introl (mk_is_Some _ _ eq_refl)) Hres)
        in Hbuild.
      injection Hbuild as <-. reflexivity.
    + left. unfold InterestRateStream.__init__ in Hbuild.
      destruct schedule as [|row rows].
      * split; [reflexivity|]. destruct fixed_rate; cbn in Hbuild;
          injection Hbuild as <-; reflexivity.
      * rewrite (iterrows_unresolved _ _ _ _ _ _ _ _ _ _ _ _ _ Hget) in Hbuild.
        destruct fixed_rate; discriminate.
  - destruct fixed_rate as [rate|].
    + right. exists None. split; [exact I|].
      rewrite (stream_init_resolved None (Some rate) None
                 (or_intror (mk_is_Some _ _ eq_refl)) I) in Hbuild.
      injection Hbuild as <-. reflexivity.
    + discriminate.
Qed.

(** C1. With [fixed_rate] set and [float_index] unset, the constructor returns
    a stream that holds, for a schedule of N rows, exactly N elements: the
    k-th element is the fixed-accrued unit of the k-th row with weight 1, so
    the elements follow the order of the rows, and their start dates ascend
    whenever those of the schedule do. *)
Theorem fixed_only_stream (fixed_rate : float) :
  exists stream,
    InterestRateStream.__init__ effective_date termination_date accrual_period
      notional currency accrual_basis buseinss_day_convention
      holiday_convention None (Some fixed_rate) is_on_index ois_compounding
      ois_spread fixing_in_arrear payment_offset
      payment_business_day_convention payment_holiday_convention rule
      end_of_month = OK stream
    /\ ProductPortfolio.products_ stream
       = map (fun row =>
                FixedAccrued
                  (fixed_unit notional currency accrual_basis
                     buseinss_day_convention holiday_convention fixed_rate row))
           schedule
    /\ ProductPortfolio.weights_ stream = replicate (length schedule) 1%Z
    /\ InterestRateStream.num_cashflows stream = Z.of_nat (length schedule)
    /\ length (ProductPortfolio.products_ stream) = length schedule
    /\ (forall k row,
          schedule !! k = Some row ->
          InterestRateStream.cashflow stream (Z.of_nat k)
          = OK (FixedAccrued
                  (fixed_unit notional currency accrual_basis
                     buseinss_day_convention holiday_convention fixed_rate row),
                1%Z))
    /\ omap Product_first_date (ProductPortfolio.products_ stream)
       = map StartDate schedule
    /\ (ascending (map StartDate schedule) ->
        ascending (omap Product_first_date (ProductPortfolio.products_ stream))).
Proof.
  eexists. split.
  { apply (stream_init_resolved None (Some fixed_rate) None);
      [right; eexists; reflexivity | exact I]. }
  unfold row_units. cbn [app].
  rewrite (singles_eq_map
             (fun row => FixedAccrued
                (fixed_unit notional currency accrual_basis
                   buseinss_day_convention holiday_convention fixed_rate row))).
  assert (Hdates :
    omap Product_first_date
      (map (fun row => FixedAccrued
              (fixed_unit notional currency accrual_basis
                 buseinss_day_convention holiday_convention fixed_rate row))
         schedule)
    = map StartDate schedule).
  { induction schedule as [|row rows IH]; cbn; [reflexivity|].
    f_equal. exact IH. }
  cbn [ProductPortfolio.products_ ProductPortfolio.weights_
       ProductPortfolio.__init__].
  unfold InterestRateStream.num_cashflows, InterestRateStream.cashflow.
  cbn [ProductPortfolio.num_elements_].
  rewrite length_map. repeat split; try reflexivity.
  - cbn. rewrite length_map. reflexivity.
  - intros k row Hk.
    rewrite <- (length_map
                  (fun row => FixedAccrued
                     (fixed_unit notional currency accrual_basis
                        buseinss_day_convention holiday_convention fixed_rate
                        row)) schedule).
    apply element_lookup. rewrite list_lookup_fmap, Hk. reflexivity.
  - exact Hdates.
  - rewrite Hdates. auto.
Qed.

Lemma pairs_count (f : ScheduleRow Date -> ProductFixedAccrued.t)
    (g : ScheduleRow Date -> ProductOvernightIndexCashflow.t)
    (rows : list (ScheduleRow Date)) :
  length (List.filter is_FixedAccrued
            (flat_map (fun row => [FixedAccrued (f row); OvernightIndexCashflow (g row)])
               rows))
  = length rows
  /\ length (List.filter is_OvernightIndexCashflow
               (flat_map (fun row => [FixedAccrued (f row); OvernightIndexCashflow (g row)])
                  rows))
     = length rows.
Proof.
  induction rows as [|row rows [IHf IHg]]; cbn; [split; reflexivity|].
  rewrite IHf, IHg. split; reflexivity.
Qed.

(** C2. With both [fixed_rate] and [float_index] set, the constructor returns
    a stream as soon as the registry knows the index, built of one
    fixed-accrued unit and one overnight-index unit per schedule row; and every
    stream it returns holds exactly 2N elements for a schedule of N rows, N of
    them fixed-accrued units and N overnight-index units, all of weight 1. *)
Theorem paired_stream (float_index : string) (fixed_rate : float) :
  (forall on_index_,
     IndexRegistry_get float_index = Some on_index_ ->
     exists stream,
       InterestRateStream.__init__ effective_date termination_date
         accrual_period notional currency accrual_basis
         buseinss_day_convention holiday_convention (Some float_index)
         (Some fixed_rate) is_on_index ois_compounding ois_spread
         fixing_in_arrear payment_offset payment_business_day_convention
         payment_holiday_convention rule end_of_month = OK stream
       /\ ProductPortfolio.products_ stream
          = flat_map
              (fun row =>
                 [FixedAccrued
                    (fixed_unit notional currency accrual_basis
                       buseinss_day_convention holiday_convention fixed_rate row);
                  OvernightIndexCashflow
                    (float_unit notional ois_compounding ois_spread float_index
                       on_index_ row)])
              schedule)
  /\ (forall stream,
        InterestRateStream.__init__ effective_date termination_date
          accrual_period notional currency accrual_basis
          buseinss_day_convention holiday_convention (Some float_index)
          (Some fixed_rate) is_on_index ois_compounding ois_spread
          fixing_in_arrear payment_offset payment_business_day_convention
          payment_holiday_convention rule end_of_month = OK stream ->
        InterestRateStream.num_cashflows stream
        = (2 * Z.of_nat (length schedule))%Z
        /\ length (ProductPortfolio.products_ stream) = (2 * length schedule)%nat
        /\ ProductPortfolio.weights_ stream
           = replicate (2 * length schedule) 1%Z
        /\ length (List.filter is_FixedAccrued (ProductPortfolio.products_ stream))
           = length schedule
        /\ length (List.filter is_OvernightIndexCashflow
                     (ProductPortfolio.products_ stream))
           = length schedule).
Proof.
  split.
  - intros idx Hget. eexists. split.
    + apply (stream_init_resolved (Some float_index) (Some fixed_rate)
               (Some (float_index, idx)));
        [left; eexists; reflexivity | split; [reflexivity | exact Hget]].
    + reflexivity.
  - intros stream Hbuild.
    destruct (stream_init_inv _ _ _ Hbuild)
      as [[Hnil ->]|([[name idx]|] & Hres & ->)].
    + rewrite Hnil. cbn. repeat split; reflexivity.
    + destruct Hres as [<- Hget]. unfold row_units. cbn [app].
      unfold InterestRateStream.num_cashflows, ProductPortfolio.__init__.
      cbn [ProductPortfolio.num_elements_ ProductPortfolio.products_
           ProductPortfolio.weights_].
      rewrite pairs_length.
      destruct (pairs_count
                  (fixed_unit notional currency accrual_basis
                     buseinss_day_convention holiday_convention fixed_rate)
                  (float_unit notional ois_compounding ois_spread float_index idx)
                  schedule) as [Hf Hg].
      repeat split; [lia | exact Hf | exact Hg].
    + contradiction.
Qed.

(** C3. With neither [fixed_rate] nor [float_index] the constructor raises the
    configuration error, whatever the other arguments, and returns no stream;
    and it raises a configuration error in no other case. *)
Theorem neither_rate_nor_index :
  InterestRateStream.__init__ effective_date termination_date accrual_period
    notional currency accrual_basis buseinss_day_convention holiday_convention
    None None is_on_index ois_compounding ois_spread fixing_in_arrear
    payment_offset payment_business_day_convention payment_holiday_convention
    rule end_of_month
  = Raise (ConfigurationError
             "Cannot have both floating index and fixed rate invalid.")
  /\ forall float_index fixed_rate message,
       InterestRateStream.__init__ effective_date termination_date
         accrual_period notional currency accrual_basis
         buseinss_day_convention holiday_convention float_index fixed_rate
         is_on_index ois_compounding ois_spread fixing_in_arrear payment_offset
         payment_business_day_convention payment_holiday_convention rule
         end_of_month = Raise (ConfigurationError message) ->
       float_index = None /\ fixed_rate = None.
Proof.
  split; [reflexivity|].
  intros float_index fixed_rate message Hraise.
  destruct float_index as [name|], fixed_rate as [rate|];
    try (split; reflexivity);
    unfold InterestRateStream.__init__ in Hraise;
    match type of Hraise with
    | context [InterestRateStream.iterrows ?a ?b ?c ?d ?e ?f ?g ?h ?i ?j ?k ?l] =>
        destruct (InterestRateStream.iterrows a b c d e f g h i j k l)
          as [[products weights]|e'] eqn:Hloop; cbn in Hraise;
          [discriminate|];
        apply iterrows_raises in Hloop as [name' ->]; discriminate
    end.
Qed.

(** C5. In a stream built with [fixed_rate] set, every fixed-accrued unit is
    the one constructed for a schedule row with [notional * fixed_rate] as its
    notional argument: its stored notional is the stream's notional times the
    fixed rate, and its construction computed the accrued amount over the
    row's period. Every row has its unit in the stream. *)
Theorem fixed_units_carry_rate (float_index : option string) (fixed_rate : float)
    (stream : InterestRateStream.t) :
  InterestRateStream.__init__ effective_date termination_date accrual_period
    notional currency accrual_basis buseinss_day_convention holiday_convention
    float_index (Some fixed_rate) is_on_index ois_compounding ois_spread
    fixing_in_arrear payment_offset payment_business_day_convention
    payment_holiday_convention rule end_of_month = OK stream ->
  (forall x,
     In (FixedAccrued x) (ProductPortfolio.products_ stream) ->
     exists row,
       In row schedule
       /\ x = ProductFixedAccrued.__init__ (StartDate row) (EndDate row)
                currency (notional * fixed_rate)%float accrual_basis
                (Some (PaymentDate row)) buseinss_day_convention
                holiday_convention
       /\ ProductFixedAccrued.notional_ x = (notional * fixed_rate)%float
       /\ ProductFixedAccrued.accrued_ x
          = accrued (StartDate row) (EndDate row) accrual_basis
              buseinss_day_convention holiday_convention)
  /\ (forall row,
        In row schedule ->
        In (FixedAccrued
              (fixed_unit notional currency accrual_basis
                 buseinss_day_convention holiday_convention fixed_rate row))
           (ProductPortfolio.products_ stream)).
Proof.
  intros Hbuild.
  destruct (stream_init_inv _ _ _ Hbuild) as [[Hnil ->]|(floating & Hres & ->)].
  - rewrite Hnil. split; intros ? [].
  - cbn [ProductPortfolio.products_ ProductPortfolio.__init__]. split.
    + intros x Hx. apply in_flat_map in Hx as (row & Hrow & Hx).
      exists row. split; [exact Hrow|].
      unfold row_units in Hx. apply in_app_or in Hx as [Hx|Hx].
      * destruct Hx as [[= <-]|[]]. repeat split; reflexivity.
      * destruct floating as [[name idx]|]; [|destruct Hx].
        destruct Hx as [[=]|[]].
    + intros row Hrow. apply in_flat_map. exists row. split; [exact Hrow|].
      unfold row_units. apply in_or_app. left. left. reflexivity.
Qed.

(** C10. In a stream built with both [fixed_rate] and [float_index] set, the
    pair of schedule row k sits at elements 2k and 2k+1: element 2k is the
    row's fixed-accrued unit and element 2k+1 its overnight-index unit, each
    with weight 1. *)
Theorem fixed_precedes_floating (float_index : string) (fixed_rate : float)
    (stream : InterestRateStream.t) :
  InterestRateStream.__init__ effective_date termination_date accrual_period
    notional currency accrual_basis buseinss_day_convention holiday_convention
    (Some float_index) (Some fixed_rate) is_on_index ois_compounding ois_spread
    fixing_in_arrear payment_offset payment_business_day_convention
    payment_holiday_convention rule end_of_month = OK stream ->
  forall k row,
    schedule !! k = Some row ->
    InterestRateStream.cashflow stream (2 * Z.of_nat k)
    = OK (FixedAccrued
            (fixed_unit notional currency accrual_basis buseinss_day_convention
               holiday_convention fixed_rate row),
          1%Z)
    /\ exists float_prod,
         ProductOvernightIndexCashflow.__init__ (StartDate row)
           (TermOrTerminationDate.of_date (EndDate row)) float_index
           ois_compounding ois_spread notional (Some (PaymentDate row))
         = OK float_prod
         /\ InterestRateStream.cashflow stream (2 * Z.of_nat k + 1)
            = OK (OvernightIndexCashflow float_prod, 1%Z).
Proof.
  intros Hbuild k row Hk.
  destruct (stream_init_inv _ _ _ Hbuild)
    as [[Hnil ->]|([[name idx]|] & Hres & ->)].
  - rewrite Hnil in Hk. discriminate.
  - destruct Hres as [<- Hget]. unfold row_units. cbn [app].
    destruct (pairs_lookup
                (fun row => FixedAccrued
                   (fixed_unit notional currency accrual_basis
                      buseinss_day_convention holiday_convention fixed_rate row))
                (fun row => OvernightIndexCashflow
                   (float_unit notional ois_compounding ois_spread float_index
                      idx row))
                schedule k row Hk) as [Heven Hodd].
    unfold InterestRateStream.cashflow.
    replace (2 * Z.of_nat k)%Z with (Z.of_nat (2 * k)) by lia.
    replace (Z.of_nat (2 * k) + 1)%Z with (Z.of_nat (2 * k + 1)) by lia.
    split; [apply element_lookup, Heven|].
    eexists. split; [apply overnight_init_row, Hget|].
    apply element_lookup, Hodd.
  - contradiction.
Qed.

End StreamInit.

(** ** The notionals of the units of a one-sided stream *)

Section LegFacts.
Context `{Collaborators}.

Lemma floating_only_notionals effective_date termination_date accrual_period
    notional currency accrual_basis buseinss_day_convention holiday_convention
    float_index is_on_index ois_compounding ois_spread fixing_in_arrear
    payment_offset payment_business_day_convention payment_holiday_convention
    rule end_of_month stream :
  InterestRateStream.__init__ effective_date termination_date accrual_period
    notional currency accrual_basis buseinss_day_convention holiday_convention
    (Some float_index) None is_on_index ois_compounding ois_spread
    fixing_in_arrear payment_offset payment_business_day_convention
    payment_holiday_convention rule end_of_month = OK stream ->
  forall p, In p (ProductPortfolio.products_ stream) ->
    is_OvernightIndexCashflow p = true /\ Product_notional p = Some notional.
Proof.
  intros Hbuild p Hp.
  destruct (stream_init_inv _ _ _ _ _ _ _ _ _ _ _ _ _ _ _ _ _ _ _ _ Hbuild)
    as [[_ ->]|(floating & Hres & ->)]; [destruct Hp|].
  cbn in Hp. apply in_flat_map in Hp as (row & _ & Hp).
  destruct floating as [[name idx]|]; [|contradiction].
  destruct Hp as [<-|[]]. split; reflexivity.
Qed.

Lemma fixed_only_notionals effective_date termination_date accrual_period
    notional currency accrual_basis buseinss_day_convention holiday_convention
    fixed_rate is_on_index ois_compounding ois_spread fixing_in_arrear
    payment_offset payment_business_day_convention payment_holiday_convention
    rule end_of_month stream :
  InterestRateStream.__init__ effective_date termination_date accrual_period
    notional currency accrual_basis buseinss_day_convention holiday_convention
    None (Some fixed_rate) is_on_index ois_compounding ois_spread
    fixing_in_arrear payment_offset payment_business_day_convention
    payment_holiday_convention rule end_of_month = OK stream ->
  forall p, In p (ProductPortfolio.products_ stream) ->
    is_FixedAccrued p = true
    /\ Product_notional p = Some (notional * fixed_rate)%float.
Proof.
  intros Hbuild p Hp.
  destruct (stream_init_inv _ _ _ _ _ _ _ _ _ _ _ _ _ _ _ _ _ _ _ _ Hbuild)
    as [[_ ->]|(floating & Hres & ->)]; [destruct Hp|].
  cbn in Hp. apply in_flat_map in Hp as (row & _ & Hp).
  destruct floating as [[name idx]|]; [contradiction|].
  destruct Hp as [<-|[]]. split; reflexivity.
Qed.

End LegFacts.

(** ** ProductRFRSwap *)

Section SwapProperties.
Context `{Collaborators}.

Variables
  (effective_date : Date) (payment_off_set : Period) (on_index : string)
  (fixed_rate : float) (accrual_period : Period) (accrual_basis : AccrualBasis)
  (floating_leg_accrual_period : option Period)
  (pay_business_day_convention : BusinessDayConvention)
  (pay_holiday_convention : HolidayConvention)
  (spread : float) (compounding_method : CompoundingMethod).

(** Once the registry knows the index, the constructor returns a swap whose
    legs are the streams built with the signed notionals. *)
Lemma swap_init_resolved term pay_or_rec notional on_index_ :
  IndexRegistry_get on_index = Some on_index_ ->
  exists s,
    ProductRFRSwap.__init__ effective_date term payment_off_set on_index
      fixed_rate pay_or_rec notional accrual_period accrual_basis
      floating_leg_accrual_period pay_business_day_convention
      pay_holiday_convention spread compounding_method = OK s
    /\ ProductRFRSwapState.on_index_ s = on_index_
    /\ ProductRFRSwapState.termination_date_ s
       = match term with
         | TermOrTerminationDate.of_date d => d
         | TermOrTerminationDate.of_term tenor =>
             Calendar_advance (fixingCalendar on_index_) effective_date tenor
               (businessDayConvention on_index_)
         end
    /\ ProductRFRSwapState.notional_ s = notional
    /\ ProductRFRSwapState.fixed_rate_ s = fixed_rate
    /\ ProductRFRSwapState.long_or_short_ s
       = (if (0 <? notional)%float then LONG else SHORT)
    /\ fixed_leg_built_with s
         (notional * ProductRFRSwap.fixed_leg_sign pay_or_rec)%float
    /\ floating_leg_built_with s
         (notional * - ProductRFRSwap.fixed_leg_sign pay_or_rec)%float.
Proof.
  intros Hget. unfold ProductRFRSwap.__init__. rewrite Hget.
  cbn [from_option mbind exception_bind].
  erewrite stream_init_resolved
    with (float_index := Some on_index) (floating := Some (on_index, on_index_));
    [|left; eexists; reflexivity | split; [reflexivity | exact Hget]].
  cbn [mbind exception_bind].
  erewrite stream_init_resolved
    with (float_index := None) (floating := None);
    [|right; eexists; reflexivity | exact I].
  cbn [mbind exception_bind]. eexists. split; [reflexivity|].
  unfold fixed_leg_built_with, floating_leg_built_with.
  cbn -[InterestRateStream.__init__].
  repeat split.
  - apply stream_init_resolved; [right; eexists; reflexivity | exact I].
  - apply stream_init_resolved;
      [left; eexists; reflexivity | split; [reflexivity | exact Hget]].
Qed.

(** The legs of the swap the constructor returns, unit by unit. *)
Lemma swap_init_units term pay_or_rec notional on_index_ :
  IndexRegistry_get on_index = Some on_index_ ->
  exists s,
    ProductRFRSwap.__init__ effective_date term payment_off_set on_index
      fixed_rate pay_or_rec notional accrual_period accrual_basis
      floating_leg_accrual_period pay_business_day_convention
      pay_holiday_convention spread compounding_method = OK s
    /\ ProductRFRSwapState.fixed_rate_ s = fixed_rate
    /\ ProductRFRSwapState.fixed_leg_ s
       = leg_of
           (fixed_leg_units effective_date term payment_off_set on_index_
              fixed_rate accrual_basis pay_business_day_convention
              pay_holiday_convention accrual_period
              (notional * ProductRFRSwap.fixed_leg_sign pay_or_rec)%float)
    /\ ProductRFRSwapState.floating_leg_ s
       = leg_of
           (floating_leg_units effective_date term payment_off_set on_index
              on_index_ accrual_basis pay_business_day_convention
              pay_holiday_convention spread compounding_method
              match floating_leg_accrual_period with
              | None => accrual_period
              | Some period => period
              end
              (notional * - ProductRFRSwap.fixed_leg_sign pay_or_rec)%float)
    /\ fixed_leg_built_with s
         (notional * ProductRFRSwap.fixed_leg_sign pay_or_rec)%float
    /\ floating_leg_built_with s
         (notional * - ProductRFRSwap.fixed_leg_sign pay_or_rec)%float.
Proof.
  intros Hget. unfold ProductRFRSwap.__init__. rewrite Hget.
  cbn [from_option mbind exception_bind].
  erewrite stream_init_resolved
    with (float_index := Some on_index) (floating := Some (on_index, on_index_));
    [|left; eexists; reflexivity | split; [reflexivity | exact Hget]].
  cbn [mbind exception_bind].
  erewrite stream_init_resolved
    with (float_index := None) (floating := None);
    [|right; eexists; reflexivity | exact I].
  cbn [mbind exception_bind]. eexists. split; [reflexivity|].
  unfold fixed_leg_built_with, floating_leg_built_with.
  cbn -[InterestRateStream.__init__ leg_of fixed_leg_units floating_leg_units].
  split; [reflexivity|]. split; [|split; [|split]].
  - unfold leg_of, fixed_leg_units, leg_rows, row_units. cbn [app].
    rewrite (singles_eq_map
               (fun row => FixedAccrued
                  (fixed_unit
                     (notional * ProductRFRSwap.fixed_leg_sign pay_or_rec)
                     (mkCurrency (currency_code on_index_)) accrual_basis
                     pay_business_day_convention pay_holiday_convention
                     fixed_rate row))).
    reflexivity.
  - unfold leg_of, floating_leg_units, leg_rows, row_units. cbn [app].
    rewrite (singles_eq_map
               (fun row => OvernightIndexCashflow
                  (float_unit
                     (notional * - ProductRFRSwap.fixed_leg_sign pay_or_rec)
                     compounding_method spread on_index on_index_ row))).
    reflexivity.
  - apply stream_init_resolved; [right; eexists; reflexivity | exact I].
  - apply stream_init_resolved;
      [left; eexists; reflexivity | split; [reflexivity | exact Hget]].
Qed.

Lemma fixed_leg_units_notional term on_index_ period n p :
  In p (fixed_leg_units effective_date term payment_off_set on_index_ fixed_rate
          accrual_basis pay_business_day_convention pay_holiday_convention
          period n) ->
  Product_notional p = Some (n * fixed_rate)%float.
Proof.
  unfold fixed_leg_units. intros Hp.
  apply in_map_iff in Hp as (row & <- & _). reflexivity.
Qed.

Lemma floating_leg_units_notional term on_index_ period n p :
  In p (floating_leg_units effective_date term payment_off_set on_index
          on_index_ accrual_basis pay_business_day_convention
          pay_holiday_convention spread compounding_method period n) ->
  Product_notional p = Some n.
Proof.
  unfold floating_leg_units. intros Hp.
  apply in_map_iff in Hp as (row & <- & _). reflexivity.
Qed.

(** C4. A swap that pays fixed on a notional N > 0 builds its fixed leg with
    the notional +N and its floating leg with -N, whatever the size of N.
    Unit by unit: the fixed leg is one fixed-accrued unit per row of its
    schedule, built on +N and storing N times the fixed rate, and the
    floating leg is one overnight-index unit per row of its schedule, storing
    -N, a negative number; each leg has as many cashflows as its schedule
    has rows. A swap that receives fixed has the same legs with the signs
    flipped: the fixed units are built on -N and the floating units store
    +N. *)
Theorem leg_notional_signs term notional on_index_ :
  IndexRegistry_get on_index = Some on_index_ ->
  (0 <? notional)%float = true ->
  (exists s,
     ProductRFRSwap.__init__ effective_date term payment_off_set on_index
       fixed_rate PAY notional accrual_period accrual_basis
       floating_leg_accrual_period pay_business_day_convention
       pay_holiday_convention spread compounding_method = OK s
     /\ ProductRFRSwapState.fixed_leg_ s
        = leg_of
            (fixed_leg_units effective_date term payment_off_set on_index_
               fixed_rate accrual_basis pay_business_day_convention
               pay_holiday_convention accrual_period notional)
     /\ ProductRFRSwapState.floating_leg_ s
        = leg_of
            (floating_leg_units effective_date term payment_off_set on_index
               on_index_ accrual_basis pay_business_day_convention
               pay_holiday_convention spread compounding_method
               match floating_leg_accrual_period with
               | None => accrual_period
               | Some period => period
               end
               (- notional)%float)
     /\ InterestRateStream.num_cashflows (ProductRFRSwapState.fixed_leg_ s)
        = Z.of_nat
            (length (leg_rows effective_date term payment_off_set on_index_
                       accrual_basis pay_business_day_convention
                       pay_holiday_convention accrual_period))
     /\ InterestRateStream.num_cashflows (ProductRFRSwapState.floating_leg_ s)
        = Z.of_nat
            (length (leg_rows effective_date term payment_off_set on_index_
                       accrual_basis pay_business_day_convention
                       pay_holiday_convention
                       match floating_leg_accrual_period with
                       | None => accrual_period
                       | Some period => period
                       end))
     /\ fixed_leg_built_with s notional
     /\ floating_leg_built_with s (- notional)%float
     /\ (- notional <? 0)%float = true
     /\ (forall p,
           In p (ProductPortfolio.products_ (ProductRFRSwapState.fixed_leg_ s)) ->
           Product_notional p = Some (notional * fixed_rate)%float)
     /\ (forall p,
           In p (ProductPortfolio.products_ (ProductRFRSwapState.floating_leg_ s)) ->
           Product_notional p = Some (- notional)%float))
  /\ (exists s,
        ProductRFRSwap.__init__ effective_date term payment_off_set on_index
          fixed_rate RECEIVE notional accrual_period accrual_basis
          floating_leg_accrual_period pay_business_day_convention
          pay_holiday_convention spread compounding_method = OK s
        /\ ProductRFRSwapState.fixed_leg_ s
           = leg_of
               (fixed_leg_units effective_date term payment_off_set on_index_
                  fixed_rate accrual_basis pay_business_day_convention
                  pay_holiday_convention accrual_period (- notional)%float)
        /\ ProductRFRSwapState.floating_leg_ s
           = leg_of
               (floating_leg_units effective_date term payment_off_set on_index
                  on_index_ accrual_basis pay_business_day_convention
                  pay_holiday_convention spread compounding_method
                  match floating_leg_accrual_period with
                  | None => accrual_period
                  | Some period => period
                  end
                  notional)
        /\ InterestRateStream.num_cashflows (ProductRFRSwapState.fixed_leg_ s)
           = Z.of_nat
               (length (leg_rows effective_date term payment_off_set on_index_
                          accrual_basis pay_business_day_convention
                          pay_holiday_convention accrual_period))
        /\ InterestRateStream.num_cashflows (ProductRFRSwapState.floating_leg_ s)
           = Z.of_nat
               (length (leg_rows effective_date term payment_off_set on_index_
                          accrual_basis pay_business_day_convention
                          pay_holiday_convention
                          match floating_leg_accrual_period with
                          | None => accrual_period
                          | Some period => period
                          end))
        /\ fixed_leg_built_with s (- notional)%float
        /\ floating_leg_built_with s notional
        /\ (forall p,
              In p (ProductPortfolio.products_ (ProductRFRSwapState.fixed_leg_ s)) ->
              Product_notional p = Some (- notional * fixed_rate)%float)
        /\ (forall p,
              In p (ProductPortfolio.products_ (ProductRFRSwapState.floating_leg_ s)) ->
              Product_notional p = Some notional)).
Proof.
  intros Hget Hpos. split.
  - destruct (swap_init_units term PAY notional on_index_ Hget)
      as (s & Hs & _ & Hfixed_leg & Hfloating_leg & Hfixed & Hfloating).
    cbn [ProductRFRSwap.fixed_leg_sign PayOrReceive_eqb]
      in Hfixed_leg, Hfloating_leg, Hfixed, Hfloating.
    rewrite Float64.mul_1_r in Hfixed_leg, Hfixed.
    rewrite Float64.mul_m1_r in Hfloating_leg, Hfloating.
    exists s. rewrite Hfixed_leg, Hfloating_leg.
    split; [exact Hs|]. split; [reflexivity|]. split; [reflexivity|].
    split; [|split].
    + unfold InterestRateStream.num_cashflows, leg_of, fixed_leg_units.
      cbn [ProductPortfolio.num_elements_ ProductPortfolio.__init__].
      rewrite length_map. reflexivity.
    + unfold InterestRateStream.num_cashflows, leg_of, floating_leg_units.
      cbn [ProductPortfolio.num_elements_ ProductPortfolio.__init__].
      rewrite length_map. reflexivity.
    + rewrite <- Hfixed_leg, <- Hfloating_leg.
      split; [exact Hfixed|]. split; [exact Hfloating|].
      split; [apply Float64.opp_negative, Hpos|].
      rewrite Hfixed_leg, Hfloating_leg. split; intros p Hp.
      * exact (fixed_leg_units_notional _ _ _ _ _ Hp).
      * exact (floating_leg_units_notional _ _ _ _ _ Hp).
  - destruct (swap_init_units term RECEIVE notional on_index_ Hget)
      as (s & Hs & _ & Hfixed_leg & Hfloating_leg & Hfixed & Hfloating).
    cbn [ProductRFRSwap.fixed_leg_sign PayOrReceive_eqb]
      in Hfixed_leg, Hfloating_leg, Hfixed, Hfloating.
    change (- - 1)%float with 1%float in Hfloating_leg, Hfloating.
    rewrite Float64.mul_m1_r in Hfixed_leg, Hfixed.
    rewrite Float64.mul_1_r in Hfloating_leg, Hfloating.
    exists s. rewrite Hfixed_leg, Hfloating_leg.
    split; [exact Hs|]. split; [reflexivity|]. split; [reflexivity|].
    split; [|split].
    + unfold InterestRateStream.num_cashflows, leg_of, fixed_leg_units.
      cbn [ProductPortfolio.num_elements_ ProductPortfolio.__init__].
      rewrite length_map. reflexivity.
    + unfold InterestRateStream.num_cashflows, leg_of, floating_leg_units.
      cbn [ProductPortfolio.num_elements_ ProductPortfolio.__init__].
      rewrite length_map. reflexivity.
    + rewrite <- Hfixed_leg, <- Hfloating_leg.
      split; [exact Hfixed|]. split; [exact Hfloating|].
      rewrite Hfixed_leg, Hfloating_leg. split; intros p Hp.
      * exact (fixed_leg_units_notional _ _ _ _ _ Hp).
      * exact (floating_leg_units_notional _ _ _ _ _ Hp).
Qed.

(** C8. Built with a tenor, an overnight-index cashflow and a swap end on the
    effective date advanced by the tenor on the fixing calendar of the index
    the registry holds for the index name, under that index's business-day
    convention; built with an explicit date, they end on that date. *)
Theorem termination_date_resolution on_index_ pay_or_rec notional payment_date :
  IndexRegistry_get on_index = Some on_index_ ->
  (forall tenor,
     exists x,
       ProductOvernightIndexCashflow.__init__ effective_date
         (TermOrTerminationDate.of_term tenor) on_index compounding_method
         spread notional payment_date = OK x
       /\ ProductOvernightIndexCashflow.termination_date x
          = Calendar_advance (fixingCalendar on_index_) effective_date tenor
              (businessDayConvention on_index_))
  /\ (forall d,
        exists x,
          ProductOvernightIndexCashflow.__init__ effective_date
            (TermOrTerminationDate.of_date d) on_index compounding_method
            spread notional payment_date = OK x
          /\ ProductOvernightIndexCashflow.termination_date x = d)
  /\ (forall tenor,
        exists s,
          ProductRFRSwap.__init__ effective_date
            (TermOrTerminationDate.of_term tenor) payment_off_set on_index
            fixed_rate pay_or_rec notional accrual_period accrual_basis
            floating_leg_accrual_period pay_business_day_convention
            pay_holiday_convention spread compounding_method = OK s
          /\ ProductRFRSwap.termination_date s
             = Calendar_advance (fixingCalendar on_index_) effective_date tenor
                 (businessDayConvention on_index_))
  /\ (forall d,
        exists s,
          ProductRFRSwap.__init__ effective_date
            (TermOrTerminationDate.of_date d) payment_off_set on_index
            fixed_rate pay_or_rec notional accrual_period accrual_basis
            floating_leg_accrual_period pay_business_day_convention
            pay_holiday_convention spread compounding_method = OK s
          /\ ProductRFRSwap.termination_date s = d).
Proof.
  intros Hget. repeat split.
  - intros tenor. unfold ProductOvernightIndexCashflow.__init__.
    rewrite Hget. eexists. split; reflexivity.
  - intros d. unfold ProductOvernightIndexCashflow.__init__.
    rewrite Hget. eexists. split; reflexivity.
  - intros tenor.
    destruct (swap_init_resolved (TermOrTerminationDate.of_term tenor)
                pay_or_rec notional on_index_ Hget) as (s & Hs & _ & Hterm & _).
    exists s. split; [exact Hs | exact Hterm].
  - intros d.
    destruct (swap_init_resolved (TermOrTerminationDate.of_date d)
                pay_or_rec notional on_index_ Hget) as (s & Hs & _ & Hterm & _).
    exists s. split; [exact Hs | exact Hterm].
Qed.

End SwapProperties.

(** ** The long-or-short flag *)

Section FlagProperties.
Context `{Collaborators}.

Lemma eqb_zero_sym (x : float) : (x =? 0)%float = (0 =? x)%float.
Proof.
  rewrite !FloatAxioms.eqb_spec. change (Prim2SF 0) with (S754_zero false).
  destruct (Prim2SF x) as [s|s| |s m e]; try reflexivity; destruct s; reflexivity.
Qed.

Lemma long_iff (b : bool) : (if b then LONG else SHORT) = LONG <-> b = true.
Proof. destruct b; split; intros; congruence. Qed.

Lemma swap_init_fields effective_date term payment_off_set on_index fixed_rate
    pay_or_rec notional accrual_period accrual_basis
    floating_leg_accrual_period pay_business_day_convention
    pay_holiday_convention spread compounding_method s :
  ProductRFRSwap.__init__ effective_date term payment_off_set on_index
    fixed_rate pay_or_rec notional accrual_period accrual_basis
    floating_leg_accrual_period pay_business_day_convention
    pay_holiday_convention spread compounding_method = OK s ->
  ProductRFRSwapState.notional_ s = notional
  /\ ProductRFRSwapState.long_or_short_ s
     = (if (0 <? notional)%float then LONG else SHORT).
Proof.
  unfold ProductRFRSwap.__init__. intros Hs.
  destruct (IndexRegistry_get on_index) as [idx|];
    cbn [from_option mbind exception_bind] in Hs; [|discriminate].
  repeat match type of Hs with
         | context [mbind _ ?m] =>
             destruct m; cbn [mbind exception_bind] in Hs; [|discriminate]
         end.
  injection Hs as <-. split; reflexivity.
Qed.

(** C7 (as the code has it). The fixed-accrued and the overnight-index
    cashflows derive the flag from their signed notional: LONG exactly when
    the notional is at least zero. The bullet cashflow stores the flag its
    caller passes, whatever the notional. The swap derives the flag from its
    notional, and for a notional other than zero it is LONG exactly when the
    notional is at least zero. *)
Theorem long_or_short_of_notional :
  (forall effective_date termination_date currency notional accrual_basis
          payment_date business_day_convention holiday_convention,
     let x :=
       ProductFixedAccrued.__init__ effective_date termination_date currency
         notional accrual_basis payment_date business_day_convention
         holiday_convention in
     ProductFixedAccrued.notional_ x = notional
     /\ (ProductFixedAccrued.long_or_short_ x = LONG
         <-> (0 <=? ProductFixedAccrued.notional_ x)%float = true))
  /\ (forall effective_date term on_index compounding_method spread notional
             payment_date x,
        ProductOvernightIndexCashflow.__init__ effective_date term on_index
          compounding_method spread notional payment_date = OK x ->
        ProductOvernightIndexCashflow.notional_ x = notional
        /\ (ProductOvernightIndexCashflow.long_or_short_ x = LONG
            <-> (0 <=? ProductOvernightIndexCashflow.notional_ x)%float = true))
  /\ (forall termination_date currency notional long_or_short payment_date,
        let x :=
          ProductBulletCashflow.__init__ termination_date currency notional
            long_or_short payment_date in
        ProductBulletCashflow.notional_ x = notional
        /\ ProductBulletCashflow.long_or_short_ x = long_or_short)
  /\ (forall effective_date term payment_off_set on_index fixed_rate pay_or_rec
             notional accrual_period accrual_basis floating_leg_accrual_period
             pay_business_day_convention pay_holiday_convention spread
             compounding_method s,
        ProductRFRSwap.__init__ effective_date term payment_off_set on_index
          fixed_rate pay_or_rec notional accrual_period accrual_basis
          floating_leg_accrual_period pay_business_day_convention
          pay_holiday_convention spread compounding_method = OK s ->
        ProductRFRSwapState.notional_ s = notional
        /\ ((ProductRFRSwapState.notional_ s =? 0)%float = false ->
            (ProductRFRSwapState.long_or_short_ s = LONG
             <-> (0 <=? ProductRFRSwapState.notional_ s)%float = true))).
Proof.
  split; [|split; [|split]].
  - intros. split; [reflexivity|]. apply long_iff.
  - intros effective_date term on_index method spread notional payment_date x Hx.
    unfold ProductOvernightIndexCashflow.__init__ in Hx.
    destruct (IndexRegistry_get on_index); cbn in Hx; [|discriminate].
    injection Hx as <-. split; [reflexivity|]. apply long_iff.
  - intros. split; reflexivity.
  - intros until s. intros Hs.
    apply swap_init_fields in Hs as [-> ->]. split; [reflexivity|].
    intros Hnonzero. rewrite long_iff, Float64.leb_ltb_eqb.
    rewrite eqb_zero_sym in Hnonzero. rewrite Hnonzero, orb_false_r.
    reflexivity.
Qed.

End FlagProperties.

(** ** Double dispatch *)

Section VisitorProperties.
Context `{Collaborators}.

(** C9. [accept] runs exactly one handler of the visitor, the one of the
    product's own class, and returns that handler's result as it is; this is
    so for every product class and every visitor. *)
Theorem accept_runs_one_handler (R : Type) (visitor : ProductVisitor.t R)
    (product : Product) :
  Product_accept product visitor
  = ([product_type product], ProductVisitor.handler_result visitor product)
  /\ length (fst (Product_accept product visitor)) = 1%nat
  /\ (forall x : ProductOvernightIndexCashflow.t,
        ProductOvernightIndexCashflow_accept x visitor
        = ([ProductOvernightIndexCashflow._product_type],
           ProductVisitor.visit_ProductOvernightIndexCashflow R visitor x)).
Proof.
  repeat split; destruct product; reflexivity.
Qed.

End VisitorProperties.

(** ** Serialization *)

Section SerializationProperties.
Context `{Collaborators}.

Ltac serialized_lookup :=
  unfold ProductOvernightIndexCashflow.serialize, setitems;
  cbn [fold_left fst snd];
  repeat (rewrite lookup_insert_ne by discriminate);
  apply lookup_insert_eq.

Lemma serialized_effective_date (x : ProductOvernightIndexCashflow.t) :
  ProductOvernightIndexCashflow.serialize x !! "EFFECTIVE_DATE"
  = Some (Str (ISO (ProductOvernightIndexCashflow.effective_date x))).
Proof. serialized_lookup. Qed.

Lemma serialized_termination_date (x : ProductOvernightIndexCashflow.t) :
  ProductOvernightIndexCashflow.serialize x !! "TERMINATION_DATE"
  = Some (Str (ISO (ProductOvernightIndexCashflow.termination_date x))).
Proof. serialized_lookup. Qed.

Lemma serialized_payment_date (x : ProductOvernightIndexCashflow.t) :
  ProductOvernightIndexCashflow.serialize x !! "PAYMENT_DATE"
  = Some (Str (ISO (ProductOvernightIndexCashflow.payment_date x))).
Proof. serialized_lookup. Qed.

Lemma serialized_on_index (x : ProductOvernightIndexCashflow.t) :
  ProductOvernightIndexCashflow.serialize x !! "ON_INDEX"
  = Some (Str (ProductOvernightIndexCashflow.on_index_str_ x)).
Proof. serialized_lookup. Qed.

Lemma serialized_spread (x : ProductOvernightIndexCashflow.t) :
  ProductOvernightIndexCashflow.serialize x !! "SPREAD"
  = Some (Float (ProductOvernightIndexCashflow.spread x)).
Proof. serialized_lookup. Qed.

Lemma serialized_compounding_method (x : ProductOvernightIndexCashflow.t) :
  ProductOvernightIndexCashflow.serialize x !! "COMPOUNDING_METHOD"
  = Some (Str (upper (CompoundingMethod_to_string
                        (ProductOvernightIndexCashflow.compounding_method x)))).
Proof. serialized_lookup. Qed.

Lemma serialized_notional (x : ProductOvernightIndexCashflow.t) :
  ProductOvernightIndexCashflow.serialize x !! "NOTIONAL"
  = Some (Float (ProductOvernightIndexCashflow.notional x)).
Proof. serialized_lookup. Qed.

Lemma serialized_version_and_type (x : ProductOvernightIndexCashflow.t) :
  ProductOvernightIndexCashflow.serialize x !! "VERSION" = Some (Int 1)
  /\ ProductOvernightIndexCashflow.serialize x !! "TYPE"
     = Some (Str "PRODUCT_OVERNIGHT_INDEX_CASHFLOW").
Proof. split; serialized_lookup. Qed.

Lemma serialized_keys (x : ProductOvernightIndexCashflow.t) :
  dom (ProductOvernightIndexCashflow.serialize x)
  = list_to_set
      [ "VERSION"; "TYPE"; "EFFECTIVE_DATE"; "TERMINATION_DATE";
        "PAYMENT_DATE"; "ON_INDEX"; "SPREAD"; "COMPOUNDING_METHOD";
        "NOTIONAL" ].
Proof.
  unfold ProductOvernightIndexCashflow.serialize, setitems.
  cbn [fold_left fst snd list_to_set foldr].
  rewrite !dom_insert_L, dom_empty_L. set_solver.
Qed.

(** C6. Deserializing the dictionary a constructed cashflow serializes to
    returns a cashflow that serializes to the same dictionary, whose keys are
    the nine canonical ones, provided the collaborators read back the ISO
    dates and the method name that were printed. *)
Theorem serialize_round_trip (x : ProductOvernightIndexCashflow.t) :
  constructed x ->
  reads_back x ->
  exists x',
    ProductOvernightIndexCashflow.deserialize
      (ProductOvernightIndexCashflow.serialize x) = OK x'
    /\ ProductOvernightIndexCashflow.serialize x'
       = ProductOvernightIndexCashflow.serialize x
    /\ dom (ProductOvernightIndexCashflow.serialize x)
       = list_to_set
           [ "VERSION"; "TYPE"; "EFFECTIVE_DATE"; "TERMINATION_DATE";
             "PAYMENT_DATE"; "ON_INDEX"; "SPREAD"; "COMPOUNDING_METHOD";
             "NOTIONAL" ].
Proof.
  intros Hx ((de & Hde & Hie) & (dt & Hdt & Hit) & (dp & Hdp & Hip)
             & (c & Hc & Hcu)).
  apply constructed_resolved in Hx.
  unfold ProductOvernightIndexCashflow.deserialize, getitem.
  rewrite serialized_effective_date, serialized_termination_date,
    serialized_payment_date, serialized_on_index, serialized_spread,
    serialized_compounding_method, serialized_notional.
  cbn [from_option mbind exception_bind Date_of_value
       TermOrTerminationDate_of_value str_of_value float_of_value].
  rewrite Hde, Hdt, Hdp, Hc.
  cbn [from_option mbind exception_bind].
  unfold ProductOvernightIndexCashflow.__init__. rewrite Hx.
  cbn [from_option mbind exception_bind].
  eexists. split; [reflexivity|]. split; [|apply serialized_keys].
  unfold ProductOvernightIndexCashflow.serialize,
    ProductOvernightIndexCashflow.effective_date,
    ProductOvernightIndexCashflow.termination_date,
    ProductOvernightIndexCashflow.payment_date,
    ProductOvernightIndexCashflow.spread,
    ProductOvernightIndexCashflow.notional,
    ProductOvernightIndexCashflow.compounding_method in *.
  cbn [ProductOvernightIndexCashflow.effective_date_
       ProductOvernightIndexCashflow.termination_date_
       ProductOvernightIndexCashflow.paymentDate_
       ProductOvernightIndexCashflow.on_index_str_
       ProductOvernightIndexCashflow.spread_
       ProductOvernightIndexCashflow.notional_
       ProductOvernightIndexCashflow.compounding_method_].
  rewrite Hie, Hit, Hip, Hcu. reflexivity.
Qed.

End SerializationProperties.

(** ** The properties on the sample collaborators *)

Section OnTheSample.

#[local] Existing Instance Sample.collaborators.

Local Abbreviation sofr := (Sample.mkindex "SOFR-1B" "USD").

Local Abbreviation quarters :=
  (Sample.schedule Sample.jan1 Sample.jul1 (mkPeriod "3M")).

(** [evaluated H t] runs the closed term [t] and records its value as
    [H : t = value]. *)
Ltac evaluated H t :=
  let v := eval vm_compute in t in
  assert (H : t = v) by reflexivity.

(** The concrete scenario: two fixed-accrued units over
    [2024-01-01, 2024-04-01] and [2024-04-01, 2024-07-01], each of weight 1. *)
Example concrete_scenario :
  exists first second,
    Sample.stream None (Some Sample.rate)
    = OK {| ProductPortfolio.products_ := [FixedAccrued first; FixedAccrued second];
            ProductPortfolio.weights_ := [1%Z; 1%Z];
            ProductPortfolio.num_elements_ := 2 |}
    /\ ProductFixedAccrued.effective_date first = Sample.jan1
    /\ ProductFixedAccrued.termination_date first = Sample.apr1
    /\ ProductFixedAccrued.effective_date second = Sample.apr1
    /\ ProductFixedAccrued.termination_date second = Sample.jul1.
Proof.
  evaluated Hs (Sample.stream None (Some Sample.rate)).
  match type of Hs with
  | _ = OK {| ProductPortfolio.products_ := [FixedAccrued ?a; FixedAccrued ?b] |} =>
      exists a, b
  end.
  split; [exact Hs|]. repeat split.
Qed.

Example unknown_index_raises :
  Sample.stream (Some "LIBOR-3M") (Some Sample.rate)
  = Raise (LookupError "LIBOR-3M").
Proof. reflexivity. Qed.

Example quarters_ascend : ascending (map StartDate quarters).
Proof.
  change (map StartDate quarters) with [Sample.jan1; Sample.apr1].
  repeat constructor; apply Z.leb_le; reflexivity.
Qed.

(** C1 on the sample: the quarterly schedule ascends, and so does the stream
    of its two fixed units. *)
Lemma fixed_only_stream_sample :
  ascending (map StartDate quarters)
  /\ exists stream,
       Sample.stream None (Some Sample.rate) = OK stream
       /\ InterestRateStream.num_cashflows stream = 2%Z
       /\ ascending (omap Product_first_date (ProductPortfolio.products_ stream)).
Proof.
  destruct (@fixed_only_stream Sample.collaborators Sample.jan1 Sample.jul1
              (mkPeriod "3M") 1000000%float Sample.usd Sample.act360
              default_business_day_convention default_holiday_convention true
              Sample.Compound default_ois_spread default_fixing_in_arrear
              default_payment_offset default_business_day_convention
              default_holiday_convention default_rule default_end_of_month
              Sample.rate)
    as (stream & Hs & _ & _ & Hn & _ & _ & _ & Hsorted).
  split; [exact quarters_ascend|]. exists stream.
  split; [exact Hs|]. split; [exact Hn|]. apply Hsorted, quarters_ascend.
Defined.

(** C2 on the sample: SOFR is known, and the stream has four elements. *)
Lemma paired_stream_sample :
  Sample.registry "SOFR-1B" = Some sofr
  /\ exists stream,
       Sample.stream (Some "SOFR-1B") (Some Sample.rate) = OK stream
       /\ InterestRateStream.num_cashflows stream = 4%Z
       /\ length (List.filter is_FixedAccrued (ProductPortfolio.products_ stream))
          = 2%nat.
Proof.
  destruct (@paired_stream Sample.collaborators Sample.jan1 Sample.jul1
              (mkPeriod "3M") 1000000%float Sample.usd Sample.act360
              default_business_day_convention default_holiday_convention true
              Sample.Compound default_ois_spread default_fixing_in_arrear
              default_payment_offset default_business_day_convention
              default_holiday_convention default_rule default_end_of_month
              "SOFR-1B" Sample.rate)
    as [Hbuilt Hany].
  destruct (Hbuilt sofr eq_refl) as (stream & Hs & _).
  destruct (Hany stream Hs) as (Hn & _ & _ & Hfixed & _).
  split; [reflexivity|]. exists stream.
  split; [exact Hs|]. split; [exact Hn | exact Hfixed].
Defined.

(** C3 on the sample: neither input, and the configuration error. *)
Lemma neither_rate_nor_index_sample :
  Sample.stream None None
  = Raise (ConfigurationError
             "Cannot have both floating index and fixed rate invalid.").
Proof.
  exact (proj1 (@neither_rate_nor_index Sample.collaborators Sample.jan1
                  Sample.jul1 (mkPeriod "3M") 1000000%float Sample.usd
                  Sample.act360 default_business_day_convention
                  default_holiday_convention true Sample.Compound
                  default_ois_spread default_fixing_in_arrear
                  default_payment_offset default_business_day_convention
                  default_holiday_convention default_rule
                  default_end_of_month)).
Defined.

(** C4 on the sample: a two-year swap on SOFR with notional 1,000,000 has
    eight quarterly units on each leg. *)
Lemma leg_notional_signs_sample :
  Sample.registry "SOFR-1B" = Some sofr
  /\ (0 <? 1000000)%float = true
  /\ (exists s,
        Sample.swap PAY 1000000%float = OK s
        /\ InterestRateStream.num_cashflows (ProductRFRSwapState.fixed_leg_ s)
           = 8%Z
        /\ InterestRateStream.num_cashflows (ProductRFRSwapState.floating_leg_ s)
           = 8%Z
        /\ (forall p,
              In p (ProductPortfolio.products_ (ProductRFRSwapState.fixed_leg_ s)) ->
              Product_notional p = Some (1000000 * Sample.rate)%float)
        /\ (forall p,
              In p (ProductPortfolio.products_
                      (ProductRFRSwapState.floating_leg_ s)) ->
              Product_notional p = Some (- 1000000)%float))
  /\ (exists s,
        Sample.swap RECEIVE 1000000%float = OK s
        /\ InterestRateStream.num_cashflows (ProductRFRSwapState.fixed_leg_ s)
           = 8%Z
        /\ InterestRateStream.num_cashflows (ProductRFRSwapState.floating_leg_ s)
           = 8%Z
        /\ (forall p,
              In p (ProductPortfolio.products_ (ProductRFRSwapState.fixed_leg_ s)) ->
              Product_notional p = Some (- 1000000 * Sample.rate)%float)
        /\ (forall p,
              In p (ProductPortfolio.products_
                      (ProductRFRSwapState.floating_leg_ s)) ->
              Product_notional p = Some 1000000%float)).
Proof.
  destruct (@leg_notional_signs Sample.collaborators Sample.jan1
              (mkPeriod "2D") "SOFR-1B" Sample.rate (mkPeriod "3M")
              Sample.act360 None default_business_day_convention
              default_holiday_convention 0%float Sample.Compound
              (TermOrTerminationDate.of_term (mkPeriod "2Y")) 1000000%float
              sofr eq_refl eq_refl)
    as [(s & Hs & _ & _ & Hn & Hm & _ & _ & _ & Hfixed & Hfloating)
        (s' & Hs' & _ & _ & Hn' & Hm' & _ & _ & Hfixed' & Hfloating')].
  evaluated Hrows
    (length (@leg_rows Sample.collaborators Sample.jan1
               (TermOrTerminationDate.of_term (mkPeriod "2Y")) (mkPeriod "2D")
               sofr Sample.act360 default_business_day_convention
               default_holiday_convention (mkPeriod "3M"))).
  rewrite Hrows in Hn, Hm, Hn', Hm'.
  split; [reflexivity|]. split; [reflexivity|]. split.
  - exists s. split; [exact Hs|]. split; [exact Hn|]. split; [exact Hm|].
    split; [exact Hfixed | exact Hfloating].
  - exists s'. split; [exact Hs'|]. split; [exact Hn'|]. split; [exact Hm'|].
    split; [exact Hfixed' | exact Hfloating'].
Defined.

(** C5 on the sample: the fixed units of the paired stream store
    1,000,000 times the rate. *)
Lemma fixed_units_carry_rate_sample :
  exists stream,
    Sample.stream (Some "SOFR-1B") (Some Sample.rate) = OK stream
    /\ forall x,
         In (FixedAccrued x) (ProductPortfolio.products_ stream) ->
         ProductFixedAccrued.notional_ x = (1000000 * Sample.rate)%float.
Proof.
  evaluated Hs (Sample.stream (Some "SOFR-1B") (Some Sample.rate)).
  match type of Hs with _ = OK ?stream => exists stream end.
  split; [exact Hs|]. intros x Hx.
  destruct (@fixed_units_carry_rate Sample.collaborators Sample.jan1 Sample.jul1
              (mkPeriod "3M") 1000000%float Sample.usd Sample.act360
              default_business_day_convention default_holiday_convention true
              Sample.Compound default_ois_spread default_fixing_in_arrear
              default_payment_offset default_business_day_convention
              default_holiday_convention default_rule default_end_of_month
              (Some "SOFR-1B") Sample.rate _ Hs)
    as [Hall _].
  destruct (Hall x Hx) as (row & _ & _ & Hnotional & _). exact Hnotional.
Defined.

(** C10 on the sample: elements 2 and 3 are the fixed and the floating unit
    of the second quarter. *)
Lemma fixed_precedes_floating_sample :
  exists stream fixed floating,
    Sample.stream (Some "SOFR-1B") (Some Sample.rate) = OK stream
    /\ quarters !! 1%nat
       = Some (mkScheduleRow Sample.apr1 Sample.jul1 Sample.jul1)
    /\ InterestRateStream.cashflow stream 2 = OK (FixedAccrued fixed, 1%Z)
    /\ ProductFixedAccrued.effective_date fixed = Sample.apr1
    /\ InterestRateStream.cashflow stream 3
       = OK (OvernightIndexCashflow floating, 1%Z)
    /\ ProductOvernightIndexCashflow.effective_date floating = Sample.apr1.
Proof.
  evaluated Hs (Sample.stream (Some "SOFR-1B") (Some Sample.rate)).
  assert (Hrow : quarters !! 1%nat
                 = Some (mkScheduleRow Sample.apr1 Sample.jul1 Sample.jul1))
    by reflexivity.
  destruct (@fixed_precedes_floating Sample.collaborators Sample.jan1
              Sample.jul1 (mkPeriod "3M") 1000000%float Sample.usd
              Sample.act360 default_business_day_convention
              default_holiday_convention true Sample.Compound
              default_ois_spread default_fixing_in_arrear
              default_payment_offset default_business_day_convention
              default_holiday_convention default_rule default_end_of_month
              "SOFR-1B" Sample.rate _ Hs 1%nat _ Hrow)
    as (Hfixed & floating & Hinit & Hfloating).
  match type of Hs with _ = OK ?stream => exists stream end.
  eexists. exists floating.
  split; [exact Hs|]. split; [exact Hrow|]. split; [exact Hfixed|].
  split; [reflexivity|]. split; [exact Hfloating|].
  injection Hinit as <-. reflexivity.
Defined.

(** C6 on the sample: the quarterly SOFR cashflow survives the round trip. *)
Lemma serialize_round_trip_sample :
  exists x,
    Sample.cashflow = OK x
    /\ constructed x
    /\ reads_back x
    /\ exists x',
         ProductOvernightIndexCashflow.deserialize
           (ProductOvernightIndexCashflow.serialize x) = OK x'
         /\ ProductOvernightIndexCashflow.serialize x'
            = ProductOvernightIndexCashflow.serialize x.
Proof.
  evaluated Hx Sample.cashflow.
  match type of Hx with _ = OK ?x => exists x; set (y := x) in * end.
  assert (Hconstructed : constructed y).
  { exists Sample.jan1, (TermOrTerminationDate.of_term (mkPeriod "3M")),
      "SOFR-1B", Sample.Compound, 0%float, 1000000%float, None.
    exact Hx. }
  assert (Hreads : reads_back y).
  { evaluated H1 (Date_of_str (ISO (ProductOvernightIndexCashflow.effective_date y))).
    evaluated H2 (TermOrTerminationDate_of_str
                    (ISO (ProductOvernightIndexCashflow.termination_date y))).
    evaluated H3 (Date_of_str (ISO (ProductOvernightIndexCashflow.payment_date y))).
    evaluated H4 (CompoundingMethod_from_string
                    (upper (CompoundingMethod_to_string
                              (ProductOvernightIndexCashflow.compounding_method y)))).
    split; [eexists; split; [exact H1 | reflexivity]|].
    split; [eexists; split; [exact H2 | reflexivity]|].
    split; [eexists; split; [exact H3 | reflexivity]|].
    eexists; split; [exact H4 | reflexivity]. }
  split; [exact Hx|]. split; [exact Hconstructed|]. split; [exact Hreads|].
  destruct (@serialize_round_trip Sample.collaborators y Hconstructed Hreads)
    as (x' & Hde & Hser & _).
  exists x'. split; [exact Hde | exact Hser].
Defined.

(** C7 on the sample: a swap on 1,000,000 is LONG, and its notional is at
    least zero. *)
Lemma long_or_short_of_notional_sample :
  exists s,
    Sample.swap PAY 1000000%float = OK s
    /\ (ProductRFRSwapState.notional_ s =? 0)%float = false
    /\ ProductRFRSwapState.long_or_short_ s = LONG
    /\ (0 <=? ProductRFRSwapState.notional_ s)%float = true.
Proof.
  evaluated Hs (Sample.swap PAY 1000000%float).
  match type of Hs with _ = OK ?s => exists s; set (y := s) in * end.
  destruct (@long_or_short_of_notional Sample.collaborators)
    as (_ & _ & _ & Hswap).
  destruct (Hswap Sample.jan1 (TermOrTerminationDate.of_term (mkPeriod "2Y"))
              (mkPeriod "2D") "SOFR-1B" Sample.rate PAY 1000000%float
              (mkPeriod "3M") Sample.act360 None
              default_business_day_convention default_holiday_convention
              0%float Sample.Compound y Hs) as [Hn Hiff].
  assert (Hnonzero : (ProductRFRSwapState.notional_ y =? 0)%float = false)
    by reflexivity.
  assert (Hnonneg : (0 <=? ProductRFRSwapState.notional_ y)%float = true)
    by reflexivity.
  split; [exact Hs|]. split; [exact Hnonzero|].
  split; [apply (Hiff Hnonzero), Hnonneg | exact Hnonneg].
Defined.

(** C7 as stated fails on the bullet cashflow, whose flag is an argument: a
    bullet cashflow built with notional -1 and LONG is LONG, though its
    notional is not at least zero. *)
Lemma bullet_flag_is_an_argument :
  Product_long_or_short
    (BulletCashflow
       (ProductBulletCashflow.__init__ Sample.jul1 Sample.usd (- 1)%float LONG
          None))
  = Some LONG
  /\ Product_notional
       (BulletCashflow
          (ProductBulletCashflow.__init__ Sample.jul1 Sample.usd (- 1)%float
             LONG None))
     = Some (- 1)%float
  /\ (0 <=? - 1)%float = false.
Proof. split; [reflexivity|]. split; reflexivity. Defined.

(** The swap compares its notional with [>], not [>=]: on a notional of
    zero it is SHORT. *)
Example swap_of_zero_is_short :
  exists s,
    Sample.swap PAY 0%float = OK s
    /\ ProductRFRSwapState.long_or_short_ s = SHORT
    /\ (0 <=? ProductRFRSwapState.notional_ s)%float = true.
Proof.
  evaluated Hs (Sample.swap PAY 0%float).
  match type of Hs with _ = OK ?s => exists s end.
  split; [exact Hs|]; split; reflexivity.
Qed.

(** C8 on the sample: three months from 2024-01-01 is 2024-04-01, and two
    years is 2026-01-01. *)
Lemma termination_date_resolution_sample :
  Sample.registry "SOFR-1B" = Some sofr
  /\ (exists x,
        Sample.cashflow = OK x
        /\ ProductOvernightIndexCashflow.termination_date x = Sample.apr1)
  /\ (exists s,
        Sample.swap PAY 1000000%float = OK s
        /\ ProductRFRSwap.termination_date s = Sample.mkdate 2026 1 1).
Proof.
  destruct (@termination_date_resolution Sample.collaborators Sample.jan1
              (mkPeriod "2D") "SOFR-1B" Sample.rate (mkPeriod "3M")
              Sample.act360 None default_business_day_convention
              default_holiday_convention 0%float Sample.Compound sofr PAY
              1000000%float None eq_refl)
    as (Hcashflow & _ & Hswap & _).
  destruct (Hcashflow (mkPeriod "3M")) as (x & Hx & Hxdate).
  destruct (Hswap (mkPeriod "2Y")) as (s & Hs & Hsdate).
  split; [reflexivity|]. split.
  - exists x. split; [exact Hx | exact Hxdate].
  - exists s. split; [exact Hs | exact Hsdate].
Defined.

(** C9 on the sample: a visitor that names the class of each product. *)
Example accept_on_the_sample :
  exists x,
    Sample.cashflow = OK x
    /\ Product_accept (OvernightIndexCashflow x)
         {| ProductVisitor.visit_ProductBulletCashflow := fun _ => "bullet";
            ProductVisitor.visit_ProductFixedAccrued := fun _ => "fixed";
            ProductVisitor.visit_ProductOvernightIndexCashflow := fun _ => "overnight";
            ProductVisitor.visit_ProductRFRFuture := fun _ => "future";
            ProductVisitor.visit_ProductRFRSwap := fun _ => "swap" |}
       = (["PRODUCT_OVERNIGHT_INDEX_CASHFLOW"], "overnight").
Proof.
  evaluated Hx Sample.cashflow.
  match type of Hx with _ = OK ?x => exists x end.
  split; [exact Hx | reflexivity].
Qed.

End OnTheSample.

(** * Part III: further properties of the code *)

(** ** InterestRateStream: every way the constructor ends *)

Section StreamFurther.
Context `{Collaborators}.

Variables
  (effective_date termination_date : Date) (accrual_period : Period)
  (notional : float) (currency : Currency) (accrual_basis : AccrualBasis)
  (buseinss_day_convention : BusinessDayConvention)
  (holiday_convention : HolidayConvention)
  (is_on_index : bool)
  (ois_compounding : CompoundingMethod) (ois_spread : float)
  (fixing_in_arrear : bool) (payment_offset : Period)
  (payment_business_day_convention : BusinessDayConvention)
  (payment_holiday_convention : HolidayConvention)
  (rule : string) (end_of_month : bool).

Local Abbreviation schedule :=
  (make_schedule effective_date termination_date accrual_period
     holiday_convention buseinss_day_convention accrual_basis rule
     end_of_month fixing_in_arrear (mkPeriod "0D") payment_offset
     payment_business_day_convention payment_holiday_convention).

Local Abbreviation units :=
  (row_units notional currency accrual_basis buseinss_day_convention
     holiday_convention ois_compounding ois_spread).

Lemma row_units_length fixed_rate floating float_index row :
  resolves float_index floating ->
  length (units fixed_rate floating row) = units_per_row float_index fixed_rate.
Proof.
  intros Hres. unfold row_units, units_per_row.
  destruct fixed_rate, float_index, floating as [[]|]; cbn in *;
    try reflexivity; contradiction.
Qed.

Lemma flat_map_constant_length {A B : Type} (f : A -> list B) (n : nat)
    (l : list A) :
  (forall a, length (f a) = n) -> length (flat_map f l) = (n * length l)%nat.
Proof.
  intros Hf. induction l as [|a l IH]; cbn; [lia|].
  rewrite length_app, Hf, IH. lia.
Qed.

(** X1. With [float_index] set and [fixed_rate] unset, and the index known
    to the registry, the constructor returns a stream of exactly N elements
    for N schedule rows: the k-th is the overnight-index cashflow of row k,
    running from the row's start date to its end date as an explicit date,
    paying on the row's payment date, on the stream's own notional, weight 1. *)
Theorem floating_only_stream (float_index : string) (on_index_ : OvernightIndex) :
  IndexRegistry_get float_index = Some on_index_ ->
  exists stream,
    InterestRateStream.__init__ effective_date termination_date accrual_period
      notional currency accrual_basis buseinss_day_convention
      holiday_convention (Some float_index) None is_on_index ois_compounding
      ois_spread fixing_in_arrear payment_offset
      payment_business_day_convention payment_holiday_convention rule
      end_of_month = OK stream
    /\ InterestRateStream.num_cashflows stream = Z.of_nat (length schedule)
    /\ ProductPortfolio.weights_ stream = replicate (length schedule) 1%Z
    /\ forall k row,
         schedule !! k = Some row ->
         exists float_prod,
           InterestRateStream.cashflow stream (Z.of_nat k)
           = OK (OvernightIndexCashflow float_prod, 1%Z)
           /\ ProductOvernightIndexCashflow.effective_date float_prod
              = StartDate row
           /\ ProductOvernightIndexCashflow.termination_date float_prod
              = EndDate row
           /\ ProductOvernightIndexCashflow.payment_date float_prod
              = PaymentDate row
           /\ ProductOvernightIndexCashflow.notional float_prod = notional
           /\ ProductOvernightIndexCashflow.spread float_prod = ois_spread
           /\ ProductOvernightIndexCashflow.on_index_ float_prod = on_index_.
Proof.
  intros Hget. eexists. split.
  { apply (stream_init_resolved _ _ _ _ _ _ _ _ _ _ _ _ _ _ _ _ _
             (Some float_index) None (Some (float_index, on_index_)));
      [left; eexists; reflexivity | split; [reflexivity | exact Hget]]. }
  unfold row_units. cbn [app].
  rewrite (singles_eq_map
             (fun row => OvernightIndexCashflow
                (float_unit notional ois_compounding ois_spread float_index
                   on_index_ row))).
  unfold InterestRateStream.num_cashflows, InterestRateStream.cashflow.
  cbn [ProductPortfolio.num_elements_ ProductPortfolio.weights_
       ProductPortfolio.__init__].
  rewrite length_map. split; [reflexivity|]. split; [reflexivity|].
  intros k row Hk. eexists. split.
  - rewrite <- (length_map
                  (fun row => OvernightIndexCashflow
                     (float_unit notional ois_compounding ois_spread
                        float_index on_index_ row)) schedule).
    apply element_lookup. rewrite list_lookup_fmap, Hk. reflexivity.
  - repeat split.
Qed.

(** X2. Over an empty schedule the constructor returns the empty stream as
    soon as one of the two inputs is set: the registry is not consulted, so
    an index name it does not know raises nothing. *)
Theorem empty_schedule_empty_stream (float_index : option string)
    (fixed_rate : option float) :
  schedule = [] ->
  is_Some float_index \/ is_Some fixed_rate ->
  exists stream,
    InterestRateStream.__init__ effective_date termination_date accrual_period
      notional currency accrual_basis buseinss_day_convention
      holiday_convention float_index fixed_rate is_on_index ois_compounding
      ois_spread fixing_in_arrear payment_offset
      payment_business_day_convention payment_holiday_convention rule
      end_of_month = OK stream
    /\ ProductPortfolio.products_ stream = []
    /\ ProductPortfolio.weights_ stream = []
    /\ InterestRateStream.num_cashflows stream = 0%Z.
Proof.
  intros Hnil Hsome. unfold InterestRateStream.__init__. rewrite Hnil.
  destruct float_index, fixed_rate; cbn;
    try (eexists; repeat split; reflexivity).
  destruct Hsome as [[? [=]]|[? [=]]].
Qed.

(** X3. Over a schedule with at least one row, an index name the registry
    does not know makes the constructor raise the lookup error for that name,
    with or without a fixed rate: no stream of the fixed units alone comes
    out. *)
Theorem unknown_index_no_stream (float_index : string) (fixed_rate : option float) :
  IndexRegistry_get float_index = None ->
  schedule <> [] ->
  InterestRateStream.__init__ effective_date termination_date accrual_period
    notional currency accrual_basis buseinss_day_convention holiday_convention
    (Some float_index) fixed_rate is_on_index ois_compounding ois_spread
    fixing_in_arrear payment_offset payment_business_day_convention
    payment_holiday_convention rule end_of_month
  = Raise (LookupError float_index).
Proof.
  intros Hget Hrows. unfold InterestRateStream.__init__.
  destruct schedule as [|row rows]; [contradiction|].
  rewrite (iterrows_unresolved _ _ _ _ _ _ _ _ _ _ _ _ _ Hget).
  destruct fixed_rate; reflexivity.
Qed.

(** X4. Every stream the constructor returns keeps the two lists in step:
    as many weights as products, every weight 1, [num_cashflows] that
    count, and the count is the number of schedule rows times the number of
    inputs set. *)
Theorem stream_lists_in_step (float_index : option string)
    (fixed_rate : option float) (stream : InterestRateStream.t) :
  InterestRateStream.__init__ effective_date termination_date accrual_period
    notional currency accrual_basis buseinss_day_convention holiday_convention
    float_index fixed_rate is_on_index ois_compounding ois_spread
    fixing_in_arrear payment_offset payment_business_day_convention
    payment_holiday_convention rule end_of_month = OK stream ->
  length (ProductPortfolio.weights_ stream)
  = length (ProductPortfolio.products_ stream)
  /\ Forall (fun weight => weight = 1%Z) (ProductPortfolio.weights_ stream)
  /\ InterestRateStream.num_cashflows stream
     = Z.of_nat (length (ProductPortfolio.products_ stream))
  /\ length (ProductPortfolio.products_ stream)
     = (units_per_row float_index fixed_rate * length schedule)%nat.
Proof.
  intros Hbuild.
  destruct (stream_init_inv _ _ _ _ _ _ _ _ _ _ _ _ _ _ _ _ _ _ _ _ Hbuild)
    as [[Hnil ->]|(floating & Hres & ->)].
  - rewrite Hnil. cbn. repeat split; [constructor | lia].
  - unfold InterestRateStream.num_cashflows, ProductPortfolio.__init__.
    cbn [ProductPortfolio.num_elements_ ProductPortfolio.products_
         ProductPortfolio.weights_].
    rewrite length_replicate. repeat split.
    + apply Forall_replicate. reflexivity.
    + apply flat_map_constant_length. intros row.
      apply row_units_length, Hres.
Qed.

(** X5. Every element of a returned stream is a fixed-accrued or an
    overnight-index cashflow built from one schedule row: it starts on the
    row's start date, ends on its end date and pays on its payment date, and
    never on a defaulted one. *)
Theorem stream_units_span_rows (float_index : option string)
    (fixed_rate : option float) (stream : InterestRateStream.t) :
  InterestRateStream.__init__ effective_date termination_date accrual_period
    notional currency accrual_basis buseinss_day_convention holiday_convention
    float_index fixed_rate is_on_index ois_compounding ois_spread
    fixing_in_arrear payment_offset payment_business_day_convention
    payment_holiday_convention rule end_of_month = OK stream ->
  forall p,
    In p (ProductPortfolio.products_ stream) ->
    (is_FixedAccrued p = true \/ is_OvernightIndexCashflow p = true)
    /\ exists row,
         In row schedule
         /\ Product_first_date p = Some (StartDate row)
         /\ Product_last_date p = Some (EndDate row)
         /\ Product_payment_date p = Some (PaymentDate row).
Proof.
  intros Hbuild p Hp.
  destruct (stream_init_inv _ _ _ _ _ _ _ _ _ _ _ _ _ _ _ _ _ _ _ _ Hbuild)
    as [[_ ->]|(floating & Hres & ->)]; [destruct Hp|].
  cbn [ProductPortfolio.products_ ProductPortfolio.__init__] in Hp.
  apply in_flat_map in Hp as (row & Hrow & Hp).
  unfold row_units in Hp. apply in_app_or in Hp as [Hp|Hp].
  - destruct fixed_rate as [rate|]; [|destruct Hp].
    destruct Hp as [<-|[]]. split; [left; reflexivity|].
    exists row. repeat split. exact Hrow.
  - destruct floating as [[name idx]|]; [|destruct Hp].
    destruct Hp as [<-|[]]. split; [right; reflexivity|].
    exists row. repeat split. exact Hrow.
Qed.

(** X6. The fixed units of a returned stream are in the currency the stream
    was given; the floating units are in the currency of the index the
    registry holds for [float_index], whatever currency the stream was
    given. *)
Theorem stream_unit_currencies (float_index : option string)
    (fixed_rate : option float) (stream : InterestRateStream.t) :
  InterestRateStream.__init__ effective_date termination_date accrual_period
    notional currency accrual_basis buseinss_day_convention holiday_convention
    float_index fixed_rate is_on_index ois_compounding ois_spread
    fixing_in_arrear payment_offset payment_business_day_convention
    payment_holiday_convention rule end_of_month = OK stream ->
  (forall x,
     In (FixedAccrued x) (ProductPortfolio.products_ stream) ->
     ProductFixedAccrued.currency_ x = currency)
  /\ (forall y,
        In (OvernightIndexCashflow y) (ProductPortfolio.products_ stream) ->
        exists name on_index_,
          float_index = Some name
          /\ IndexRegistry_get name = Some on_index_
          /\ ProductOvernightIndexCashflow.currency_ y
             = mkCurrency (currency_code on_index_)).
Proof.
  intros Hbuild.
  destruct (stream_init_inv _ _ _ _ _ _ _ _ _ _ _ _ _ _ _ _ _ _ _ _ Hbuild)
    as [[_ ->]|(floating & Hres & ->)]; [split; intros ? []|].
  cbn [ProductPortfolio.products_ ProductPortfolio.__init__]. split.
  - intros x Hx. apply in_flat_map in Hx as (row & _ & Hx).
    unfold row_units in Hx. apply in_app_or in Hx as [Hx|Hx].
    + destruct fixed_rate as [rate|]; [|destruct Hx].
      destruct Hx as [[= <-]|[]]. reflexivity.
    + destruct floating as [[name idx]|]; [|destruct Hx].
      destruct Hx as [[=]|[]].
  - intros y Hy. apply in_flat_map in Hy as (row & _ & Hy).
    unfold row_units in Hy. apply in_app_or in Hy as [Hy|Hy].
    + destruct fixed_rate as [rate|]; [|destruct Hy].
      destruct Hy as [[=]|[]].
    + destruct floating as [[name idx]|]; [|destruct Hy].
      destruct Hy as [[= <-]|[]].
      destruct float_index as [name'|]; [|contradiction].
      destruct Hres as [-> Hget]. exists name, idx. repeat split. exact Hget.
Qed.

End StreamFurther.

(** ** ProductRFRSwap: the swap and its two legs *)

Section SwapFurther.
Context `{Collaborators}.

Lemma opp_involutive (x : float) : (- - x)%float = x.
Proof.
  apply Prim2SF_inj. rewrite !opp_spec.
  destruct (Prim2SF x) as [s|s| |s m e]; cbn; rewrite ?negb_involutive;
    reflexivity.
Qed.

Variables
  (effective_date : Date) (term : TermOrTerminationDate.t Date)
  (payment_off_set : Period) (on_index : string)
  (fixed_rate : float) (accrual_period : Period) (accrual_basis : AccrualBasis)
  (floating_leg_accrual_period : option Period)
  (pay_business_day_convention : BusinessDayConvention)
  (pay_holiday_convention : HolidayConvention)
  (spread : float) (compounding_method : CompoundingMethod).

(** What a returned swap holds, field by field. *)
Lemma swap_init_inv pay_or_rec notional s :
  ProductRFRSwap.__init__ effective_date term payment_off_set on_index
    fixed_rate pay_or_rec notional accrual_period accrual_basis
    floating_leg_accrual_period pay_business_day_convention
    pay_holiday_convention spread compounding_method = OK s ->
  exists on_index_,
    IndexRegistry_get on_index = Some on_index_
    /\ ProductRFRSwapState.on_index_str_ s = on_index
    /\ ProductRFRSwapState.effective_date_ s = effective_date
    /\ ProductRFRSwapState.currency_ s = mkCurrency (currency_code on_index_)
    /\ ProductRFRSwapState.accrual_period_ s = accrual_period
    /\ ProductRFRSwapState.floating_leg_accrual_period_ s
       = match floating_leg_accrual_period with
         | None => accrual_period
         | Some period => period
         end
    /\ ProductRFRSwapState.fixed_rate_ s = fixed_rate
    /\ ProductRFRSwapState.spread_ s = spread
    /\ ProductRFRSwapState.compounding_method_ s = compounding_method
    /\ ProductRFRSwapState.notional_ s = notional
    /\ ProductRFRSwapState.long_or_short_ s
       = (if (0 <? notional)%float then LONG else SHORT)
    /\ fixed_leg_built_with s
         (notional * ProductRFRSwap.fixed_leg_sign pay_or_rec)%float
    /\ floating_leg_built_with s
         (notional * - ProductRFRSwap.fixed_leg_sign pay_or_rec)%float.
Proof.
  intros Hs. unfold ProductRFRSwap.__init__ in Hs.
  destruct (IndexRegistry_get on_index) as [idx|] eqn:Hget;
    cbn [from_option mbind exception_bind] in Hs; [|discriminate].
  exists idx. split; [reflexivity|].
  erewrite stream_init_resolved
    with (float_index := Some on_index) (floating := Some (on_index, idx))
    in Hs; [|left; eexists; reflexivity | split; [reflexivity | exact Hget]].
  cbn [mbind exception_bind] in Hs.
  erewrite stream_init_resolved
    with (float_index := None) (floating := None) in Hs;
    [|right; eexists; reflexivity | exact I].
  cbn [mbind exception_bind] in Hs. injection Hs as <-.
  unfold fixed_leg_built_with, floating_leg_built_with.
  cbn -[InterestRateStream.__init__].
  repeat split.
  - apply stream_init_resolved; [right; eexists; reflexivity | exact I].
  - apply stream_init_resolved;
      [left; eexists; reflexivity | split; [reflexivity | exact Hget]].
Qed.

(** X7. The swap constructor fails for one reason only: it returns a swap
    exactly when the registry knows the index, and raises the lookup error
    for the index name otherwise, whatever the other arguments. *)
Theorem swap_fails_on_unknown_index_only pay_or_rec notional :
  ((exists s,
      ProductRFRSwap.__init__ effective_date term payment_off_set on_index
        fixed_rate pay_or_rec notional accrual_period accrual_basis
        floating_leg_accrual_period pay_business_day_convention
        pay_holiday_convention spread compounding_method = OK s)
   <-> is_Some (IndexRegistry_get on_index))
  /\ (IndexRegistry_get on_index = None ->
      ProductRFRSwap.__init__ effective_date term payment_off_set on_index
        fixed_rate pay_or_rec notional accrual_period accrual_basis
        floating_leg_accrual_period pay_business_day_convention
        pay_holiday_convention spread compounding_method
      = Raise (LookupError on_index)).
Proof.
  split; [split|].
  - intros [s Hs]. destruct (swap_init_inv _ _ _ Hs) as (idx & Hget & _).
    rewrite Hget. eexists. reflexivity.
  - intros [idx Hget].
    destruct (swap_init_resolved effective_date payment_off_set on_index
                fixed_rate accrual_period accrual_basis
                floating_leg_accrual_period pay_business_day_convention
                pay_holiday_convention spread compounding_method term
                pay_or_rec notional idx Hget) as (s & Hs & _).
    exists s. exact Hs.
  - intros Hget. unfold ProductRFRSwap.__init__. rewrite Hget. reflexivity.
Qed.

End SwapFurther.

Section SwapLegs.
Context `{Collaborators}.

Variables
  (effective_date : Date) (term : TermOrTerminationDate.t Date)
  (payment_off_set : Period) (on_index : string)
  (fixed_rate : float) (accrual_period : Period) (accrual_basis : AccrualBasis)
  (pay_business_day_convention : BusinessDayConvention)
  (pay_holiday_convention : HolidayConvention)
  (spread : float) (compounding_method : CompoundingMethod).

Local Abbreviation ends on_index_ :=
  (match term with
   | TermOrTerminationDate.of_date d => d
   | TermOrTerminationDate.of_term tenor =>
       Calendar_advance (fixingCalendar on_index_) effective_date tenor
         (businessDayConvention on_index_)
   end).

Local Abbreviation rows on_index_ period :=
  (make_schedule effective_date (ends on_index_) period pay_holiday_convention
     pay_business_day_convention accrual_basis default_rule
     default_end_of_month default_fixing_in_arrear (mkPeriod "0D")
     payment_off_set pay_business_day_convention pay_holiday_convention).

Local Abbreviation fixed_units on_index_ n :=
  (map (fun row =>
          FixedAccrued
            (fixed_unit n (mkCurrency (currency_code on_index_)) accrual_basis
               pay_business_day_convention pay_holiday_convention fixed_rate
               row))
     (rows on_index_ accrual_period)).

Local Abbreviation floating_units on_index_ n period :=
  (map (fun row =>
          OvernightIndexCashflow
            (float_unit n compounding_method spread on_index on_index_ row))
     (rows on_index_ period)).

Local Abbreviation portfolio products :=
  (ProductPortfolio.__init__ products (replicate (length products) 1%Z)).

(** The legs of a returned swap, unit by unit. *)
Lemma swap_legs_inv floating_leg_accrual_period pay_or_rec notional s :
  ProductRFRSwap.__init__ effective_date term payment_off_set on_index
    fixed_rate pay_or_rec notional accrual_period accrual_basis
    floating_leg_accrual_period pay_business_day_convention
    pay_holiday_convention spread compounding_method = OK s ->
  exists on_index_,
    IndexRegistry_get on_index = Some on_index_
    /\ ProductRFRSwapState.on_index_ s = on_index_
    /\ ProductRFRSwapState.currency_ s = mkCurrency (currency_code on_index_)
    /\ ProductRFRSwapState.notional_ s = notional
    /\ ProductRFRSwapState.long_or_short_ s
       = (if (0 <? notional)%float then LONG else SHORT)
    /\ ProductRFRSwapState.fixed_leg_ s
       = portfolio
           (fixed_units on_index_
              (notional * ProductRFRSwap.fixed_leg_sign pay_or_rec)%float)
    /\ ProductRFRSwapState.floating_leg_ s
       = portfolio
           (floating_units on_index_
              (notional * - ProductRFRSwap.fixed_leg_sign pay_or_rec)%float
              match floating_leg_accrual_period with
              | None => accrual_period
              | Some period => period
              end).
Proof.
  intros Hs. unfold ProductRFRSwap.__init__ in Hs.
  destruct (IndexRegistry_get on_index) as [idx|] eqn:Hget;
    cbn [from_option mbind exception_bind] in Hs; [|discriminate].
  exists idx. split; [reflexivity|].
  erewrite stream_init_resolved
    with (float_index := Some on_index) (floating := Some (on_index, idx))
    in Hs; [|left; eexists; reflexivity | split; [reflexivity | exact Hget]].
  cbn [mbind exception_bind] in Hs.
  erewrite stream_init_resolved
    with (float_index := None) (floating := None) in Hs;
    [|right; eexists; reflexivity | exact I].
  cbn [mbind exception_bind] in Hs. injection Hs as <-.
  cbn [ProductRFRSwapState.on_index_ ProductRFRSwapState.currency_
       ProductRFRSwapState.notional_ ProductRFRSwapState.long_or_short_
       ProductRFRSwapState.fixed_leg_ ProductRFRSwapState.floating_leg_].
  unfold row_units. cbn [app].
  rewrite (singles_eq_map
             (fun row => OvernightIndexCashflow
                (float_unit
                   (notional * - ProductRFRSwap.fixed_leg_sign pay_or_rec)
                   compounding_method spread on_index idx row))).
  rewrite (singles_eq_map
             (fun row => FixedAccrued
                (fixed_unit
                   (notional * ProductRFRSwap.fixed_leg_sign pay_or_rec)
                   (mkCurrency (currency_code idx)) accrual_basis
                   pay_business_day_convention pay_holiday_convention
                   fixed_rate row))).
  repeat split.
Qed.

(** X8. A swap is in the currency of its index, and so is every cashflow of
    both of its legs. *)
Theorem swap_legs_in_swap_currency floating_leg_accrual_period pay_or_rec
    notional s :
  ProductRFRSwap.__init__ effective_date term payment_off_set on_index
    fixed_rate pay_or_rec notional accrual_period accrual_basis
    floating_leg_accrual_period pay_business_day_convention
    pay_holiday_convention spread compounding_method = OK s ->
  ProductRFRSwapState.currency_ s
  = mkCurrency (currency_code (ProductRFRSwapState.on_index_ s))
  /\ (forall p,
        In p (ProductPortfolio.products_ (ProductRFRSwapState.fixed_leg_ s))
        \/ In p (ProductPortfolio.products_ (ProductRFRSwapState.floating_leg_ s)) ->
        Product_currency p = Some (ProductRFRSwapState.currency_ s)).
Proof.
  intros Hs.
  destruct (swap_legs_inv _ _ _ _ Hs)
    as (idx & _ & Hidx & Hccy & _ & _ & Hfixed & Hfloating).
  rewrite Hccy, Hidx, Hfixed, Hfloating. split; [reflexivity|].
  cbn [ProductPortfolio.products_ ProductPortfolio.__init__].
  intros p [Hp|Hp]; apply in_map_iff in Hp as (row & <- & _); reflexivity.
Qed.

(** X9. Without a floating-leg accrual period the two legs of a swap run in
    step: they have the same number of cashflows, and the k-th fixed and
    the k-th floating cashflow start, end and pay on the same dates. *)
Theorem swap_legs_in_step pay_or_rec notional s :
  ProductRFRSwap.__init__ effective_date term payment_off_set on_index
    fixed_rate pay_or_rec notional accrual_period accrual_basis
    None pay_business_day_convention pay_holiday_convention spread
    compounding_method = OK s ->
  InterestRateStream.num_cashflows (ProductRFRSwapState.fixed_leg_ s)
  = InterestRateStream.num_cashflows (ProductRFRSwapState.floating_leg_ s)
  /\ forall k p q,
       ProductPortfolio.products_ (ProductRFRSwapState.fixed_leg_ s) !! k
       = Some p ->
       ProductPortfolio.products_ (ProductRFRSwapState.floating_leg_ s) !! k
       = Some q ->
       is_FixedAccrued p = true
       /\ is_OvernightIndexCashflow q = true
       /\ Product_first_date p = Product_first_date q
       /\ Product_last_date p = Product_last_date q
       /\ Product_payment_date p = Product_payment_date q.
Proof.
  intros Hs.
  destruct (swap_legs_inv _ _ _ _ Hs)
    as (idx & _ & _ & _ & _ & _ & Hfixed & Hfloating).
  rewrite Hfixed, Hfloating.
  unfold InterestRateStream.num_cashflows.
  cbn [ProductPortfolio.products_ ProductPortfolio.num_elements_
       ProductPortfolio.__init__].
  rewrite !length_map. split; [reflexivity|].
  intros k p q Hp Hq. rewrite list_lookup_fmap in Hp, Hq.
  destruct (rows idx accrual_period !! k) as [row|]; [|discriminate].
  cbn in Hp, Hq. injection Hp as <-. injection Hq as <-. repeat split.
Qed.

(** X10. The leg accessors of a returned swap answer within the leg and
    nowhere else: for an index in range [floating_leg_cash_flow] returns an
    overnight-index cashflow and [fixed_leg_cash_flow] a fixed-accrued one,
    each with weight 1; for any other index they fail. *)
Theorem swap_leg_accessors floating_leg_accrual_period pay_or_rec notional s
    (i : Z) :
  ProductRFRSwap.__init__ effective_date term payment_off_set on_index
    fixed_rate pay_or_rec notional accrual_period accrual_basis
    floating_leg_accrual_period pay_business_day_convention
    pay_holiday_convention spread compounding_method = OK s ->
  (if (0 <=? i)%Z
      && (i <? InterestRateStream.num_cashflows
                 (ProductRFRSwapState.floating_leg_ s))%Z
   then exists y,
          ProductRFRSwap.floating_leg_cash_flow s i
          = OK (OvernightIndexCashflow y, 1%Z)
   else ProductRFRSwap.floating_leg_cash_flow s i = Raise (BoundsError i))
  /\ (if (0 <=? i)%Z
         && (i <? InterestRateStream.num_cashflows
                    (ProductRFRSwapState.fixed_leg_ s))%Z
      then exists x,
             ProductRFRSwap.fixed_leg_cash_flow s i
             = OK (FixedAccrued x, 1%Z)
      else ProductRFRSwap.fixed_leg_cash_flow s i = Raise (BoundsError i)).
Proof.
  intros Hs.
  destruct (swap_legs_inv _ _ _ _ Hs)
    as (idx & _ & _ & _ & _ & _ & Hfixed & Hfloating).
  unfold ProductRFRSwap.floating_leg_cash_flow,
    ProductRFRSwap.fixed_leg_cash_flow.
  rewrite Hfixed, Hfloating. unfold InterestRateStream.num_cashflows.
  cbn [ProductPortfolio.num_elements_ ProductPortfolio.__init__].
  split.
  - destruct ((0 <=? i)%Z && (i <? _)%Z) eqn:Hin; [|reflexivity].
    apply andb_true_iff in Hin as [H0 H1].
    apply Z.leb_le in H0. apply Z.ltb_lt in H1.
    destruct (lookup_lt_is_Some_2
                (floating_units idx
                   (notional * - ProductRFRSwap.fixed_leg_sign pay_or_rec)%float
                   match floating_leg_accrual_period with
                   | None => accrual_period
                   | Some period => period
                   end)
                (Z.to_nat i)) as [q Hq]; [lia|].
    pose proof Hq as Hkind. rewrite list_lookup_fmap in Hkind.
    destruct (rows idx _ !! Z.to_nat i) as [row|]; [|discriminate].
    cbn in Hkind. injection Hkind as Hkind. eexists.
    rewrite <- (Z2Nat.id i) at 1 by lia.
    rewrite (element_lookup _ _ _ Hq), <- Hkind. reflexivity.
  - destruct ((0 <=? i)%Z && (i <? _)%Z) eqn:Hin; [|reflexivity].
    apply andb_true_iff in Hin as [H0 H1].
    apply Z.leb_le in H0. apply Z.ltb_lt in H1.
    destruct (lookup_lt_is_Some_2
                (fixed_units idx
                   (notional * ProductRFRSwap.fixed_leg_sign pay_or_rec)%float)
                (Z.to_nat i)) as [q Hq]; [lia|].
    pose proof Hq as Hkind. rewrite list_lookup_fmap in Hkind.
    destruct (rows idx _ !! Z.to_nat i) as [row|]; [|discriminate].
    cbn in Hkind. injection Hkind as Hkind. eexists.
    rewrite <- (Z2Nat.id i) at 1 by lia.
    rewrite (element_lookup _ _ _ Hq), <- Hkind. reflexivity.
Qed.

(** X11. A swap is LONG exactly when its notional is greater than zero, so
    its flag follows the rule of its cashflows, LONG when the notional is at
    least zero, exactly when the notional is not zero. *)
Theorem swap_flag_rule floating_leg_accrual_period pay_or_rec notional s :
  ProductRFRSwap.__init__ effective_date term payment_off_set on_index
    fixed_rate pay_or_rec notional accrual_period accrual_basis
    floating_leg_accrual_period pay_business_day_convention
    pay_holiday_convention spread compounding_method = OK s ->
  (ProductRFRSwapState.long_or_short_ s = LONG
   <-> (0 <? ProductRFRSwapState.notional_ s)%float = true)
  /\ ((ProductRFRSwapState.long_or_short_ s = LONG
       <-> (0 <=? ProductRFRSwapState.notional_ s)%float = true)
      <-> (ProductRFRSwapState.notional_ s =? 0)%float = false).
Proof.
  intros Hs.
  destruct (swap_legs_inv _ _ _ _ Hs) as (idx & _ & _ & _ & -> & -> & _).
  rewrite long_iff, Float64.leb_ltb_eqb, eqb_zero_sym.
  split; [reflexivity|].
  assert (Hexcl : (0 <? notional)%float = true ->
                  (0 =? notional)%float = true -> False).
  { rewrite ltb_spec, FloatAxioms.eqb_spec. unfold SFltb, SFeqb.
    destruct (SFcompare _ _) as [[]|]; discriminate. }
  destruct (0 <? notional)%float, (0 =? notional)%float; cbn;
    intuition congruence.
Qed.

(** X12. Receiving fixed on a notional is paying fixed on the negated
    notional, as far as the legs go: the two swaps have the same fixed leg
    and the same floating leg. *)
Theorem receive_is_pay_on_negated_notional floating_leg_accrual_period
    notional s_receive s_pay :
  ProductRFRSwap.__init__ effective_date term payment_off_set on_index
    fixed_rate RECEIVE notional accrual_period accrual_basis
    floating_leg_accrual_period pay_business_day_convention
    pay_holiday_convention spread compounding_method = OK s_receive ->
  ProductRFRSwap.__init__ effective_date term payment_off_set on_index
    fixed_rate PAY (- notional)%float accrual_period accrual_basis
    floating_leg_accrual_period pay_business_day_convention
    pay_holiday_convention spread compounding_method = OK s_pay ->
  ProductRFRSwapState.fixed_leg_ s_receive = ProductRFRSwapState.fixed_leg_ s_pay
  /\ ProductRFRSwapState.floating_leg_ s_receive
     = ProductRFRSwapState.floating_leg_ s_pay.
Proof.
  intros Hreceive Hpay.
  destruct (swap_legs_inv _ _ _ _ Hreceive)
    as (idx & Hget & _ & _ & _ & _ & -> & ->).
  destruct (swap_legs_inv _ _ _ _ Hpay)
    as (idx' & Hget' & _ & _ & _ & _ & -> & ->).
  rewrite Hget in Hget'. injection Hget' as <-.
  cbn [ProductRFRSwap.fixed_leg_sign PayOrReceive_eqb].
  change (- - 1)%float with 1%float.
  rewrite !Float64.mul_m1_r, !Float64.mul_1_r, opp_involutive.
  split; reflexivity.
Qed.

End SwapLegs.

(** ** Deserialization: what is read, and what is not *)

Section DeserializeFurther.
Context `{Collaborators}.

Lemma Date_of_value_raises key v e :
  Date_of_value key v = Raise e -> e = ParsingError key.
Proof.
  destruct v as [z|s|f]; cbn; try (intros [= <-]; reflexivity).
  destruct (Date_of_str s); cbn; [discriminate|]. intros [= <-]. reflexivity.
Qed.

Lemma TermOrTerminationDate_of_value_raises key v e :
  TermOrTerminationDate_of_value key v = Raise e -> e = ParsingError key.
Proof.
  destruct v as [z|s|f]; cbn; try (intros [= <-]; reflexivity).
  destruct (TermOrTerminationDate_of_str s); cbn; [discriminate|].
  intros [= <-]. reflexivity.
Qed.

Lemma str_of_value_raises key v e :
  str_of_value key v = Raise e -> e = ParsingError key.
Proof. destruct v; cbn; try discriminate; intros [= <-]; reflexivity. Qed.

Lemma float_of_value_raises key v e :
  float_of_value key v = Raise e -> exists what, e = ParsingError what.
Proof.
  destruct v as [z|s|f]; cbn.
  - unfold float_of_int. destruct (is_infinity _); [|discriminate].
    intros [= <-]. eauto.
  - destruct (float_of_str s); cbn; [discriminate|]. intros [= <-]. eauto.
  - discriminate.
Qed.

Lemma getitem_raises (d : dict) key e :
  getitem d key = Raise e -> e = ParsingError key /\ d !! key = None.
Proof.
  unfold getitem. destruct (d !! key); cbn; [discriminate|].
  intros [= <-]. split; reflexivity.
Qed.

Lemma getitem_ok (d : dict) key v : getitem d key = OK v -> d !! key = Some v.
Proof.
  unfold getitem. destruct (d !! key); cbn; [|discriminate].
  intros [= <-]. reflexivity.
Qed.

(** X13. [deserialize] reads seven keys and nothing else: two dictionaries
    that agree on them deserialize alike. In particular the VERSION and the
    TYPE of a dictionary are not looked at. *)
Theorem deserialize_reads_seven_keys (d d' : dict) :
  (forall key, In key deserialized_keys -> d !! key = d' !! key) ->
  ProductOvernightIndexCashflow.deserialize d
  = ProductOvernightIndexCashflow.deserialize d'.
Proof.
  intros Hagree. unfold ProductOvernightIndexCashflow.deserialize, getitem.
  rewrite !Hagree by (cbn; tauto). reflexivity.
Qed.

(** X14. A dictionary that lacks one of the seven keys does not
    deserialize: the call raises a parsing error and returns no cashflow. *)
Theorem deserialize_needs_every_key (d : dict) (key : string) :
  In key deserialized_keys ->
  d !! key = None ->
  exists what,
    ProductOvernightIndexCashflow.deserialize d = Raise (ParsingError what).
Proof.
  intros Hkey Hmissing.
  unfold ProductOvernightIndexCashflow.deserialize.
  repeat
    match goal with
    | |- exists what, Raise ?e = Raise _ => eexists; reflexivity
    | |- context [mbind _ (getitem d ?k)] =>
        let Hk := fresh "Hk" in
        destruct (getitem d k) as [?v|?e] eqn:Hk;
        cbn [mbind exception_bind];
        [apply getitem_ok in Hk | apply getitem_raises in Hk as [-> _]]
    | |- context [mbind _ (Date_of_value ?k ?v)] =>
        let Hk := fresh "Hk" in
        destruct (Date_of_value k v) as [?a|?e] eqn:Hk;
        cbn [mbind exception_bind];
        [|apply Date_of_value_raises in Hk as ->]
    | |- context [mbind _ (TermOrTerminationDate_of_value ?k ?v)] =>
        let Hk := fresh "Hk" in
        destruct (TermOrTerminationDate_of_value k v) as [?a|?e] eqn:Hk;
        cbn [mbind exception_bind];
        [|apply TermOrTerminationDate_of_value_raises in Hk as ->]
    | |- context [mbind _ (str_of_value ?k ?v)] =>
        let Hk := fresh "Hk" in
        destruct (str_of_value k v) as [?a|?e] eqn:Hk;
        cbn [mbind exception_bind];
        [|apply str_of_value_raises in Hk as ->]
    | |- context [mbind _ (float_of_value ?k ?v)] =>
        let Hk := fresh "Hk" in
        destruct (float_of_value k v) as [?a|?e] eqn:Hk;
        cbn [mbind exception_bind];
        [|apply float_of_value_raises in Hk as [? ->]]
    | |- context [mbind _ (from_option ?e ?o)] =>
        destruct o; cbn [from_option mbind exception_bind]
    end.
  exfalso. cbn in Hkey.
  destruct Hkey as [<-|[<-|[<-|[<-|[<-|[<-|[<-|[]]]]]]]]; congruence.
Qed.

(** X15. When the collaborators read the printed dates and method name back
    as the very dates and method, deserializing what a constructed cashflow
    serializes to returns that cashflow itself, every field of it. *)
Theorem deserialize_inverts_serialize (x : ProductOvernightIndexCashflow.t) :
  constructed x ->
  reads_back_exactly x ->
  ProductOvernightIndexCashflow.deserialize
    (ProductOvernightIndexCashflow.serialize x) = OK x.
Proof.
  intros (eff & term & name & method & spread & notional & pay & Hx)
         (Heff & Hterm & Hpay & Hmethod).
  unfold ProductOvernightIndexCashflow.__init__ in Hx.
  destruct (IndexRegistry_get name) as [idx|] eqn:Hget;
    cbn [from_option mbind exception_bind] in Hx; [|discriminate].
  injection Hx as <-.
  unfold ProductOvernightIndexCashflow.deserialize, getitem.
  rewrite serialized_effective_date, serialized_termination_date,
    serialized_payment_date, serialized_on_index, serialized_spread,
    serialized_compounding_method, serialized_notional.
  cbn [from_option mbind exception_bind Date_of_value
       TermOrTerminationDate_of_value str_of_value float_of_value].
  rewrite Heff, Hterm, Hpay, Hmethod.
  cbn [from_option mbind exception_bind].
  unfold ProductOvernightIndexCashflow.__init__.
  cbn [ProductOvernightIndexCashflow.on_index_str_]. rewrite Hget.
  reflexivity.
Qed.

Lemma Date_of_value_ok key v a :
  Date_of_value key v = OK a -> exists s, v = Str s /\ Date_of_str s = Some a.
Proof.
  destruct v as [z|s|f]; cbn; try discriminate.
  destruct (Date_of_str s) eqn:Hs; cbn; [|discriminate].
  intros [= <-]. exists s. split; [reflexivity | exact Hs].
Qed.

Lemma TermOrTerminationDate_of_value_ok key v a :
  TermOrTerminationDate_of_value key v = OK a ->
  exists s, v = Str s /\ TermOrTerminationDate_of_str s = Some a.
Proof.
  destruct v as [z|s|f]; cbn; try discriminate.
  destruct (TermOrTerminationDate_of_str s) eqn:Hs; cbn; [|discriminate].
  intros [= <-]. exists s. split; [reflexivity | exact Hs].
Qed.

(** X16. A cashflow that comes out of [deserialize] starts on the date
    written under EFFECTIVE_DATE and pays on the date written under
    PAYMENT_DATE, never on a defaulted one; what is written under
    TERMINATION_DATE is its end when it reads as a date, and when it reads as
    a tenor the end is the effective date advanced by it on the index's
    fixing calendar. *)
Theorem deserialized_dates (d : dict) (x : ProductOvernightIndexCashflow.t) :
  ProductOvernightIndexCashflow.deserialize d = OK x ->
  exists effective termination payment term,
    d !! "EFFECTIVE_DATE" = Some (Str effective)
    /\ Date_of_str effective
       = Some (ProductOvernightIndexCashflow.effective_date x)
    /\ d !! "TERMINATION_DATE" = Some (Str termination)
    /\ TermOrTerminationDate_of_str termination = Some term
    /\ ProductOvernightIndexCashflow.termination_date x
       = match term with
         | TermOrTerminationDate.of_date date => date
         | TermOrTerminationDate.of_term tenor =>
             Calendar_advance
               (fixingCalendar (ProductOvernightIndexCashflow.on_index_ x))
               (ProductOvernightIndexCashflow.effective_date x) tenor
               (businessDayConvention
                  (ProductOvernightIndexCashflow.on_index_ x))
         end
    /\ d !! "PAYMENT_DATE" = Some (Str payment)
    /\ Date_of_str payment
       = Some (ProductOvernightIndexCashflow.payment_date x).
Proof.
  unfold ProductOvernightIndexCashflow.deserialize. intros Hx.
  repeat
    match type of Hx with
    | context [mbind _ (getitem d ?k)] =>
        let Hk := fresh "Hk" in
        destruct (getitem d k) as [?v|?e] eqn:Hk;
        cbn [mbind exception_bind] in Hx; [|discriminate Hx];
        apply getitem_ok in Hk
    | context [mbind _ (Date_of_value ?k ?v)] =>
        let Hk := fresh "Hk" in
        destruct (Date_of_value k v) as [?a|?e] eqn:Hk;
        cbn [mbind exception_bind] in Hx; [|discriminate Hx];
        apply Date_of_value_ok in Hk as (? & -> & Hk)
    | context [mbind _ (TermOrTerminationDate_of_value ?k ?v)] =>
        let Hk := fresh "Hk" in
        destruct (TermOrTerminationDate_of_value k v) as [?a|?e] eqn:Hk;
        cbn [mbind exception_bind] in Hx; [|discriminate Hx];
        apply TermOrTerminationDate_of_value_ok in Hk as (? & -> & Hk)
    | context [mbind _ (str_of_value ?k ?v)] =>
        destruct (str_of_value k v) as [?a|?e];
        cbn [mbind exception_bind] in Hx; [|discriminate Hx]
    | context [mbind _ (float_of_value ?k ?v)] =>
        destruct (float_of_value k v) as [?a|?e];
        cbn [mbind exception_bind] in Hx; [|discriminate Hx]
    | context [mbind _ (from_option ?e ?o)] =>
        destruct o; cbn [from_option mbind exception_bind] in Hx;
        [|discriminate Hx]
    end.
  match type of Hx with
  | match ?v with _ => _ end = _ =>
      destruct v as [z|name|f]; try discriminate Hx
  end.
  unfold ProductOvernightIndexCashflow.__init__ in Hx.
  match type of Hx with
  | context [IndexRegistry_get ?name] =>
      destruct (IndexRegistry_get name) as [idx|];
      cbn [from_option mbind exception_bind] in Hx; [|discriminate Hx]
  end.
  injection Hx as <-. do 4 eexists. repeat split; eassumption.
Qed.

End DeserializeFurther.

(** ** The further properties on the sample collaborators *)

Section FurtherOnTheSample.

#[local] Existing Instance Sample.collaborators.

Local Abbreviation sofr := (Sample.mkindex "SOFR-1B" "USD").

Local Abbreviation quarters :=
  (Sample.schedule Sample.jan1 Sample.jul1 (mkPeriod "3M")).

Ltac evaluated H t :=
  let v := eval vm_compute in t in
  assert (H : t = v) by reflexivity.

(** The sample stream with its dates and currency left open. *)
Local Abbreviation stream_over start stop currency float_index fixed_rate :=
  (@InterestRateStream.__init__ Sample.collaborators start stop (mkPeriod "3M")
     1000000%float currency Sample.act360 default_business_day_convention
     default_holiday_convention float_index fixed_rate true Sample.Compound
     default_ois_spread default_fixing_in_arrear default_payment_offset
     default_business_day_convention default_holiday_convention default_rule
     default_end_of_month).

(** X1 on the sample: two overnight-index cashflows on SOFR, the second from
    2024-04-01 to 2024-07-01. *)
Lemma floating_only_stream_sample :
  Sample.registry "SOFR-1B" = Some sofr
  /\ exists stream float_prod,
       Sample.stream (Some "SOFR-1B") None = OK stream
       /\ InterestRateStream.num_cashflows stream = 2%Z
       /\ InterestRateStream.cashflow stream 1
          = OK (OvernightIndexCashflow float_prod, 1%Z)
       /\ ProductOvernightIndexCashflow.effective_date float_prod = Sample.apr1
       /\ ProductOvernightIndexCashflow.termination_date float_prod
          = Sample.jul1
       /\ ProductOvernightIndexCashflow.notional float_prod = 1000000%float.
Proof.
  destruct (@floating_only_stream Sample.collaborators Sample.jan1 Sample.jul1
              (mkPeriod "3M") 1000000%float Sample.usd Sample.act360
              default_business_day_convention default_holiday_convention true
              Sample.Compound default_ois_spread default_fixing_in_arrear
              default_payment_offset default_business_day_convention
              default_holiday_convention default_rule default_end_of_month
              "SOFR-1B" sofr eq_refl)
    as (stream & Hs & Hn & _ & Hrows).
  destruct (Hrows 1%nat (mkScheduleRow Sample.apr1 Sample.jul1 Sample.jul1)
              eq_refl)
    as (float_prod & Hk & Heff & Hterm & _ & Hnotional & _).
  split; [reflexivity|]. exists stream, float_prod.
  split; [exact Hs|]. split; [exact Hn|]. split; [exact Hk|].
  split; [exact Heff|]. split; [exact Hterm | exact Hnotional].
Defined.

(** X2 on the sample: from 2024-01-01 to 2024-01-01 there is no row, and an
    index the registry does not know goes unnoticed. *)
Lemma empty_schedule_empty_stream_sample :
  Sample.schedule Sample.jan1 Sample.jan1 (mkPeriod "3M") = []
  /\ Sample.registry "LIBOR-3M" = None
  /\ exists stream,
       stream_over Sample.jan1 Sample.jan1 Sample.usd (Some "LIBOR-3M") None
       = OK stream
       /\ InterestRateStream.num_cashflows stream = 0%Z.
Proof.
  destruct (@empty_schedule_empty_stream Sample.collaborators Sample.jan1
              Sample.jan1 (mkPeriod "3M") 1000000%float Sample.usd
              Sample.act360 default_business_day_convention
              default_holiday_convention true Sample.Compound
              default_ois_spread default_fixing_in_arrear
              default_payment_offset default_business_day_convention
              default_holiday_convention default_rule default_end_of_month
              (Some "LIBOR-3M") None eq_refl
              (or_introl (mk_is_Some _ _ eq_refl)))
    as (stream & Hs & _ & _ & Hn).
  split; [reflexivity|]. split; [reflexivity|]. exists stream.
  split; [exact Hs | exact Hn].
Defined.

(** X3 on the sample: the same index over two quarters. *)
Lemma unknown_index_no_stream_sample :
  Sample.registry "LIBOR-3M" = None
  /\ quarters <> []
  /\ Sample.stream (Some "LIBOR-3M") (Some Sample.rate)
     = Raise (LookupError "LIBOR-3M").
Proof.
  assert (Hrows : quarters <> []).
  { evaluated Hq (Sample.schedule Sample.jan1 Sample.jul1 (mkPeriod "3M")).
    rewrite Hq. discriminate. }
  split; [reflexivity|]. split; [exact Hrows|].
  exact (@unknown_index_no_stream Sample.collaborators Sample.jan1 Sample.jul1
           (mkPeriod "3M") 1000000%float Sample.usd Sample.act360
           default_business_day_convention default_holiday_convention true
           Sample.Compound default_ois_spread default_fixing_in_arrear
           default_payment_offset default_business_day_convention
           default_holiday_convention default_rule default_end_of_month
           "LIBOR-3M" (Some Sample.rate) eq_refl Hrows).
Defined.

(** X4 on the sample: four products, four weights. *)
Lemma stream_lists_in_step_sample :
  exists stream,
    Sample.stream (Some "SOFR-1B") (Some Sample.rate) = OK stream
    /\ length (ProductPortfolio.weights_ stream) = 4%nat
    /\ length (ProductPortfolio.products_ stream) = 4%nat.
Proof.
  evaluated Hs (Sample.stream (Some "SOFR-1B") (Some Sample.rate)).
  match type of Hs with _ = OK ?stream => exists stream end.
  destruct (@stream_lists_in_step Sample.collaborators Sample.jan1 Sample.jul1
              (mkPeriod "3M") 1000000%float Sample.usd Sample.act360
              default_business_day_convention default_holiday_convention true
              Sample.Compound default_ois_spread default_fixing_in_arrear
              default_payment_offset default_business_day_convention
              default_holiday_convention default_rule default_end_of_month
              (Some "SOFR-1B") (Some Sample.rate) _ Hs)
    as (Hlen & _ & _ & Hcount).
  split; [exact Hs|]. split; [rewrite Hlen|]; exact Hcount.
Defined.

(** X5 on the sample: every element of the paired stream has a row. *)
Lemma stream_units_span_rows_sample :
  exists stream,
    Sample.stream (Some "SOFR-1B") (Some Sample.rate) = OK stream
    /\ forall p,
         In p (ProductPortfolio.products_ stream) ->
         exists row,
           In row quarters /\ Product_first_date p = Some (StartDate row).
Proof.
  evaluated Hs (Sample.stream (Some "SOFR-1B") (Some Sample.rate)).
  match type of Hs with _ = OK ?stream => exists stream end.
  split; [exact Hs|]. intros p Hp.
  destruct (@stream_units_span_rows Sample.collaborators Sample.jan1
              Sample.jul1 (mkPeriod "3M") 1000000%float Sample.usd
              Sample.act360 default_business_day_convention
              default_holiday_convention true Sample.Compound
              default_ois_spread default_fixing_in_arrear
              default_payment_offset default_business_day_convention
              default_holiday_convention default_rule default_end_of_month
              (Some "SOFR-1B") (Some Sample.rate) _ Hs p Hp)
    as (_ & row & Hrow & Hfirst & _).
  exists row. split; [exact Hrow | exact Hfirst].
Defined.

(** X6 on the sample: a stream given EUR on the USD index SOFR has its fixed
    units in EUR and its floating units in USD. *)
Lemma stream_unit_currencies_sample :
  exists stream,
    stream_over Sample.jan1 Sample.jul1 (mkCurrency "EUR") (Some "SOFR-1B")
      (Some Sample.rate) = OK stream
    /\ (forall x,
          In (FixedAccrued x) (ProductPortfolio.products_ stream) ->
          ProductFixedAccrued.currency_ x = mkCurrency "EUR")
    /\ (forall y,
          In (OvernightIndexCashflow y) (ProductPortfolio.products_ stream) ->
          ProductOvernightIndexCashflow.currency_ y = mkCurrency "USD").
Proof.
  evaluated Hs (stream_over Sample.jan1 Sample.jul1 (mkCurrency "EUR")
                  (Some "SOFR-1B") (Some Sample.rate)).
  match type of Hs with _ = OK ?stream => exists stream end.
  destruct (@stream_unit_currencies Sample.collaborators Sample.jan1
              Sample.jul1 (mkPeriod "3M") 1000000%float (mkCurrency "EUR")
              Sample.act360 default_business_day_convention
              default_holiday_convention true Sample.Compound
              default_ois_spread default_fixing_in_arrear
              default_payment_offset default_business_day_convention
              default_holiday_convention default_rule default_end_of_month
              (Some "SOFR-1B") (Some Sample.rate) _ Hs)
    as [Hfixed Hfloating].
  split; [exact Hs|]. split; [exact Hfixed|].
  intros y Hy. destruct (Hfloating y Hy) as (name & idx & Hname & Hget & ->).
  injection Hname as <-.
  change (Sample.registry "SOFR-1B" = Some idx) in Hget.
  injection Hget as <-. reflexivity.
Defined.

(** The sample swap on another index name. *)
Local Abbreviation swap_on name :=
  (@ProductRFRSwap.__init__ Sample.collaborators Sample.jan1
     (TermOrTerminationDate.of_term (mkPeriod "2Y")) (mkPeriod "2D") name
     Sample.rate PAY 1000000%float (mkPeriod "3M") Sample.act360 None
     default_business_day_convention default_holiday_convention 0%float
     Sample.Compound).

(** X7 on the sample: no swap on an index the registry does not know. *)
Lemma swap_fails_on_unknown_index_only_sample :
  Sample.registry "LIBOR-3M" = None
  /\ swap_on "LIBOR-3M" = Raise (LookupError "LIBOR-3M").
Proof.
  split; [reflexivity|].
  exact (proj2 (@swap_fails_on_unknown_index_only Sample.collaborators
                  Sample.jan1 (TermOrTerminationDate.of_term (mkPeriod "2Y"))
                  (mkPeriod "2D") "LIBOR-3M" Sample.rate (mkPeriod "3M")
                  Sample.act360 None default_business_day_convention
                  default_holiday_convention 0%float Sample.Compound PAY
                  1000000%float) eq_refl).
Defined.

(** X8 on the sample: the swap on SOFR and all its cashflows are in USD. *)
Lemma swap_legs_in_swap_currency_sample :
  exists s,
    Sample.swap PAY 1000000%float = OK s
    /\ ProductRFRSwapState.currency_ s = mkCurrency "USD"
    /\ forall p,
         In p (ProductPortfolio.products_ (ProductRFRSwapState.fixed_leg_ s))
         \/ In p (ProductPortfolio.products_ (ProductRFRSwapState.floating_leg_ s)) ->
         Product_currency p = Some (mkCurrency "USD").
Proof.
  evaluated Hs (Sample.swap PAY 1000000%float).
  match type of Hs with _ = OK ?s => exists s end.
  destruct (@swap_legs_in_swap_currency Sample.collaborators Sample.jan1
              (TermOrTerminationDate.of_term (mkPeriod "2Y")) (mkPeriod "2D")
              "SOFR-1B" Sample.rate (mkPeriod "3M") Sample.act360
              default_business_day_convention default_holiday_convention
              0%float Sample.Compound None PAY 1000000%float _ Hs)
    as [Hccy Hlegs].
  split; [exact Hs|]. split; [exact Hccy | exact Hlegs].
Defined.

(** X9 on the sample: eight quarters on each leg. *)
Lemma swap_legs_in_step_sample :
  exists s,
    Sample.swap PAY 1000000%float = OK s
    /\ InterestRateStream.num_cashflows (ProductRFRSwapState.fixed_leg_ s) = 8%Z
    /\ InterestRateStream.num_cashflows (ProductRFRSwapState.floating_leg_ s)
       = 8%Z.
Proof.
  evaluated Hs (Sample.swap PAY 1000000%float).
  match type of Hs with _ = OK ?s => exists s end.
  destruct (@swap_legs_in_step Sample.collaborators Sample.jan1
              (TermOrTerminationDate.of_term (mkPeriod "2Y")) (mkPeriod "2D")
              "SOFR-1B" Sample.rate (mkPeriod "3M") Sample.act360
              default_business_day_convention default_holiday_convention
              0%float Sample.Compound PAY 1000000%float _ Hs)
    as [Hsame _].
  split; [exact Hs|]. split; [reflexivity|]. rewrite <- Hsame. reflexivity.
Defined.

(** X10 on the sample: cashflow 7 is the last of each leg, cashflow 8 is out
    of range. *)
Lemma swap_leg_accessors_sample :
  exists s,
    Sample.swap PAY 1000000%float = OK s
    /\ (exists y,
          ProductRFRSwap.floating_leg_cash_flow s 7
          = OK (OvernightIndexCashflow y, 1%Z))
    /\ ProductRFRSwap.fixed_leg_cash_flow s 8 = Raise (BoundsError 8).
Proof.
  evaluated Hs (Sample.swap PAY 1000000%float).
  match type of Hs with _ = OK ?s => exists s end.
  split; [exact Hs|]. split.
  - exact (proj1 (@swap_leg_accessors Sample.collaborators Sample.jan1
                    (TermOrTerminationDate.of_term (mkPeriod "2Y"))
                    (mkPeriod "2D") "SOFR-1B" Sample.rate (mkPeriod "3M")
                    Sample.act360 default_business_day_convention
                    default_holiday_convention 0%float Sample.Compound None
                    PAY 1000000%float _ 7%Z Hs)).
  - exact (proj2 (@swap_leg_accessors Sample.collaborators Sample.jan1
                    (TermOrTerminationDate.of_term (mkPeriod "2Y"))
                    (mkPeriod "2D") "SOFR-1B" Sample.rate (mkPeriod "3M")
                    Sample.act360 default_business_day_convention
                    default_holiday_convention 0%float Sample.Compound None
                    PAY 1000000%float _ 8%Z Hs)).
Defined.

(** X11 on the sample: the swap on a notional of zero is SHORT, against the
    rule of its cashflows. *)
Lemma swap_flag_rule_sample :
  exists s,
    Sample.swap PAY 0%float = OK s
    /\ (ProductRFRSwapState.notional_ s =? 0)%float = true
    /\ ProductRFRSwapState.long_or_short_ s = SHORT
    /\ (0 <=? ProductRFRSwapState.notional_ s)%float = true.
Proof.
  evaluated Hs (Sample.swap PAY 0%float).
  match type of Hs with _ = OK ?s => exists s end.
  destruct (@swap_flag_rule Sample.collaborators Sample.jan1
              (TermOrTerminationDate.of_term (mkPeriod "2Y")) (mkPeriod "2D")
              "SOFR-1B" Sample.rate (mkPeriod "3M") Sample.act360
              default_business_day_convention default_holiday_convention
              0%float Sample.Compound None PAY 0%float _ Hs)
    as [_ Hrule].
  split; [exact Hs|]. split; [reflexivity|]. split; reflexivity.
Defined.

(** X12 on the sample: receiving on 1,000,000 and paying on -1,000,000. *)
Lemma receive_is_pay_on_negated_notional_sample :
  exists s_receive s_pay,
    Sample.swap RECEIVE 1000000%float = OK s_receive
    /\ Sample.swap PAY (- 1000000)%float = OK s_pay
    /\ ProductRFRSwapState.fixed_leg_ s_receive
       = ProductRFRSwapState.fixed_leg_ s_pay
    /\ ProductRFRSwapState.floating_leg_ s_receive
       = ProductRFRSwapState.floating_leg_ s_pay.
Proof.
  evaluated Hreceive (Sample.swap RECEIVE 1000000%float).
  evaluated Hpay (Sample.swap PAY (- 1000000)%float).
  match type of Hreceive with _ = OK ?s => exists s end.
  match type of Hpay with _ = OK ?s => exists s end.
  destruct (@receive_is_pay_on_negated_notional Sample.collaborators
              Sample.jan1 (TermOrTerminationDate.of_term (mkPeriod "2Y"))
              (mkPeriod "2D") "SOFR-1B" Sample.rate (mkPeriod "3M")
              Sample.act360 default_business_day_convention
              default_holiday_convention 0%float Sample.Compound None
              1000000%float _ _ Hreceive Hpay)
    as [Hfixed Hfloating].
  split; [exact Hreceive|]. split; [exact Hpay|].
  split; [exact Hfixed | exact Hfloating].
Defined.

(** X13 on the sample: the serialized cashflow under the type tag of another
    class deserializes as before. *)
Lemma deserialize_reads_seven_keys_sample :
  exists x,
    Sample.cashflow = OK x
    /\ (forall key,
          In key deserialized_keys ->
          <["TYPE" := Str "PRODUCT_BULLET_CASHFLOW"]>
            (ProductOvernightIndexCashflow.serialize x) !! key
          = ProductOvernightIndexCashflow.serialize x !! key)
    /\ ProductOvernightIndexCashflow.deserialize
         (<["TYPE" := Str "PRODUCT_BULLET_CASHFLOW"]>
            (ProductOvernightIndexCashflow.serialize x))
       = ProductOvernightIndexCashflow.deserialize
           (ProductOvernightIndexCashflow.serialize x).
Proof.
  evaluated Hx Sample.cashflow.
  match type of Hx with _ = OK ?x => exists x; set (y := x) in * end.
  assert (Hagree : forall key,
             In key deserialized_keys ->
             <["TYPE" := Str "PRODUCT_BULLET_CASHFLOW"]>
               (ProductOvernightIndexCashflow.serialize y) !! key
             = ProductOvernightIndexCashflow.serialize y !! key).
  { intros key Hkey. apply lookup_insert_ne. intros <-.
    cbn in Hkey. intuition discriminate. }
  split; [exact Hx|]. split; [exact Hagree|].
  exact (@deserialize_reads_seven_keys Sample.collaborators _ _ Hagree).
Defined.

(** X14 on the sample: the serialized cashflow without its NOTIONAL. *)
Lemma deserialize_needs_every_key_sample :
  exists x,
    Sample.cashflow = OK x
    /\ delete "NOTIONAL" (ProductOvernightIndexCashflow.serialize x)
         !! "NOTIONAL" = None
    /\ exists what,
         ProductOvernightIndexCashflow.deserialize
           (delete "NOTIONAL" (ProductOvernightIndexCashflow.serialize x))
         = Raise (ParsingError what).
Proof.
  evaluated Hx Sample.cashflow.
  match type of Hx with _ = OK ?x => exists x; set (y := x) in * end.
  assert (Hmissing :
            delete "NOTIONAL" (ProductOvernightIndexCashflow.serialize y)
              !! "NOTIONAL" = None)
    by apply lookup_delete_eq.
  split; [exact Hx|]. split; [exact Hmissing|].
  apply (@deserialize_needs_every_key Sample.collaborators _ "NOTIONAL");
    [cbn; tauto | exact Hmissing].
Defined.

(** X15 on the sample: the quarterly SOFR cashflow comes back as it was. *)
Lemma deserialize_inverts_serialize_sample :
  exists x,
    Sample.cashflow = OK x
    /\ constructed x
    /\ reads_back_exactly x
    /\ ProductOvernightIndexCashflow.deserialize
         (ProductOvernightIndexCashflow.serialize x) = OK x.
Proof.
  evaluated Hx Sample.cashflow.
  match type of Hx with _ = OK ?x => exists x; set (y := x) in * end.
  assert (Hconstructed : constructed y).
  { exists Sample.jan1, (TermOrTerminationDate.of_term (mkPeriod "3M")),
      "SOFR-1B", Sample.Compound, 0%float, 1000000%float, None.
    exact Hx. }
  assert (Hreads : reads_back_exactly y).
  { evaluated H1 (Date_of_str (ISO (ProductOvernightIndexCashflow.effective_date y))).
    evaluated H2 (TermOrTerminationDate_of_str
                    (ISO (ProductOvernightIndexCashflow.termination_date y))).
    evaluated H3 (Date_of_str (ISO (ProductOvernightIndexCashflow.payment_date y))).
    evaluated H4 (CompoundingMethod_from_string
                    (upper (CompoundingMethod_to_string
                              (ProductOvernightIndexCashflow.compounding_method y)))).
    split; [exact H1|]. split; [exact H2|]. split; [exact H3 | exact H4]. }
  split; [exact Hx|]. split; [exact Hconstructed|]. split; [exact Hreads|].
  exact (@deserialize_inverts_serialize Sample.collaborators y Hconstructed
           Hreads).
Defined.

(** X16 on the sample: the deserialized cashflow starts on 2024-01-01 and
    pays on 2024-04-01, as written. *)
Lemma deserialized_dates_sample :
  exists x,
    Sample.cashflow = OK x
    /\ ProductOvernightIndexCashflow.deserialize
         (ProductOvernightIndexCashflow.serialize x) = OK x
    /\ ProductOvernightIndexCashflow.serialize x !! "PAYMENT_DATE"
       = Some (Str "2024-04-01")
    /\ Date_of_str "2024-04-01"
       = Some (ProductOvernightIndexCashflow.payment_date x).
Proof.
  evaluated Hx Sample.cashflow.
  match type of Hx with _ = OK ?x => exists x; set (y := x) in * end.
  assert (Hde : ProductOvernightIndexCashflow.deserialize
                  (ProductOvernightIndexCashflow.serialize y) = OK y).
  { unfold ProductOvernightIndexCashflow.deserialize, getitem.
    rewrite serialized_effective_date, serialized_termination_date,
      serialized_payment_date, serialized_on_index, serialized_spread,
      serialized_compounding_method, serialized_notional.
    reflexivity. }
  destruct (@deserialized_dates Sample.collaborators _ y Hde)
    as (effective & termination & payment & term & _ & _ & _ & _ & _
        & Hpay & Hdate).
  rewrite serialized_payment_date in Hpay. injection Hpay as <-.
  split; [exact Hx|]. split; [exact Hde|].
  split; [rewrite serialized_payment_date; reflexivity | exact Hdate].
Defined.

(** An ON_INDEX that is not text is met by the registry lookup of the
    constructor, after every other key was read: without the NOTIONAL the
    parsing error comes first. *)
Example index_that_is_no_text :
  exists x,
    Sample.cashflow = OK x
    /\ ProductOvernightIndexCashflow.deserialize
         (<["ON_INDEX" := Int 5]> (ProductOvernightIndexCashflow.serialize x))
       = Raise (LookupErrorOfValue (Int 5))
    /\ ProductOvernightIndexCashflow.deserialize
         (delete "NOTIONAL"
            (<["ON_INDEX" := Int 5]> (ProductOvernightIndexCashflow.serialize x)))
       = Raise (ParsingError "NOTIONAL").
Proof.
  evaluated Hx Sample.cashflow.
  match type of Hx with _ = OK ?x => exists x; set (y := x) in * end.
  split; [exact Hx|].
  evaluated Hall
    (ProductOvernightIndexCashflow.deserialize
       (<["ON_INDEX" := Int 5]> (ProductOvernightIndexCashflow.serialize y))).
  evaluated Hless
    (ProductOvernightIndexCashflow.deserialize
       (delete "NOTIONAL"
          (<["ON_INDEX" := Int 5]> (ProductOvernightIndexCashflow.serialize y)))).
  split; [exact Hall | exact Hless].
Qed.

End FurtherOnTheSample.

(** ** Binary64 arithmetic: equality, and sums that cancel *)

Module Float64Equality.

Lemma SFcompare_Eq (f1 f2 : spec_float) :
  SFcompare f1 f2 = Some Eq <-> same_number f1 f2.
Proof.
  destruct f1 as [s1|s1| |s1 m1 e1], f2 as [s2|s2| |s2 m2 e2]; cbn;
    try (split; [discriminate | contradiction]);
    try (destruct s1; (split; [discriminate | contradiction]));
    try (destruct s2; (split; [discriminate | contradiction])).
  - tauto.
  - destruct s1, s2; (split; intros; congruence).
  - change (PosDef.Pos.compare_cont Eq m1 m2) with (m1 ?= m2)%positive.
    destruct s1, s2; try (split; [discriminate | intros (? & _); discriminate]);
      (destruct (e1 ?= e2)%Z eqn:He;
       try (split; [discriminate
                   | intros (_ & _ & ->); rewrite Z.compare_refl in He; discriminate]));
      apply Z.compare_eq in He as ->;
      (destruct (m1 ?= m2)%positive eqn:Hm; cbn;
       try (split; [discriminate
                   | intros (_ & -> & _); rewrite Pos.compare_refl in Hm; discriminate]));
      apply Pos.compare_eq in Hm as ->; tauto.
Qed.

Lemma same_number_sym (f1 f2 : spec_float) : same_number f1 f2 -> same_number f2 f1.
Proof. destruct f1, f2; cbn; intuition congruence. Qed.

Lemma same_number_trans (f1 f2 f3 : spec_float) :
  same_number f1 f2 -> same_number f2 f3 -> same_number f1 f3.
Proof. destruct f1, f2, f3; cbn; intuition congruence. Qed.

Lemma eqb_same_number (x y : float) :
  (x =? y)%float = true <-> same_number (Prim2SF x) (Prim2SF y).
Proof.
  rewrite FloatAxioms.eqb_spec. unfold SFeqb. rewrite <- SFcompare_Eq.
  destruct (SFcompare _ _) as [[]|]; split; congruence.
Qed.

Lemma eqb_sym (x y : float) : (x =? y)%float = (y =? x)%float.
Proof.
  destruct (x =? y)%float eqn:Hxy, (y =? x)%float eqn:Hyx; try reflexivity.
  - apply eqb_same_number, same_number_sym, eqb_same_number in Hxy. congruence.
  - apply eqb_same_number, same_number_sym, eqb_same_number in Hyx. congruence.
Qed.

Lemma eqb_trans (x y z : float) :
  (x =? y)%float = true -> (y =? z)%float = true -> (x =? z)%float = true.
Proof.
  rewrite !eqb_same_number. apply same_number_trans.
Qed.

Lemma add_comm (x y : float) : (x + y)%float = (y + x)%float.
Proof.
  apply Prim2SF_inj. rewrite !add_spec.
  destruct (Prim2SF x) as [s1|s1| |s1 m1 e1], (Prim2SF y) as [s2|s2| |s2 m2 e2];
    cbn; try reflexivity; try (destruct s1, s2; reflexivity).
  rewrite (Z.min_comm e2 e1), Z.add_comm. reflexivity.
Qed.

(** A finite number and its opposite add up to zero. *)
Lemma add_opp_finite (x : float) :
  is_finite x = true -> (- x + x =? 0)%float = true.
Proof.
  intros Hfin. apply eqb_same_number. rewrite add_spec, opp_spec.
  change (Prim2SF 0) with (S754_zero false).
  unfold is_finite, is_nan, is_infinity in Hfin.
  rewrite !FloatAxioms.eqb_spec, abs_spec in Hfin.
  destruct (Prim2SF x) as [s|s| |s m e].
  - destruct s; exact I.
  - destruct s; discriminate.
  - discriminate.
  - clear Hfin. cbn.
    change (IntDef.Z.min e e) with (Z.min e e).
    replace (cond_Zopp (negb s) (Z.pos (fst (shl_align m e (Z.min e e))))
             + cond_Zopp s (Z.pos (fst (shl_align m e (Z.min e e)))))%Z with 0%Z
      by (generalize (fst (shl_align m e (Z.min e e))); intros p;
          destruct s; cbn [cond_Zopp negb];
          [apply eq_sym, Z.add_opp_diag_r | apply eq_sym, Z.add_opp_diag_l]).
    exact I.
Qed.

End Float64Equality.

(** ** OptionStrategy: the dict of a strategy *)

Section StrategyDict.
Import OptionStrategy.

Lemma OptionPayoff_eqb_eq (a b : OptionPayoff) :
  OptionPayoff_eqb a b = true <-> a = b.
Proof. destruct a, b; cbn; split; congruence. Qed.

Lemma key_eqb_sym (k k' : key) : key_eqb k k' = key_eqb k' k.
Proof.
  unfold key_eqb. rewrite Float64Equality.eqb_sym. f_equal.
  destruct k.1, k'.1; reflexivity.
Qed.

Lemma key_eqb_trans (k1 k2 k3 : key) :
  key_eqb k1 k2 = true -> key_eqb k2 k3 = true -> key_eqb k1 k3 = true.
Proof.
  unfold key_eqb. rewrite !andb_true_iff, !OptionPayoff_eqb_eq.
  intros [-> H12] [-> H23]. split; [reflexivity|].
  exact (Float64Equality.eqb_trans _ _ _ H12 H23).
Qed.

(** Equal keys are equal to the same keys. *)
Lemma key_eqb_respects (k0 k k' : key) :
  key_eqb k k' = true -> key_eqb k0 k = key_eqb k0 k'.
Proof.
  intros Hk. destruct (key_eqb k0 k) eqn:H0, (key_eqb k0 k') eqn:H0'; try reflexivity.
  - rewrite (key_eqb_trans _ _ _ H0 Hk) in H0'. discriminate.
  - rewrite key_eqb_sym in Hk. rewrite (key_eqb_trans _ _ _ H0' Hk) in H0. discriminate.
Qed.

Lemma key_eqb_respects_l (k k' k0 : key) :
  key_eqb k k' = true -> key_eqb k k0 = key_eqb k' k0.
Proof.
  intros Hk. rewrite (key_eqb_sym k k0), (key_eqb_sym k' k0).
  exact (key_eqb_respects k0 _ _ Hk).
Qed.

Lemma key_eqb_refl_l (k k' : key) : key_eqb k k' = true -> key_eqb k k = true.
Proof.
  intros Hk. apply (key_eqb_trans _ _ _ Hk). rewrite key_eqb_sym. exact Hk.
Qed.

Lemma key_eqb_refl_r (k k' : key) : key_eqb k k' = true -> key_eqb k' k' = true.
Proof.
  intros Hk. rewrite key_eqb_sym in Hk. exact (key_eqb_refl_l _ _ Hk).
Qed.

Lemma dict_get_respects (d : dict) (k k' : key) :
  key_eqb k k' = true -> dict_get d k = dict_get d k'.
Proof.
  intros Hk. induction d as [|[k0 v0] d IH]; [reflexivity|].
  cbn. rewrite (key_eqb_respects k0 _ _ Hk), IH. reflexivity.
Qed.

(** A key that does not equal itself is found in no dict. *)
Lemma dict_get_improper (d : dict) (k : key) :
  key_eqb k k = false -> dict_get d k = None.
Proof.
  intros Hk. induction d as [|[k0 v0] d IH]; [reflexivity|].
  cbn. destruct (key_eqb k0 k) eqn:H0; [|exact IH].
  rewrite (key_eqb_refl_r _ _ H0) in Hk. discriminate.
Qed.

Lemma dict_get_setitem (d : dict) (k : key) (v : float) (k' : key) :
  key_eqb k k = true ->
  dict_get (dict_setitem d k v) k'
  = if key_eqb k k' then Some v else dict_get d k'.
Proof.
  intros Hkk. induction d as [|[k0 v0] d IH]; [reflexivity|].
  cbn. destruct (key_eqb k0 k) eqn:H0; cbn.
  - destruct (key_eqb k k') eqn:Hk.
    + rewrite (key_eqb_trans _ _ _ H0 Hk). reflexivity.
    + rewrite (key_eqb_respects_l _ _ k' H0), Hk. reflexivity.
  - rewrite IH. destruct (key_eqb k k') eqn:Hk; [|reflexivity].
    rewrite <- (key_eqb_respects k0 _ _ Hk), H0. reflexivity.
Qed.

Lemma dict_get_setitem_same (d : dict) (k : key) (v : float) :
  key_eqb k k = true -> dict_get (dict_setitem d k v) k = Some v.
Proof.
  intros Hkk. rewrite dict_get_setitem, Hkk by exact Hkk. reflexivity.
Qed.

Lemma dict_get_remove (d : dict) (k k' : key) :
  dict_get (dict_remove d k) k'
  = if key_eqb k k' then None else dict_get d k'.
Proof.
  induction d as [|[k0 v0] d IH]; [destruct (key_eqb k k'); reflexivity|].
  cbn. destruct (key_eqb k0 k) eqn:H0; cbn; rewrite IH.
  - destruct (key_eqb k k') eqn:Hk; [reflexivity|].
    rewrite (key_eqb_respects_l _ _ k' H0), Hk. reflexivity.
  - destruct (key_eqb k k') eqn:Hk; [|reflexivity].
    rewrite <- (key_eqb_respects k0 _ _ Hk), H0. reflexivity.
Qed.

Lemma distinct_keys_setitem (d : dict) (k : key) (v : float) :
  key_eqb k k = true -> distinct_keys d -> distinct_keys (dict_setitem d k v).
Proof.
  intros Hkk. induction d as [|[k0 v0] d IH]; cbn.
  - auto.
  - intros (H00 & Hnone & Hd). destruct (key_eqb k0 k) eqn:H0; cbn.
    + auto.
    + repeat split; [exact H00| |exact (IH Hd)].
      rewrite dict_get_setitem, key_eqb_sym, H0 by exact Hkk. exact Hnone.
Qed.

Lemma distinct_keys_remove (d : dict) (k : key) :
  distinct_keys d -> distinct_keys (dict_remove d k).
Proof.
  induction d as [|[k0 v0] d IH]; cbn; [auto|].
  intros (H00 & Hnone & Hd).
  destruct (key_eqb k0 k) eqn:H0; [exact (IH Hd)|].
  cbn. repeat split; [exact H00| |exact (IH Hd)].
  rewrite dict_get_remove, Hnone. destruct (key_eqb k k0); reflexivity.
Qed.

(** A dict in which no key is found is the empty dict. *)
Lemma distinct_keys_nil (d : dict) :
  distinct_keys d -> (forall k, dict_get d k = None) -> d = [].
Proof.
  destruct d as [|[k0 v0] d]; [reflexivity|]. cbn.
  intros (H00 & _) Hnone. specialize (Hnone k0). rewrite H00 in Hnone. discriminate.
Qed.

(** Setting a key no item has appends the item. *)
Lemma dict_setitem_fresh (d : dict) (k : key) (v : float) :
  dict_get d k = None -> dict_setitem d k v = d ++ [(k, v)].
Proof.
  induction d as [|[k0 v0] d IH]; [reflexivity|].
  cbn. destruct (key_eqb k0 k); [discriminate|].
  intros Hnone. rewrite (IH Hnone). reflexivity.
Qed.

Lemma dict_get_app (d1 d2 : dict) (k : key) :
  dict_get (d1 ++ d2) k
  = match dict_get d1 k with Some v => Some v | None => dict_get d2 k end.
Proof.
  induction d1 as [|[k0 v0] d1 IH]; [reflexivity|].
  cbn. destruct (key_eqb k0 k); [reflexivity | exact IH].
Qed.

End StrategyDict.

(** ** OptionStrategy: lists of assignments *)

Section StrategyItems.
Import OptionStrategy.

Lemma dict_setitems_app (d items1 items2 : dict) :
  dict_setitems d (items1 ++ items2) = dict_setitems (dict_setitems d items1) items2.
Proof. apply fold_left_app. Qed.

Lemma distinct_keys_snoc (d : dict) (k : key) (v : float) :
  distinct_keys (d ++ [(k, v)]) -> distinct_keys d /\ dict_get d k = None.
Proof.
  induction d as [|[k0 v0] d IH]; cbn; [auto|].
  intros (H00 & Hnone & Hd). destruct (IH Hd) as [Hd' Hk].
  rewrite dict_get_app in Hnone. cbn in Hnone.
  destruct (dict_get d k0) eqn:H0; [discriminate|].
  destruct (key_eqb k k0) eqn:Hkk0; [discriminate|].
  rewrite (key_eqb_sym k0 k), Hkk0. auto.
Qed.

(** Assigning items of distinct keys to the empty dict gives the items. *)
Lemma dict_setitems_distinct (items : dict) :
  distinct_keys items -> dict_setitems [] items = items.
Proof.
  induction items as [|[k v] items IH] using rev_ind; [reflexivity|].
  intros Hd. apply distinct_keys_snoc in Hd as [Hd Hk].
  rewrite dict_setitems_app, (IH Hd). cbn.
  apply dict_setitem_fresh. exact Hk.
Qed.

(** The last assignment to a key is the one that stays. *)
Lemma dict_get_setitems (items d : dict) (k : key) :
  Forall (fun kv => key_eqb kv.1 kv.1 = true) items ->
  dict_get (dict_setitems d items) k
  = match dict_get (rev items) k with Some v => Some v | None => dict_get d k end.
Proof.
  revert d. induction items as [|[k0 v0] items IH]; intros d Hproper; [reflexivity|].
  apply Forall_cons in Hproper as [H0 Hproper]. cbn [fst] in H0.
  cbn [dict_setitems fold_left rev fst snd].
  change (fold_left _ items ?d0) with (dict_setitems d0 items).
  rewrite (IH _ Hproper), dict_get_app, dict_get_setitem by exact H0.
  cbn. destruct (dict_get (rev items) k); [reflexivity|].
  destruct (key_eqb k0 k); reflexivity.
Qed.

Lemma distinct_keys_setitems (items d : dict) :
  Forall (fun kv => key_eqb kv.1 kv.1 = true) items ->
  distinct_keys d -> distinct_keys (dict_setitems d items).
Proof.
  revert d. induction items as [|[k0 v0] items IH]; intros d Hproper Hd; [exact Hd|].
  apply Forall_cons in Hproper as [H0 Hproper].
  apply (IH _ Hproper), distinct_keys_setitem; assumption.
Qed.

Lemma length_dict_setitem (d : dict) (k : key) (v : float) :
  (length (dict_setitem d k v) <= S (length d))%nat.
Proof.
  induction d as [|[k0 v0] d IH]; cbn; [lia|].
  destruct (key_eqb k0 k); cbn; lia.
Qed.

Lemma length_dict_setitems (items d : dict) :
  (length (dict_setitems d items) <= length d + length items)%nat.
Proof.
  revert d. induction items as [|[k0 v0] items IH]; intros d; cbn; [lia|].
  change (fold_left _ items ?d0) with (dict_setitems d0 items).
  pose proof (IH (dict_setitem d k0 v0)). pose proof (length_dict_setitem d k0 v0). lia.
Qed.

Lemma createFromList_loop_setitems (opt_types : list string)
    (delta_strikes weights : list float) (result : dict) :
  createFromList_loop opt_types delta_strikes weights result
  = dict_setitems result (listed_items opt_types delta_strikes weights).
Proof.
  revert delta_strikes weights result.
  induction opt_types as [|o opt_types IH]; intros [|d ds] [|w ws] result;
    try reflexivity.
  cbn. apply IH.
Qed.

Lemma listed_items_proper (opt_types : list string) (delta_strikes weights : list float) :
  Forall (fun d => (d =? d)%float = true) delta_strikes ->
  Forall (fun kv => key_eqb kv.1 kv.1 = true)
    (listed_items opt_types delta_strikes weights).
Proof.
  revert delta_strikes weights.
  induction opt_types as [|o opt_types IH]; intros [|d ds] [|w ws] Hds;
    try apply Forall_nil_2.
  apply Forall_cons in Hds as [Hd Hds]. cbn. apply Forall_cons. split.
  - unfold key_eqb. cbn. rewrite Hd. destruct (opt_type_of o); reflexivity.
  - apply IH. exact Hds.
Qed.

Lemma length_listed_items (opt_types : list string) (delta_strikes weights : list float) :
  (length (listed_items opt_types delta_strikes weights) <= length opt_types)%nat.
Proof.
  revert delta_strikes weights.
  induction opt_types as [|o opt_types IH]; intros [|d ds] [|w ws]; cbn; try lia.
  specialize (IH ds ws). lia.
Qed.

(** X17. [createFromList] raises [AssertionError] exactly when the three
    lists differ in length. Otherwise it returns the strategy of the given
    name in which a key holds the weight of the last position that spells
    it, so that it has at most as many items as the lists are long, and
    exactly the listed items, in their order, when no two positions spell
    the same key. *)
Theorem createFromList_last_position_wins (name : string)
    (opt_types : list string) (delta_strikes weights : list float) :
  Forall (fun d => (d =? d)%float = true) delta_strikes ->
  match createFromList name opt_types delta_strikes weights with
  | Returned s =>
      length opt_types = length delta_strikes
      /\ length delta_strikes = length weights
      /\ OptionStrategy.name s = name
      /\ distinct_keys (content s)
      /\ (forall k, dict_get (content s) k
                    = dict_get (rev (listed_items opt_types delta_strikes weights)) k)
      /\ (__len__ s <= Z.of_nat (length opt_types))%Z
      /\ (distinct_keys (listed_items opt_types delta_strikes weights) ->
          content s = listed_items opt_types delta_strikes weights)
  | Raised e =>
      e = AssertionError
      /\ ~ (length opt_types = length delta_strikes
            /\ length delta_strikes = length weights)
  end.
Proof.
  intros Hds. unfold createFromList.
  destruct (length opt_types =? length delta_strikes)%nat eqn:H1;
    [destruct (length delta_strikes =? length weights)%nat eqn:H2|]; cbn [andb].
  - apply Nat.eqb_eq in H1, H2.
    unfold __len__. cbn [content content_ OptionStrategy.name name_ __init__].
    rewrite createFromList_loop_setitems.
    pose proof (listed_items_proper opt_types _ weights Hds) as Hproper.
    repeat split; try assumption.
    + apply distinct_keys_setitems; [exact Hproper | exact I].
    + intros k. rewrite (dict_get_setitems _ _ _ Hproper).
      destruct (dict_get _ k); reflexivity.
    + pose proof (length_dict_setitems
                    (listed_items opt_types delta_strikes weights) []).
      pose proof (length_listed_items opt_types delta_strikes weights).
      cbn [length] in *. lia.
    + apply dict_setitems_distinct.
  - apply Nat.eqb_neq in H2. split; [reflexivity | tauto].
  - apply Nat.eqb_neq in H1. split; [reflexivity | tauto].
Qed.

End StrategyItems.

(** ** OptionStrategy: scaling *)

Section StrategyScaling.
Import OptionStrategy.

Variable str_of_float : float -> string.

Lemma mul_items_setitems (scaler : float) (items content : dict) :
  mul_items scaler items content
  = if (scaler =? 0)%float then content
    else dict_setitems content (scaled_items scaler items).
Proof.
  revert content. induction items as [|[k v] items IH]; intros content; cbn.
  - destruct (scaler =? 0)%float; reflexivity.
  - rewrite IH. destruct (scaler =? 0)%float; reflexivity.
Qed.

Lemma dict_get_scaled_items (scaler : float) (d : dict) (k : key) :
  dict_get (scaled_items scaler d) k
  = option_map (fun v => (v * scaler)%float) (dict_get d k).
Proof.
  induction d as [|[k0 v0] d IH]; [reflexivity|].
  cbn. destruct (key_eqb k0 k); [reflexivity | exact IH].
Qed.

Lemma distinct_keys_scaled_items (scaler : float) (d : dict) :
  distinct_keys d -> distinct_keys (scaled_items scaler d).
Proof.
  induction d as [|[k0 v0] d IH]; cbn; [auto|].
  intros (H00 & Hnone & Hd). repeat split; [exact H00| |exact (IH Hd)].
  change (map _ d) with (scaled_items scaler d).
  rewrite dict_get_scaled_items, Hnone. reflexivity.
Qed.

(** The content of a scaled strategy. *)
Lemma mul_content (self : t) (scaler : float) :
  distinct_keys (content self) ->
  content (__mul__ str_of_float self scaler)
  = if (scaler =? 0)%float then [] else scaled_items scaler (content self).
Proof.
  intros Hd. unfold __mul__. cbn [content content_ __init__].
  rewrite mul_items_setitems. destruct (scaler =? 0)%float; [reflexivity|].
  apply dict_setitems_distinct, distinct_keys_scaled_items. exact Hd.
Qed.

Lemma scaled_items_one (d : dict) : scaled_items 1 d = d.
Proof.
  induction d as [|[k0 v0] d IH]; [reflexivity|].
  cbn. rewrite Float64.mul_1_r. f_equal. exact IH.
Qed.

(** X18. Scaling a strategy multiplies every weight and leaves the keys and
    their order alone, whatever the scaler that is not zero: a NaN or an
    infinite one as well. A scaler that compares equal to zero, [-0.0]
    included, leaves a strategy with no item at all. *)
Theorem mul_scales_every_weight (self : t) (scaler : float) :
  distinct_keys (content self) ->
  name (__mul__ str_of_float self scaler)
  = (name self ++ "_SCALED_BY_" ++ str_of_float scaler)%string
  /\ ((scaler =? 0)%float = true ->
      content (__mul__ str_of_float self scaler) = []
      /\ __len__ (__mul__ str_of_float self scaler) = 0%Z)
  /\ ((scaler =? 0)%float = false ->
      content (__mul__ str_of_float self scaler)
      = scaled_items scaler (content self)
      /\ __len__ (__mul__ str_of_float self scaler) = __len__ self
      /\ distinct_keys (content (__mul__ str_of_float self scaler))
      /\ forall k, __contains__ (__mul__ str_of_float self scaler) k
                   = __contains__ self k).
Proof.
  intros Hd. split; [reflexivity|].
  unfold __len__, __contains__, dict_contains. rewrite (mul_content _ _ Hd).
  split; intros ->; [split; reflexivity|].
  repeat split.
  - unfold scaled_items. rewrite length_map. reflexivity.
  - apply distinct_keys_scaled_items. exact Hd.
  - intros k. rewrite dict_get_scaled_items.
    destruct (dict_get (content self) _); reflexivity.
Qed.

(** X19. Scaling by one gives the strategy back, item for item. *)
Theorem mul_by_one (self : t) :
  distinct_keys (content self) ->
  content (__mul__ str_of_float self 1) = content self.
Proof.
  intros Hd. rewrite (mul_content _ _ Hd).
  change (1 =? 0)%float with false. cbv iota. apply scaled_items_one.
Qed.

End StrategyScaling.

(** ** OptionStrategy: sums *)

Section StrategySums.
Import OptionStrategy.

Lemma traversed_app (traversed_keys : list key) (k k' : key) :
  traversed (traversed_keys ++ [k]) k' = traversed traversed_keys k' || key_eqb k k'.
Proof.
  unfold traversed. rewrite existsb_app. cbn. rewrite orb_false_r. reflexivity.
Qed.

Lemma traversed_respects (traversed_keys : list key) (k k' : key) :
  key_eqb k k' = true -> traversed traversed_keys k = traversed traversed_keys k'.
Proof.
  intros Hk. unfold traversed.
  induction traversed_keys as [|k0 keys IH]; [reflexivity|].
  cbn. rewrite (key_eqb_respects k0 _ _ Hk), IH. reflexivity.
Qed.

(** One round of the first loop: the key of the round gets its weight in
    the sum, every other key keeps what it had. *)
Lemma add_own_item_inv (in_strategy : t) (k : key) (v : float)
    (content : dict) (traversed_keys : list key) :
  key_eqb k k = true ->
  exists content' traversed_keys',
    add_own_item in_strategy k v (content, traversed_keys)
    = Returned (content', traversed_keys')
    /\ (forall k', dict_get content' k'
                   = if key_eqb k k'
                     then added_weight (Some v)
                            (dict_get (OptionStrategy.content in_strategy) k)
                     else dict_get content k')
    /\ (forall k', traversed traversed_keys' k'
                   = traversed traversed_keys k'
                     || (key_eqb k k'
                         && dict_contains (OptionStrategy.content in_strategy) k))
    /\ (distinct_keys content -> distinct_keys content').
Proof.
  intros Hkk. unfold add_own_item, __getitem__, dict_getitem, dict_pop, dict_contains.
  cbn [fst snd].
  destruct (dict_get (OptionStrategy.content in_strategy) k) as [w|] eqn:Hw.
  - cbn [negb]. destruct k as [o d]. cbn [fst snd]. rewrite Hw.
    repeat first [ rewrite (dict_get_setitem_same _ _ _ Hkk)
                 | progress cbn [mbind result_bind fst snd added_weight] ].
    destruct (v + w =? 0)%float;
      repeat first [ rewrite (dict_get_setitem_same _ _ _ Hkk)
                   | progress cbn [mbind result_bind fst snd] ].
    + do 2 eexists. split; [reflexivity|]. repeat split.
      * intros k'. rewrite dict_get_remove.
        destruct (key_eqb (o, d) k') eqn:Hk; [reflexivity|].
        rewrite !dict_get_setitem, Hk by exact Hkk. reflexivity.
      * intros k'. rewrite traversed_app, andb_true_r. reflexivity.
      * intros Hd. apply distinct_keys_remove.
        do 2 (apply distinct_keys_setitem; [exact Hkk|]). exact Hd.
    + do 2 eexists. split; [reflexivity|]. repeat split.
      * intros k'. rewrite !dict_get_setitem by exact Hkk.
        destruct (key_eqb (o, d) k'); reflexivity.
      * intros k'. rewrite traversed_app, andb_true_r. reflexivity.
      * intros Hd. do 2 (apply distinct_keys_setitem; [exact Hkk|]). exact Hd.
  - repeat first [ rewrite (dict_get_setitem_same _ _ _ Hkk)
                 | progress cbn [mbind result_bind fst snd added_weight] ].
    destruct (v =? 0)%float;
      repeat first [ rewrite (dict_get_setitem_same _ _ _ Hkk)
                   | progress cbn [mbind result_bind fst snd] ].
    + do 2 eexists. split; [reflexivity|]. repeat split.
      * intros k'. rewrite dict_get_remove.
        destruct (key_eqb k k') eqn:Hk; [reflexivity|].
        rewrite dict_get_setitem, Hk by exact Hkk. reflexivity.
      * intros k'. rewrite andb_false_r, orb_false_r. reflexivity.
      * intros Hd. apply distinct_keys_remove, distinct_keys_setitem; assumption.
    + do 2 eexists. split; [reflexivity|]. repeat split.
      * intros k'. rewrite dict_get_setitem by exact Hkk.
        destruct (key_eqb k k'); reflexivity.
      * intros k'. rewrite andb_false_r, orb_false_r. reflexivity.
      * intros Hd. apply distinct_keys_setitem; assumption.
Qed.

(** The first loop of [__add__]. *)
Lemma add_own_items_inv (in_strategy : t) (items content : dict)
    (traversed_keys : list key) :
  distinct_keys items ->
  exists content' traversed_keys',
    add_own_items in_strategy items (content, traversed_keys)
    = Returned (content', traversed_keys')
    /\ (forall k', dict_get content' k'
                   = match dict_get items k' with
                     | Some v =>
                         added_weight (Some v)
                           (dict_get (OptionStrategy.content in_strategy) k')
                     | None => dict_get content k'
                     end)
    /\ (forall k', traversed traversed_keys' k'
                   = traversed traversed_keys k'
                     || match dict_get items k' with
                        | Some _ =>
                            dict_contains (OptionStrategy.content in_strategy) k'
                        | None => false
                        end)
    /\ (distinct_keys content -> distinct_keys content').
Proof.
  revert content traversed_keys.
  induction items as [|[k v] items IH]; intros content traversed_keys.
  - intros _. exists content, traversed_keys. cbn.
    repeat split; auto. intros k'. rewrite orb_false_r. reflexivity.
  - cbn [distinct_keys]. intros (Hkk & Hnone & Hd).
    destruct (add_own_item_inv in_strategy k v content traversed_keys Hkk)
      as (c1 & t1 & Hrun1 & Hget1 & Htr1 & Hd1).
    destruct (IH c1 t1 Hd) as (c2 & t2 & Hrun2 & Hget2 & Htr2 & Hd2).
    exists c2, t2. cbn [add_own_items]. rewrite Hrun1. cbn [mbind result_bind].
    split; [exact Hrun2|]. repeat split.
    + intros k'. rewrite Hget2, Hget1. cbn [dict_get].
      destruct (key_eqb k k') eqn:Hk; [|reflexivity].
      rewrite <- (dict_get_respects items _ _ Hk), Hnone.
      rewrite (dict_get_respects _ _ _ Hk). reflexivity.
    + intros k'. rewrite Htr2, Htr1. cbn [dict_get].
      destruct (key_eqb k k') eqn:Hk.
      * rewrite <- (dict_get_respects items _ _ Hk), Hnone, orb_false_r.
        unfold dict_contains. rewrite (dict_get_respects _ _ _ Hk). reflexivity.
      * cbn [andb]. rewrite orb_false_r. reflexivity.
    + auto.
Qed.

(** The second loop of [__add__]. *)
Lemma add_other_items_inv (traversed_keys : list key) (items content : dict) :
  distinct_keys items ->
  (forall k', dict_get (add_other_items traversed_keys items content) k'
              = match dict_get items k' with
                | Some w =>
                    if traversed traversed_keys k' then dict_get content k'
                    else Some w
                | None => dict_get content k'
                end)
  /\ (distinct_keys content ->
      distinct_keys (add_other_items traversed_keys items content)).
Proof.
  revert content. induction items as [|[k w] items IH]; intros content.
  - intros _. cbn. auto.
  - cbn [distinct_keys]. intros (Hkk & Hnone & Hd). cbn [add_other_items].
    destruct (IH (if negb (traversed traversed_keys k)
                  then dict_setitem content k w else content) Hd)
      as [Hget Hdist].
    split.
    + intros k'. rewrite Hget. cbn [dict_get].
      destruct (key_eqb k k') eqn:Hk.
      * rewrite <- (dict_get_respects items _ _ Hk), Hnone.
        rewrite <- (traversed_respects _ _ _ Hk).
        destruct (traversed traversed_keys k); cbn [negb]; [reflexivity|].
        rewrite dict_get_setitem, Hk by exact Hkk. reflexivity.
      * assert (Hsame : dict_get (if negb (traversed traversed_keys k)
                                  then dict_setitem content k w else content) k'
                        = dict_get content k').
        { destruct (negb (traversed traversed_keys k)); [|reflexivity].
          rewrite dict_get_setitem, Hk by exact Hkk. reflexivity. }
        rewrite Hsame. reflexivity.
    + intros Hc. apply Hdist.
      destruct (negb (traversed traversed_keys k)); [|exact Hc].
      apply distinct_keys_setitem; assumption.
Qed.

(** The sum of two strategies, key by key. *)
Lemma add_inv (self in_strategy : t) :
  distinct_keys (content self) ->
  distinct_keys (content in_strategy) ->
  exists s,
    __add__ self in_strategy = Returned s
    /\ name s = (name self ++ "_ADD_" ++ name in_strategy)%string
    /\ distinct_keys (content s)
    /\ forall k, dict_get (content s) k
                 = added_weight (dict_get (content self) k)
                     (dict_get (content in_strategy) k).
Proof.
  intros Hself Hother. unfold __add__.
  destruct (add_own_items_inv in_strategy (content self) [] [] Hself)
    as (c1 & t1 & Hrun & Hget1 & Htr1 & Hd1).
  match goal with
  | |- context [add_own_items ?o ?items ?state] =>
      replace (add_own_items o items state) with (Returned (c1, t1))
        by (symmetry; exact Hrun)
  end.
  cbn [mbind result_bind fst snd].
  destruct (add_other_items_inv t1 (content in_strategy) c1 Hother) as [Hget2 Hd2].
  eexists. split; [reflexivity|].
  change (content (__init__ ?n ?c)) with c.
  repeat split.
  - apply Hd2, Hd1. exact I.
  - intros k. rewrite Hget2, Htr1, Hget1. unfold dict_contains.
    cbn [traversed existsb orb dict_get].
    destruct (dict_get (content self) k) as [v|],
             (dict_get (content in_strategy) k) as [w|];
      reflexivity.
Qed.

Lemma getitem_item_of (s : t) (k : key) :
  __getitem__ s k = item_of k (dict_get (content s) k).
Proof.
  unfold __getitem__, dict_getitem, dict_contains. destruct k as [o d]. cbn [fst snd].
  destruct (dict_get (content s) (o, d)); reflexivity.
Qed.

(** X20. Adding two strategies never raises. In the sum, a key of both
    holds the sum of its two weights and a key of the first alone its
    weight, unless that compares equal to zero, in which case the key is
    dropped; a key of the second alone holds its weight, zero or not; and
    no other key is there. *)
Theorem add_weights (self in_strategy : t) :
  distinct_keys (content self) ->
  distinct_keys (content in_strategy) ->
  exists s,
    __add__ self in_strategy = Returned s
    /\ name s = (name self ++ "_ADD_" ++ name in_strategy)%string
    /\ distinct_keys (content s)
    /\ forall k,
         __getitem__ s k
         = item_of k (added_weight (dict_get (content self) k)
                        (dict_get (content in_strategy) k))
         /\ __contains__ s k
            = match added_weight (dict_get (content self) k)
                      (dict_get (content in_strategy) k) with
              | Some _ => true
              | None => false
              end.
Proof.
  intros Hself Hother.
  destruct (add_inv self in_strategy Hself Hother) as (s & Hrun & Hname & Hd & Hget).
  exists s. repeat split; try assumption.
  - rewrite getitem_item_of, Hget. reflexivity.
  - unfold __contains__, dict_contains. destruct k as [o d]. cbn [fst snd].
    rewrite Hget. reflexivity.
Qed.

Lemma nonzero_weights_get (d : dict) (k : key) (v : float) :
  nonzero_weights d -> dict_get d k = Some v -> (v =? 0)%float = false.
Proof.
  induction d as [|[k0 v0] d IH]; [discriminate|].
  intros Hnz. apply Forall_cons in Hnz as [H0 Hnz]. cbn.
  destruct (key_eqb k0 k); [|exact (IH Hnz)].
  intros [= <-]. exact H0.
Qed.

Lemma finite_weights_get (d : dict) (k : key) (v : float) :
  finite_weights d -> dict_get d k = Some v -> is_finite v = true.
Proof.
  induction d as [|[k0 v0] d IH]; [discriminate|].
  intros Hfin. apply Forall_cons in Hfin as [H0 Hfin]. cbn.
  destruct (key_eqb k0 k); [|exact (IH Hfin)].
  intros [= <-]. exact H0.
Qed.

(** X21. When no weight of either strategy compares equal to zero, the two
    orders of a sum agree on every key: the same keys, with the same
    weights. *)
Theorem add_commutes_on_weights (a b : t) :
  distinct_keys (content a) -> distinct_keys (content b) ->
  nonzero_weights (content a) -> nonzero_weights (content b) ->
  exists s s',
    __add__ a b = Returned s /\ __add__ b a = Returned s'
    /\ forall k, __getitem__ s k = __getitem__ s' k
                 /\ __contains__ s k = __contains__ s' k.
Proof.
  intros Ha Hb Hza Hzb.
  destruct (add_inv a b Ha Hb) as (s & Hrun & _ & _ & Hget).
  destruct (add_inv b a Hb Ha) as (s' & Hrun' & _ & _ & Hget').
  exists s, s'. split; [exact Hrun|]. split; [exact Hrun'|].
  assert (Heq : forall k, dict_get (content s) k = dict_get (content s') k).
  { intros k. rewrite Hget, Hget'.
    destruct (dict_get (content a) k) as [v|] eqn:Hv,
             (dict_get (content b) k) as [w|] eqn:Hw; cbn [added_weight].
    - rewrite (Float64Equality.add_comm w v). reflexivity.
    - rewrite (nonzero_weights_get _ _ _ Hza Hv). reflexivity.
    - rewrite (nonzero_weights_get _ _ _ Hzb Hw). reflexivity.
    - reflexivity. }
  intros k. split.
  - rewrite !getitem_item_of, Heq. reflexivity.
  - unfold __contains__, dict_contains. rewrite Heq. reflexivity.
Qed.

Section Cancelling.
Variable str_of_float : float -> string.

(** X22. A strategy of finite weights and its opposite cancel: their sum,
    in either order, is a strategy with no item. *)
Theorem add_opposite_is_empty (self : t) :
  distinct_keys (content self) ->
  finite_weights (content self) ->
  exists s s',
    __add__ (__mul__ str_of_float self (-1)) self = Returned s
    /\ __add__ self (__mul__ str_of_float self (-1)) = Returned s'
    /\ content s = [] /\ content s' = []
    /\ __len__ s = 0%Z /\ __len__ s' = 0%Z.
Proof.
  intros Hd Hfin.
  assert (Hopp : content (__mul__ str_of_float self (-1))
                 = scaled_items (-1) (content self)).
  { rewrite (mul_content _ _ _ Hd). reflexivity. }
  assert (Hd' : distinct_keys (content (__mul__ str_of_float self (-1)))).
  { rewrite Hopp. apply distinct_keys_scaled_items. exact Hd. }
  destruct (add_inv _ self Hd' Hd) as (s & Hrun & _ & Hds & Hget).
  destruct (add_inv self _ Hd Hd') as (s' & Hrun' & _ & Hds' & Hget').
  assert (Hs : content s = []).
  { apply (distinct_keys_nil _ Hds). intros k.
    rewrite Hget, Hopp, dict_get_scaled_items.
    destruct (dict_get (content self) k) as [v|] eqn:Hv; [|reflexivity].
    cbn [option_map added_weight].
    rewrite Float64.mul_m1_r,
      (Float64Equality.add_opp_finite _ (finite_weights_get _ _ _ Hfin Hv)).
    reflexivity. }
  assert (Hs' : content s' = []).
  { apply (distinct_keys_nil _ Hds'). intros k.
    rewrite Hget', Hopp, dict_get_scaled_items.
    destruct (dict_get (content self) k) as [v|] eqn:Hv; [|reflexivity].
    cbn [option_map added_weight].
    rewrite Float64.mul_m1_r, Float64Equality.add_comm,
      (Float64Equality.add_opp_finite _ (finite_weights_get _ _ _ Hfin Hv)).
    reflexivity. }
  exists s, s'. unfold __len__. rewrite Hs, Hs'. repeat split; assumption.
Qed.

End Cancelling.

End StrategySums.

(** ** The properties of the strategies on the samples *)

Section StrategiesOnTheSample.
Import OptionStrategy.

Ltac keys_are_distinct := vm_compute; repeat split; reflexivity.

Lemma createFromList_last_position_wins_sample :
  Forall (fun d => (d =? d)%float = true) [0.25%float; 0.25%float; (-0.25)%float]
  /\ match createFromList "RISK_REVERSAL" ["c"; "C"; "p"]
             [0.25%float; 0.25%float; (-0.25)%float]
             [2%float; 1%float; (-1)%float] with
     | Returned s =>
         length ["c"; "C"; "p"] = length [0.25%float; 0.25%float; (-0.25)%float]
         /\ length [0.25%float; 0.25%float; (-0.25)%float]
            = length [2%float; 1%float; (-1)%float]
         /\ OptionStrategy.name s = "RISK_REVERSAL"
         /\ distinct_keys (content s)
         /\ (forall k, dict_get (content s) k
                       = dict_get
                           (rev (listed_items ["c"; "C"; "p"]
                                   [0.25%float; 0.25%float; (-0.25)%float]
                                   [2%float; 1%float; (-1)%float])) k)
         /\ (__len__ s <= Z.of_nat (length ["c"; "C"; "p"]))%Z
         /\ (distinct_keys
               (listed_items ["c"; "C"; "p"]
                  [0.25%float; 0.25%float; (-0.25)%float]
                  [2%float; 1%float; (-1)%float]) ->
             content s
             = listed_items ["c"; "C"; "p"]
                 [0.25%float; 0.25%float; (-0.25)%float]
                 [2%float; 1%float; (-1)%float])
     | Raised e =>
         e = AssertionError
         /\ ~ (length ["c"; "C"; "p"]
               = length [0.25%float; 0.25%float; (-0.25)%float]
               /\ length [0.25%float; 0.25%float; (-0.25)%float]
                  = length [2%float; 1%float; (-1)%float])
     end.
Proof.
  assert (Hds : Forall (fun d => (d =? d)%float = true)
                  [0.25%float; 0.25%float; (-0.25)%float])
    by (repeat constructor).
  split; [exact Hds|].
  exact (createFromList_last_position_wins "RISK_REVERSAL" ["c"; "C"; "p"]
           [0.25%float; 0.25%float; (-0.25)%float]
           [2%float; 1%float; (-1)%float] Hds).
Defined.

(** The strategy the three lists above build. *)
Example created_risk_reversal :
  createFromList "RISK_REVERSAL" ["c"; "C"; "p"]
    [0.25%float; 0.25%float; (-0.25)%float] [2%float; 1%float; (-1)%float]
  = Returned SampleStrategies.risk_reversal.
Proof. reflexivity. Qed.

Lemma mul_scales_every_weight_sample :
  distinct_keys (content SampleStrategies.risk_reversal)
  /\ name (__mul__ SampleStrategies.str_of_float SampleStrategies.risk_reversal 2)
     = "RISK_REVERSAL_SCALED_BY_2.0"
  /\ content (__mul__ SampleStrategies.str_of_float SampleStrategies.risk_reversal 2)
     = scaled_items 2 (content SampleStrategies.risk_reversal)
  /\ __len__ (__mul__ SampleStrategies.str_of_float SampleStrategies.risk_reversal 2)
     = 2%Z.
Proof.
  assert (Hd : distinct_keys (content SampleStrategies.risk_reversal))
    by keys_are_distinct.
  destruct (mul_scales_every_weight SampleStrategies.str_of_float
              SampleStrategies.risk_reversal 2 Hd) as (Hname & _ & Hscaled).
  destruct (Hscaled eq_refl) as (Hcontent & Hlen & _).
  repeat split; assumption.
Defined.

Lemma mul_by_one_sample :
  distinct_keys (content SampleStrategies.straddle)
  /\ content (__mul__ SampleStrategies.str_of_float SampleStrategies.straddle 1)
     = content SampleStrategies.straddle.
Proof.
  assert (Hd : distinct_keys (content SampleStrategies.straddle))
    by keys_are_distinct.
  split; [exact Hd|].
  exact (mul_by_one SampleStrategies.str_of_float SampleStrategies.straddle Hd).
Defined.

Lemma add_weights_sample :
  distinct_keys (content SampleStrategies.risk_reversal)
  /\ distinct_keys (content SampleStrategies.call_spread)
  /\ exists s,
       __add__ SampleStrategies.risk_reversal SampleStrategies.call_spread
       = Returned s
       /\ name s = "RISK_REVERSAL_ADD_CALL_SPREAD"
       /\ distinct_keys (content s)
       /\ forall k,
            __getitem__ s k
            = item_of k
                (added_weight
                   (dict_get (content SampleStrategies.risk_reversal) k)
                   (dict_get (content SampleStrategies.call_spread) k))
            /\ __contains__ s k
               = match added_weight
                         (dict_get (content SampleStrategies.risk_reversal) k)
                         (dict_get (content SampleStrategies.call_spread) k) with
                 | Some _ => true
                 | None => false
                 end.
Proof.
  assert (Ha : distinct_keys (content SampleStrategies.risk_reversal))
    by keys_are_distinct.
  assert (Hb : distinct_keys (content SampleStrategies.call_spread))
    by keys_are_distinct.
  split; [exact Ha|]. split; [exact Hb|].
  exact (add_weights SampleStrategies.risk_reversal SampleStrategies.call_spread
           Ha Hb).
Defined.

(** The shared 25-delta call cancels: the sum is short the put and long the
    50-delta call. *)
Example risk_reversal_plus_call_spread :
  __add__ SampleStrategies.risk_reversal SampleStrategies.call_spread
  = Returned (__init__ "RISK_REVERSAL_ADD_CALL_SPREAD"
                [ ((PUT, (-0.25)%float), (-1)%float); ((CALL, 0.5%float), 1%float) ]).
Proof. reflexivity. Qed.

Lemma add_commutes_on_weights_sample :
  distinct_keys (content SampleStrategies.straddle)
  /\ distinct_keys (content SampleStrategies.call_spread)
  /\ nonzero_weights (content SampleStrategies.straddle)
  /\ nonzero_weights (content SampleStrategies.call_spread)
  /\ exists s s',
       __add__ SampleStrategies.straddle SampleStrategies.call_spread = Returned s
       /\ __add__ SampleStrategies.call_spread SampleStrategies.straddle = Returned s'
       /\ forall k, __getitem__ s k = __getitem__ s' k
                    /\ __contains__ s k = __contains__ s' k.
Proof.
  assert (Ha : distinct_keys (content SampleStrategies.straddle))
    by keys_are_distinct.
  assert (Hb : distinct_keys (content SampleStrategies.call_spread))
    by keys_are_distinct.
  assert (Hza : nonzero_weights (content SampleStrategies.straddle))
    by (repeat constructor).
  assert (Hzb : nonzero_weights (content SampleStrategies.call_spread))
    by (repeat constructor).
  repeat (split; [assumption|]).
  exact (add_commutes_on_weights SampleStrategies.straddle
           SampleStrategies.call_spread Ha Hb Hza Hzb).
Defined.

Lemma add_opposite_is_empty_sample :
  distinct_keys (content SampleStrategies.risk_reversal)
  /\ finite_weights (content SampleStrategies.risk_reversal)
  /\ exists s s',
       __add__ (__mul__ SampleStrategies.str_of_float
                  SampleStrategies.risk_reversal (-1))
         SampleStrategies.risk_reversal = Returned s
       /\ __add__ SampleStrategies.risk_reversal
            (__mul__ SampleStrategies.str_of_float
               SampleStrategies.risk_reversal (-1)) = Returned s'
       /\ content s = [] /\ content s' = []
       /\ __len__ s = 0%Z /\ __len__ s' = 0%Z.
Proof.
  assert (Hd : distinct_keys (content SampleStrategies.risk_reversal))
    by keys_are_distinct.
  assert (Hfin : finite_weights (content SampleStrategies.risk_reversal))
    by (repeat constructor).
  split; [exact Hd|]. split; [exact Hfin|].
  exact (add_opposite_is_empty SampleStrategies.str_of_float
           SampleStrategies.risk_reversal Hd Hfin).
Defined.

(** A weight of zero is dropped from the first term of a sum and kept from
    the second: the two orders then differ. *)
Example zero_weight_depends_on_the_side :
  __add__ (__init__ "FLAT" [ ((CALL, 0.25%float), 0%float) ])
    (__init__ "NONE" [])
  = Returned (__init__ "FLAT_ADD_NONE" [])
  /\ __add__ (__init__ "NONE" [])
       (__init__ "FLAT" [ ((CALL, 0.25%float), 0%float) ])
     = Returned (__init__ "NONE_ADD_FLAT" [ ((CALL, 0.25%float), 0%float) ]).
Proof. split; reflexivity. Qed.

End StrategiesOnTheSample.

